(** * EcoFinds marketplace backend (app.py): model and properties

    A shallow embedding of the Flask handlers of [app.py]: the request
    fields as the handlers read them, the MySQL tables as lists of rows,
    the connection as a transaction with an explicit commit, the bearer
    token as a symbolically signed payload.

    Modelling conventions, used throughout:
    - a request body is a JSON object whose fields carry the JSON types of
      the frontend contract (text as strings, ids as integers, price and
      quantity as numbers); each field may be absent or [null];
    - strings are Python's [str] values; [str.strip()] and [str.lower()]
      are the interpreter's, over all of Unicode, and are not redefined
      here: the handlers are modelled over any pair of functions with the
      three facts of [PyStr]; the worked scenario runs them on Latin-1
      text, where they are the functions of [latin1_text];
    - a table is the list of its rows in insertion order, a [SELECT]
      without [ORDER BY] returns rows in that order, and [WHERE col=%s]
      is equality;
    - integer columns are unbounded ([Z]); prices are binary64 floats;
    - ids come from auto-increment counters kept with the tables;
    - the connection is opened with autocommit off (the connector's
      default): statements act on the transaction's view, [conn.commit()]
      publishes it, and closing the connection without commit discards it;
    - [get_db_connection()] and [conn.cursor()] succeed; [cur.execute]
      (with its fetch) and [conn.commit] may raise: a schedule lists,
      statement by statement, which ones do;
    - the clock is a parameter: [now] where a handler reads it, in whole
      seconds since the epoch; a date outside the range of [datetime]
      makes [create_token] raise. *)

From Stdlib Require Import ZArith List String Ascii Bool Lia Floats.
From Stdlib Require Import Permutation Sorted.
Import ListNotations.

Local Open Scope string_scope.
Local Open Scope list_scope.
Local Open Scope Z_scope.

(** ** Python values and builtins *)

(** A key of the request body: absent, present with [null], or present
    with a value. *)
Inductive field (A : Type) : Type :=
| Absent
| Null
| Val (a : A).

Arguments Absent {A}.
Arguments Null {A}.
Arguments Val {A} a.

(** [data.get(k)]: [None] when the key is absent or [null]. *)
Definition get {A} (f : field A) : option A :=
  match f with
  | Val a => Some a
  | Absent | Null => None
  end.

(** [data.get(k, d)]: [d] when the key is absent, [None] when it is [null]. *)
Definition get_default {A} (f : field A) (d : A) : option A :=
  match f with
  | Absent => Some d
  | Null => None
  | Val a => Some a
  end.

(** [x or d] on an optional string: [d] when [x] is [None] or empty. *)
Definition or_else (x : option string) (d : string) : string :=
  match x with
  | Some s => if String.eqb s "" then d else s
  | None => d
  end.

(** A JSON number. *)
Inductive num :=
| NInt (z : Z)
| NFloat (f : float).

(** Exceptions, by class; a store error carries its message. *)
Inductive exn :=
| AttributeError
| TypeError
| ValueError
| OverflowError
| StoreError (detail : string).

(** Python-level computations that may raise. *)
Definition result (A : Type) : Type := exn + A.

Definition rbind {A B} (m : result A) (k : A -> result B) : result B :=
  match m with
  | inl e => inl e
  | inr a => k a
  end.

(** *** Strings *)

(** [str.strip()] removes the leading and trailing characters of
    [str.isspace] and [str.lower()] applies the lower-case mapping, both
    over all of Unicode. They are taken as given; what is used of them is
    that they leave the empty string empty and that lowering twice is
    lowering once. *)
Class PyStr := {
  strip : string -> string;
  lower : string -> string;
  strip_empty : strip "" = "";
  lower_empty : lower "" = "";
  lower_idem : forall s, lower (lower s) = lower s
}.

(** [x.strip()] where [x] may be [None]: [None] has no such attribute. *)
Definition py_strip `{PyStr} (x : option string) : result string :=
  match x with
  | Some s => inr (strip s)
  | None => inl AttributeError
  end.

Definition nonempty (s : string) : bool := negb (String.eqb s "").

(** *** Numbers *)

(** [float(n)]: an integer is rounded to the nearest binary64 (ties to
    even) and raises [OverflowError] beyond the finite range. *)
Definition float_of_Z (z : Z) : float :=
  SF2Prim (binary_normalize prec emax z 0 false).

Definition py_float (n : num) : result float :=
  match n with
  | NFloat f => inr f
  | NInt z =>
      let f := float_of_Z z in
      if PrimFloat.is_infinity f then inl OverflowError else inr f
  end.

(** [int(n)]: a float is truncated towards zero; [nan] raises
    [ValueError], an infinity [OverflowError]. *)
Definition trunc (f : float) : result Z :=
  match Prim2SF f with
  | S754_zero _ => inr 0
  | S754_infinity _ => inl OverflowError
  | S754_nan => inl ValueError
  | S754_finite s m e =>
      let a := if 0 <=? e then Z.shiftl (Zpos m) e else Z.shiftr (Zpos m) (- e) in
      inr (if s then - a else a)
  end.

(** [int(x)] where [x] may be [None]. *)
Definition py_int (x : option num) : result Z :=
  match x with
  | None => inl TypeError
  | Some (NInt z) => inr z
  | Some (NFloat f) => trunc f
  end.

(** ** Tokens *)

(** Process-wide configuration, read once from the environment. *)
Record config := mk_config {
  SECRET_KEY : string;
  JWT_EXPIRE_HOURS : Z
}.

(** The claims of a token as [create_token] writes them:
    [{'user_id': ..., 'exp': ...}], the expiry in seconds since the epoch.
    [create_token] is only called on integer ids, on which the [int(...)]
    of [jwt_required] is the identity. Tokens signed with the key but
    carrying other claims are outside this type. *)
Record payload := mk_payload {
  claim_user_id : Z;
  claim_exp : Z
}.

(** A bearer credential: a payload with its HS256 signature, kept
    symbolically as the key that signed it, or any other string. *)
Inductive token :=
| Signed (key : string) (p : payload)
| Garbage (s : string).

Inductive jwt_error :=
| ExpiredSignatureError
| InvalidTokenError.

(** [jwt.encode(payload, key, algorithm='HS256')]. *)
Definition jwt_encode (p : payload) (key : string) : token := Signed key p.

(** [jwt.decode(token, key, algorithms=['HS256'])] at time [now]: the
    signature is checked first, then the expiry. *)
Definition jwt_decode (t : token) (key : string) (now : Z) : jwt_error + payload :=
  match t with
  | Garbage _ => inl InvalidTokenError
  | Signed k p =>
      if negb (String.eqb k key) then inl InvalidTokenError
      else if claim_exp p <=? now then inl ExpiredSignatureError
      else inr p
  end.

(** The [Authorization] header of a request. *)
Inductive authorization :=
| NoHeader
| NotBearer (value : string)
| Bearer (t : token).

(** ** The store *)

(** A salted one-way password hash, kept symbolically. *)
Inductive pwhash :=
| Hashed (salt password : string).

Definition generate_password_hash (salt password : string) : pwhash :=
  Hashed salt password.

Definition check_password_hash (h : pwhash) (password : string) : bool :=
  match h with
  | Hashed _ p => String.eqb p password
  end.

Record user := mk_user {
  u_id : Z;
  u_username : string;
  u_email : string;
  u_password : pwhash
}.

(** Columns of [products]: id, user_id, title, description, price,
    category, image. *)
Record product := mk_product {
  p_id : Z;
  p_user_id : Z;
  p_title : string;
  p_description : string;
  p_price : float;
  p_category : string;
  p_image : string
}.

Record cart_row := mk_cart {
  c_id : Z;
  c_user_id : Z;
  c_product_id : Z;
  c_quantity : Z
}.

Record order := mk_order {
  o_id : Z;
  o_user_id : Z;
  o_created_at : Z
}.

Record order_item := mk_item {
  oi_order_id : Z;
  oi_product_id : Z;
  oi_quantity : Z;
  oi_price : float
}.

(** Modelled from the spec: the schema is not in the repository (its
    tables are created outside it). The columns are those the statements
    of [app.py] name; the [id] columns are auto-increment keys, whose
    counters are kept here for the tables whose ids the handlers read;
    the tables are transactional (section 5 of the specification: a
    connection dropped before the commit leaves no effect). *)
Record DB := mk_db {
  users : list user;
  products : list product;
  cart : list cart_row;
  orders : list order;
  order_items : list order_item;
  next_user_id : Z;
  next_product_id : Z;
  next_cart_id : Z;
  next_order_id : Z
}.

Definition empty_db : DB := mk_db [] [] [] [] [] 1 1 1 1.

(** ** Responses *)

Record user_view := mk_user_view {
  uv_id : Z;
  uv_username : string;
  uv_email : string
}.

(** A row of [view_cart]. *)
Record cart_view := mk_cart_view {
  cv_cart_id : Z;
  cv_product_id : Z;
  cv_title : string;
  cv_price : float;
  cv_image : string;
  cv_quantity : Z
}.

(** A row of [purchases]. *)
Record purchase_view := mk_purchase_view {
  pv_order_id : Z;
  pv_created_at : Z;
  pv_product_id : Z;
  pv_title : string;
  pv_image : string;
  pv_quantity : Z;
  pv_price : float
}.

(** The JSON bodies the handlers return. *)
Inductive body :=
| Error (msg : string)
| ServerError (e : exn)
| Message (msg : string)
| ProductCreated (id : Z)
| Session (t : token) (u : user_view)
| CheckoutComplete (order_id : Z)
| CartRows (rows : list cart_view)
| PurchaseRows (rows : list purchase_view).

(** What the client gets: a JSON body with its status, or, for an
    exception raised outside the handler's [try], the framework's own
    error page. *)
Inductive response :=
| Json (status : Z) (b : body)
| Unhandled (e : exn).

(** ** Connections and transactions *)

(** For each statement still to run, whether it raises and with which
    message; statements beyond the end of the list succeed. *)
Definition schedule := list (option string).

Record conn := mk_conn {
  committed : DB;
  working : DB;
  pending : schedule
}.

(** Code running on an open connection. *)
Definition Tx (A : Type) : Type := conn -> result A * conn.

Definition ret {A} (a : A) : Tx A := fun c => (inr a, c).

Definition bind {A B} (m : Tx A) (k : A -> Tx B) : Tx B :=
  fun c =>
    match m c with
    | (inl e, c') => (inl e, c')
    | (inr a, c') => k a c'
    end.

Definition lift {A} (r : result A) : Tx A := fun c => (r, c).

Notation "x <- m ;; k" := (bind m (fun x => k))
  (at level 61, m at next level, right associativity).
Notation "m ;; k" := (bind m (fun _ => k))
  (at level 61, right associativity).

(** [cur.execute(...)] with its fetch: runs on the transaction's view
    unless the schedule makes it raise. *)
Definition statement {A} (run : DB -> DB * A) : Tx A :=
  fun c =>
    match pending c with
    | Some d :: rest =>
        (inl (StoreError d), mk_conn (committed c) (working c) rest)
    | _ =>
        let (w, a) := run (working c) in
        (inr a, mk_conn (committed c) w (tl (pending c)))
    end.

Definition query {A} (q : DB -> A) : Tx A :=
  statement (fun db => (db, q db)).

Definition execute (u : DB -> DB) : Tx unit :=
  statement (fun db => (u db, tt)).

(** [conn.commit()]. *)
Definition commit : Tx unit :=
  fun c =>
    match pending c with
    | Some d :: rest =>
        (inl (StoreError d), mk_conn (committed c) (working c) rest)
    | _ => (inr tt, mk_conn (working c) (working c) (tl (pending c)))
    end.

(** [for x in xs: body(x)]. *)
Fixpoint for_each {A} (xs : list A) (body : A -> Tx unit) : Tx unit :=
  match xs with
  | [] => ret tt
  | x :: xs' => body x ;; for_each xs' body
  end.

(** The frame every handler shares:
    [conn = get_db_connection(); try: ... except Exception as e: return
    500; finally: conn.close()]. What the store holds afterwards is what
    was committed. *)
Definition with_connection (faults : schedule) (db : DB)
    (handler : Tx response) : DB * response :=
  let (r, c) := handler (mk_conn db db faults) in
  (committed c,
   match r with
   | inr resp => resp
   | inl e => Json 500 (ServerError e)
   end).

(** ** SQL statements

    One definition per statement of [app.py], as a function of the
    transaction's view of the store. *)

(** [SELECT ... FROM users WHERE email=%s], [fetchone()]. *)
Definition select_user_by_email (email : string) (db : DB) : option user :=
  find (fun u => String.eqb (u_email u) email) (users db).

(** [INSERT INTO users (username, email, password) VALUES (%s,%s,%s)],
    [lastrowid]. *)
Definition insert_user (username email : string) (password : pwhash)
    (db : DB) : DB * Z :=
  let id := next_user_id db in
  (mk_db (users db ++ [mk_user id username email password])
     (products db) (cart db) (orders db) (order_items db)
     (id + 1) (next_product_id db) (next_cart_id db) (next_order_id db),
   id).

(** [INSERT INTO products (user_id, title, description, price, category,
    image) VALUES (%s,%s,%s,%s,%s,%s)], [lastrowid]. *)
Definition insert_product (user_id : Z) (title description : string)
    (price : float) (category image : string) (db : DB) : DB * Z :=
  let id := next_product_id db in
  (mk_db (users db)
     (products db ++ [mk_product id user_id title description price category image])
     (cart db) (orders db) (order_items db)
     (next_user_id db) (id + 1) (next_cart_id db) (next_order_id db),
   id).

(** [SELECT user_id FROM products WHERE id=%s], [fetchone()]. *)
Definition select_product_owner (pid : Z) (db : DB) : option Z :=
  option_map p_user_id (find (fun p => p_id p =? pid) (products db)).

(** One [column=%s] of an [UPDATE products SET ...] with its parameter. *)
Inductive assignment :=
| SetTitle (v : string)
| SetDescription (v : string)
| SetPrice (v : float)
| SetCategory (v : string)
| SetImage (v : string).

Definition assign (p : product) (a : assignment) : product :=
  match a with
  | SetTitle v =>
      mk_product (p_id p) (p_user_id p) v (p_description p) (p_price p)
        (p_category p) (p_image p)
  | SetDescription v =>
      mk_product (p_id p) (p_user_id p) (p_title p) v (p_price p)
        (p_category p) (p_image p)
  | SetPrice v =>
      mk_product (p_id p) (p_user_id p) (p_title p) (p_description p) v
        (p_category p) (p_image p)
  | SetCategory v =>
      mk_product (p_id p) (p_user_id p) (p_title p) (p_description p)
        (p_price p) v (p_image p)
  | SetImage v =>
      mk_product (p_id p) (p_user_id p) (p_title p) (p_description p)
        (p_price p) (p_category p) v
  end.

Definition with_products (db : DB) (ps : list product) : DB :=
  mk_db (users db) ps (cart db) (orders db) (order_items db)
    (next_user_id db) (next_product_id db) (next_cart_id db) (next_order_id db).

Definition with_cart (db : DB) (cs : list cart_row) : DB :=
  mk_db (users db) (products db) cs (orders db) (order_items db)
    (next_user_id db) (next_product_id db) (next_cart_id db) (next_order_id db).

(** [UPDATE products SET <fields> WHERE id=%s]. *)
Definition update_products (fields : list assignment) (pid : Z) (db : DB) : DB :=
  with_products db
    (map (fun p => if p_id p =? pid then fold_left assign fields p else p)
       (products db)).

(** [DELETE FROM products WHERE id=%s]. *)
Definition delete_products (pid : Z) (db : DB) : DB :=
  with_products db (filter (fun p => negb (p_id p =? pid)) (products db)).

(** [SELECT id, quantity FROM cart WHERE user_id=%s AND product_id=%s],
    [fetchone()]. *)
Definition select_cart_entry (user_id product_id : Z) (db : DB) : option (Z * Z) :=
  option_map (fun c => (c_id c, c_quantity c))
    (find (fun c => (c_user_id c =? user_id) && (c_product_id c =? product_id))
       (cart db)).

(** [UPDATE cart SET quantity = quantity + %s WHERE id=%s]. *)
Definition add_cart_quantity (quantity id : Z) (db : DB) : DB :=
  with_cart db
    (map (fun c =>
            if c_id c =? id
            then mk_cart (c_id c) (c_user_id c) (c_product_id c) (c_quantity c + quantity)
            else c)
       (cart db)).

(** [INSERT INTO cart (user_id, product_id, quantity) VALUES (%s,%s,%s)]. *)
Definition insert_cart (user_id product_id quantity : Z) (db : DB) : DB :=
  let id := next_cart_id db in
  mk_db (users db) (products db)
    (cart db ++ [mk_cart id user_id product_id quantity])
    (orders db) (order_items db)
    (next_user_id db) (next_product_id db) (id + 1) (next_order_id db).

(** [FROM cart c JOIN products p ON c.product_id = p.id WHERE
    c.user_id=%s], with the selected columns as [row]. *)
Definition cart_join {A} (row : cart_row -> product -> A) (user_id : Z)
    (db : DB) : list A :=
  flat_map
    (fun c => map (row c) (filter (fun p => p_id p =? c_product_id c) (products db)))
    (filter (fun c => c_user_id c =? user_id) (cart db)).

(** [SELECT c.id as cart_id, p.id as product_id, p.title, p.price,
    p.image, c.quantity] over the join. *)
Definition select_cart_view : Z -> DB -> list cart_view :=
  cart_join (fun c p =>
    mk_cart_view (c_id c) (p_id p) (p_title p) (p_price p) (p_image p) (c_quantity c)).

(** A row of checkout's read of the cart. *)
Record cart_item := mk_cart_item {
  it_product_id : Z;
  it_quantity : Z;
  it_price : float
}.

(** [SELECT c.product_id, c.quantity, p.price] over the join. *)
Definition select_cart_items : Z -> DB -> list cart_item :=
  cart_join (fun c p => mk_cart_item (c_product_id c) (c_quantity c) (p_price p)).

(** [DELETE FROM cart WHERE user_id=%s]. *)
Definition delete_cart (user_id : Z) (db : DB) : DB :=
  with_cart db (filter (fun c => negb (c_user_id c =? user_id)) (cart db)).

(** [INSERT INTO orders (user_id, created_at) VALUES (%s, %s)],
    [lastrowid]. *)
Definition insert_order (user_id now : Z) (db : DB) : DB * Z :=
  let id := next_order_id db in
  (mk_db (users db) (products db) (cart db)
     (orders db ++ [mk_order id user_id now]) (order_items db)
     (next_user_id db) (next_product_id db) (next_cart_id db) (id + 1),
   id).

(** [INSERT INTO order_items (order_id, product_id, quantity, price)
    VALUES (%s,%s,%s,%s)]. *)
Definition insert_order_item (order_id : Z) (it : cart_item) (db : DB) : DB :=
  mk_db (users db) (products db) (cart db) (orders db)
    (order_items db ++
       [mk_item order_id (it_product_id it) (it_quantity it) (it_price it)])
    (next_user_id db) (next_product_id db) (next_cart_id db) (next_order_id db).

(** [ORDER BY o.created_at DESC], as a stable insertion sort. *)
Fixpoint insert_desc (r : purchase_view) (rs : list purchase_view) : list purchase_view :=
  match rs with
  | [] => [r]
  | r' :: rs' =>
      if pv_created_at r' <=? pv_created_at r then r :: rs
      else r' :: insert_desc r rs'
  end.

Definition order_by_created_at_desc (rs : list purchase_view) : list purchase_view :=
  fold_right insert_desc [] rs.

(** [FROM orders o JOIN order_items oi ON oi.order_id = o.id JOIN products
    p ON p.id = oi.product_id WHERE o.user_id=%s], before the ordering. *)
Definition purchases_join (user_id : Z) (db : DB) : list purchase_view :=
  flat_map
    (fun o =>
       flat_map
         (fun oi =>
            map (fun p =>
                   mk_purchase_view (o_id o) (o_created_at o) (oi_product_id oi)
                     (p_title p) (p_image p) (oi_quantity oi) (oi_price oi))
              (filter (fun p => p_id p =? oi_product_id oi) (products db)))
         (filter (fun oi => oi_order_id oi =? o_id o) (order_items db)))
    (filter (fun o => o_user_id o =? user_id) (orders db)).

Definition select_purchases (user_id : Z) (db : DB) : list purchase_view :=
  order_by_created_at_desc (purchases_join user_id db).

(** ** Requests *)

Record signup_request := mk_signup_request {
  sr_username : field string;
  sr_email : field string;
  sr_password : field string
}.

Record login_request := mk_login_request {
  lr_email : field string;
  lr_password : field string
}.

(** The body of a product create or update. [pr_user_id] is a ['user_id']
    key a client may add to the body. *)
Record product_request := mk_product_request {
  pr_title : field string;
  pr_description : field string;
  pr_price : field num;
  pr_category : field string;
  pr_image : field string;
  pr_user_id : field Z
}.

Record cart_request := mk_cart_request {
  cr_product_id : field Z;
  cr_quantity : field num
}.

(** ** Helpers *)

(** [jwt_required]: the wrapped handler [f] runs on the user id of a token
    that decodes at time [now]. *)
Definition jwt_required (cfg : config) (now : Z) (auth : authorization)
    (f : Z -> DB -> DB * response) (db : DB) : DB * response :=
  match auth with
  | NoHeader | NotBearer _ => (db, Json 401 (Error "Authorization header missing"))
  | Bearer t =>
      match jwt_decode t (SECRET_KEY cfg) now with
      | inl ExpiredSignatureError => (db, Json 401 (Error "Token expired"))
      | inl InvalidTokenError => (db, Json 401 (Error "Invalid token"))
      | inr payload => f (claim_user_id payload) db
      end
  end.

(** The range of [datetime.datetime], 0001-01-01T00:00:00 to
    9999-12-31T23:59:59, in seconds since the epoch. *)
Definition datetime_min : Z := -62135596800.
Definition datetime_max : Z := 253402300799.

Definition in_datetime_range (t : Z) : bool :=
  (datetime_min <=? t) && (t <=? datetime_max).

(** [create_token] at time [now], the whole seconds of [utcnow()].
    [utcnow() + timedelta(hours=JWT_EXPIRE_HOURS)] raises [OverflowError]
    when the sum leaves the range of [datetime] (and so does the
    [timedelta] itself for a number of hours it cannot hold, which is then
    out of that range as well). *)
Definition create_token (cfg : config) (now : Z) (user_id : Z) : result token :=
  let exp := now + 3600 * JWT_EXPIRE_HOURS cfg in
  if in_datetime_range exp
  then inr (jwt_encode (mk_payload user_id exp) (SECRET_KEY cfg))
  else inl OverflowError.

(** ** Auth *)

Definition signup `{PyStr} (cfg : config) (faults : schedule) (now : Z) (salt : string)
    (data : signup_request) (db : DB) : DB * response :=
  match
    rbind (py_strip (get_default (sr_username data) "")) (fun username =>
    rbind (py_strip (get_default (sr_email data) "")) (fun email =>
    inr (username, lower email)))
  with
  | inl e => (db, Unhandled e)
  | inr (username, email) =>
      match get_default (sr_password data) "" with
      | Some password =>
          if negb (nonempty username && nonempty email && nonempty password)
          then (db, Json 400 (Error "username, email and password required"))
          else
            with_connection faults db
              (existing <- query (select_user_by_email email) ;;
               match existing with
               | Some _ => ret (Json 400 (Error "email already registered"))
               | None =>
                   let password_hash := generate_password_hash salt password in
                   user_id <- statement (insert_user username email password_hash) ;;
                   commit ;;
                   token <- lift (create_token cfg now user_id) ;;
                   ret (Json 201 (Session token (mk_user_view user_id username email)))
               end)
      | None => (db, Json 400 (Error "username, email and password required"))
      end
  end.

Definition login `{PyStr} (cfg : config) (faults : schedule) (now : Z)
    (data : login_request) (db : DB) : DB * response :=
  let email := lower (strip (or_else (get (lr_email data)) "")) in
  let password := or_else (get (lr_password data)) "" in
  if negb (nonempty email && nonempty password)
  then (db, Json 400 (Error "email and password required"))
  else
    with_connection faults db
      (found <- query (select_user_by_email email) ;;
       match found with
       | None => ret (Json 401 (Error "invalid credentials"))
       | Some user =>
           if negb (check_password_hash (u_password user) password)
           then ret (Json 401 (Error "invalid credentials"))
           else
             token <- lift (create_token cfg now (u_id user)) ;;
             ret (Json 200
                    (Session token
                       (mk_user_view (u_id user) (u_username user) (u_email user))))
       end).

(** ** Products *)

Definition create_product `{PyStr} (faults : schedule) (current_user : Z)
    (data : product_request) (db : DB) : DB * response :=
  match
    rbind (py_strip (get_default (pr_title data) "")) (fun title =>
    rbind (py_strip (get_default (pr_description data) "")) (fun description =>
    let price := get (pr_price data) in
    rbind (py_strip (get_default (pr_category data) "")) (fun category =>
    rbind (py_strip (get_default (pr_image data) "")) (fun image =>
    inr (title, description, price, category, image)))))
  with
  | inl e => (db, Unhandled e)
  | inr (title, description, price, category, image) =>
      match price with
      | Some price =>
          if negb (nonempty title)
          then (db, Json 400 (Error "title and price required"))
          else
            with_connection faults db
              (price <- lift (py_float price) ;;
               id <- statement
                       (insert_product current_user title description price
                          category image) ;;
               commit ;;
               ret (Json 201 (ProductCreated id)))
      | None => (db, Json 400 (Error "title and price required"))
      end
  end.

(** [if x is not None: fields.append(...)]. *)
Definition append_field {A} (x : option A) (column : A -> assignment)
    (fields : list assignment) : list assignment :=
  match x with
  | Some v => fields ++ [column v]
  | None => fields
  end.

Definition update_product (faults : schedule) (current_user pid : Z)
    (data : product_request) (db : DB) : DB * response :=
  let title := get (pr_title data) in
  let description := get (pr_description data) in
  let price := get (pr_price data) in
  let category := get (pr_category data) in
  let image := get (pr_image data) in
  with_connection faults db
    (owner <- query (select_product_owner pid) ;;
     match owner with
     | None => ret (Json 404 (Error "not found"))
     | Some owner =>
         if negb (owner =? current_user)
         then ret (Json 403 (Error "forbidden"))
         else
           let fields := [] in
           let fields := append_field title SetTitle fields in
           let fields := append_field description SetDescription fields in
           price <- lift (match price with
                          | Some n => rbind (py_float n) (fun f => inr (Some f))
                          | None => inr None
                          end) ;;
           let fields := append_field price SetPrice fields in
           let fields := append_field category SetCategory fields in
           let fields := append_field image SetImage fields in
           match fields with
           | [] => ret (Json 400 (Error "nothing to update"))
           | _ :: _ =>
               execute (update_products fields pid) ;;
               commit ;;
               ret (Json 200 (Message "updated"))
           end
     end).

Definition delete_product (faults : schedule) (current_user pid : Z)
    (db : DB) : DB * response :=
  with_connection faults db
    (owner <- query (select_product_owner pid) ;;
     match owner with
     | None => ret (Json 404 (Error "not found"))
     | Some owner =>
         if negb (owner =? current_user)
         then ret (Json 403 (Error "forbidden"))
         else
           execute (delete_products pid) ;;
           commit ;;
           ret (Json 200 (Message "deleted"))
     end).

(** ** Cart *)

Definition add_to_cart (faults : schedule) (current_user : Z)
    (data : cart_request) (db : DB) : DB * response :=
  let product_id := get (cr_product_id data) in
  match py_int (get_default (cr_quantity data) (NInt 1)) with
  | inl e => (db, Unhandled e)
  | inr quantity =>
      match product_id with
      | Some product_id =>
          if product_id =? 0
          then (db, Json 400 (Error "product_id required"))
          else
            with_connection faults db
              (existing <- query (select_cart_entry current_user product_id) ;;
               match existing with
               | Some (id, _) => execute (add_cart_quantity quantity id)
               | None => execute (insert_cart current_user product_id quantity)
               end ;;
               commit ;;
               ret (Json 200 (Message "added to cart")))
      | None => (db, Json 400 (Error "product_id required"))
      end
  end.

Definition view_cart (faults : schedule) (current_user : Z) (db : DB)
    : DB * response :=
  with_connection faults db
    (rows <- query (select_cart_view current_user) ;;
     ret (Json 200 (CartRows rows))).

(** ** Orders / Purchases *)

(** [now] is the value of [datetime.datetime.utcnow()] stamped on the
    order. *)
Definition checkout (faults : schedule) (now : Z) (current_user : Z) (db : DB)
    : DB * response :=
  with_connection faults db
    (items <- query (select_cart_items current_user) ;;
     match items with
     | [] => ret (Json 400 (Error "cart empty"))
     | _ :: _ =>
         order_id <- statement (insert_order current_user now) ;;
         for_each items (fun it => execute (insert_order_item order_id it)) ;;
         execute (delete_cart current_user) ;;
         commit ;;
         ret (Json 200 (CheckoutComplete order_id))
     end).

Definition purchases (faults : schedule) (current_user : Z) (db : DB)
    : DB * response :=
  with_connection faults db
    (rows <- query (select_purchases current_user) ;;
     ret (Json 200 (PurchaseRows rows))).

(** ** Notions the properties are stated with *)

(** What a signup that got as far as its commit answers: the session, or
    the 500 of a token that could not be made. *)
Definition signed_up (cfg : config) (t0 : Z) (id : Z) (username email : string)
    : response :=
  match create_token cfg t0 id with
  | inr tok => Json 201 (Session tok (mk_user_view id username email))
  | inl e => Json 500 (ServerError e)
  end.

(** The first statement a schedule makes raise, with its message. *)
Fixpoint first_fault (s : schedule) : option (nat * string) :=
  match s with
  | [] => None
  | Some d :: _ => Some (0%nat, d)
  | None :: s' =>
      match first_fault s' with
      | Some (k, d) => Some (S k, d)
      | None => None
      end
  end.

(** The store a committed checkout leaves: the order, one item per row
    read from the cart, and the user's cart rows gone. *)
Definition checked_out (now user_id : Z) (db : DB) : DB :=
  let order_id := next_order_id db in
  delete_cart user_id
    (fold_left (fun w it => insert_order_item order_id it w)
       (select_cart_items user_id db)
       (fst (insert_order user_id now db))).

(** Whether the product a cart row refers to still exists; a row whose
    product does not is orphaned. *)
Definition has_product (db : DB) (c : cart_row) : bool :=
  existsb (fun p => p_id p =? c_product_id c) (products db).

Definition without_orphans (db : DB) : DB :=
  with_cart db (filter (has_product db) (cart db)).

(** [SELECT ... FROM products WHERE id=%s], [fetchone()]. *)
Definition select_product (pid : Z) (db : DB) : option product :=
  find (fun p => p_id p =? pid) (products db).

(** The item checkout writes for a row of its cart read. *)
Definition item_of (order_id : Z) (it : cart_item) : order_item :=
  mk_item order_id (it_product_id it) (it_quantity it) (it_price it).

(** The items of an order. *)
Definition items_of_order (order_id : Z) (db : DB) : list order_item :=
  filter (fun oi => oi_order_id oi =? order_id) (order_items db).

(** What an order item records of a purchase. *)
Definition snapshot (oi : order_item) : Z * Z * float :=
  (oi_product_id oi, oi_quantity oi, oi_price oi).

(** The user's cart rows whose product exists, each with its quantity and
    the product's current price. *)
Definition purchasable (user_id : Z) (db : DB) : list (Z * Z * float) :=
  flat_map
    (fun c =>
       match select_product (c_product_id c) db with
       | Some p => [(c_product_id c, c_quantity c, p_price p)]
       | None => []
       end)
    (filter (fun c => c_user_id c =? user_id) (cart db)).

(** The price conversion and the [fields] list of [update_product]. *)
Definition requested_price (data : product_request) : result (option float) :=
  match get (pr_price data) with
  | Some n => rbind (py_float n) (fun f => inr (Some f))
  | None => inr None
  end.

Definition requested_fields (data : product_request) (price : option float)
    : list assignment :=
  append_field (get (pr_image data)) SetImage
    (append_field (get (pr_category data)) SetCategory
       (append_field price SetPrice
          (append_field (get (pr_description data)) SetDescription
             (append_field (get (pr_title data)) SetTitle [])))).

(** A field of the request that is absent keeps its column: [p'] differs
    from [p] at most in the columns the request supplies. *)
Definition retains (data : product_request) (p p' : product) : Prop :=
  p_id p' = p_id p /\ p_user_id p' = p_user_id p /\
  (get (pr_title data) = None -> p_title p' = p_title p) /\
  (get (pr_description data) = None -> p_description p' = p_description p) /\
  (get (pr_price data) = None -> p_price p' = p_price p) /\
  (get (pr_category data) = None -> p_category p' = p_category p) /\
  (get (pr_image data) = None -> p_image p' = p_image p).

(** The request with the supplied values applied to a row. *)
Definition updated (data : product_request) (price : option float) (p : product)
    : product :=
  mk_product (p_id p) (p_user_id p)
    (match get (pr_title data) with Some v => v | None => p_title p end)
    (match get (pr_description data) with Some v => v | None => p_description p end)
    (match price with Some v => v | None => p_price p end)
    (match get (pr_category data) with Some v => v | None => p_category p end)
    (match get (pr_image data) with Some v => v | None => p_image p end).

(** The cart rows of a user for a product. *)
Definition cart_entries (user_id product_id : Z) (db : DB) : list cart_row :=
  filter (fun c => (c_user_id c =? user_id) && (c_product_id c =? product_id))
    (cart db).

Definition cart_key (c : cart_row) : Z * Z := (c_user_id c, c_product_id c).

(** The cart table as sequential use of the handlers keeps it: ids are
    unique and below the counter, and no two rows share user and
    product. *)
Definition cart_wf (db : DB) : Prop :=
  NoDup (map c_id (cart db)) /\
  Forall (fun c => c_id c < next_cart_id db) (cart db) /\
  NoDup (map cart_key (cart db)).

Definition add_quantity (quantity : Z) (c : cart_row) : cart_row :=
  mk_cart (c_id c) (c_user_id c) (c_product_id c) (c_quantity c + quantity).

(** ** Reachable stores *)

(** A request to one of the handlers, with the schedule of its store
    statements; protected handlers take the user id [jwt_required] gives
    them. *)
Inductive call :=
| Signup (cfg : config) (faults : schedule) (now : Z) (salt : string)
    (data : signup_request)
| Login (cfg : config) (faults : schedule) (now : Z) (data : login_request)
| CreateProduct (faults : schedule) (current_user : Z) (data : product_request)
| UpdateProduct (faults : schedule) (current_user pid : Z) (data : product_request)
| DeleteProduct (faults : schedule) (current_user pid : Z)
| AddToCart (faults : schedule) (current_user : Z) (data : cart_request)
| ViewCart (faults : schedule) (current_user : Z)
| Checkout (faults : schedule) (now : Z) (current_user : Z)
| Purchases (faults : schedule) (current_user : Z).

Definition serve `{PyStr} (c : call) (db : DB) : DB * response :=
  match c with
  | Signup cfg faults now salt data => signup cfg faults now salt data db
  | Login cfg faults now data => login cfg faults now data db
  | CreateProduct faults u data => create_product faults u data db
  | UpdateProduct faults u pid data => update_product faults u pid data db
  | DeleteProduct faults u pid => delete_product faults u pid db
  | AddToCart faults u data => add_to_cart faults u data db
  | ViewCart faults u => view_cart faults u db
  | Checkout faults now u => checkout faults now u db
  | Purchases faults u => purchases faults u db
  end.

(** The store after a sequence of requests served one after the other. *)
Definition serve_all `{PyStr} (cs : list call) (db : DB) : DB :=
  fold_left (fun db c => fst (serve c db)) cs db.

(** What every store reached from the empty one satisfies: product ids
    are unique and below their counter, the cart is well formed, and no
    order item refers to an order id not yet given out. *)
Definition db_wf (db : DB) : Prop :=
  NoDup (map p_id (products db)) /\
  Forall (fun p => p_id p < next_product_id db) (products db) /\
  cart_wf db /\
  Forall (fun oi => oi_order_id oi < next_order_id db) (order_items db).

(** Orders by creation time, newest first. *)
Definition newer_first (r1 r2 : purchase_view) : Prop :=
  pv_created_at r2 <= pv_created_at r1.

(** ** The remaining handlers: product reads and the profile *)

(** The bodies [body] has no case for: [jsonify] of one product row, of
    product rows, of a user row, of the category names. *)
Inductive listing :=
| ProductRow (p : product)
| ProductRows (rows : list product)
| UserRow (u : user_view)
| CategoryNames (names : list string).

(** What the handlers of this part return. *)
Inductive answer :=
| Listed (status : Z) (l : listing)
| Answered (r : response).

(** The frame of [with_connection], for a handler that returns an
    [answer]. *)
Definition with_connection_listing (faults : schedule) (db : DB)
    (handler : Tx answer) : DB * answer :=
  let (r, c) := handler (mk_conn db db faults) in
  (committed c,
   match r with
   | inr a => a
   | inl e => Answered (Json 500 (ServerError e))
   end).

(** [ORDER BY id DESC], as a stable insertion sort. *)
Fixpoint insert_id_desc (p : product) (ps : list product) : list product :=
  match ps with
  | [] => [p]
  | p' :: ps' =>
      if p_id p' <=? p_id p then p :: ps else p' :: insert_id_desc p ps'
  end.

Definition order_by_id_desc (ps : list product) : list product :=
  fold_right insert_id_desc [] ps.

(** [SELECT ... FROM products WHERE c1 AND c2 ... ORDER BY id DESC],
    [fetchall()]; with no condition there is no [WHERE]. *)
Definition select_products (conditions : list (product -> bool)) (db : DB)
    : list product :=
  order_by_id_desc
    (filter (fun p => forallb (fun c => c p) conditions) (products db)).

(** The purchase row of a cart view row bought in order [order_id] at
    time [now]. *)
Definition purchased (order_id now : Z) (v : cart_view) : purchase_view :=
  mk_purchase_view order_id now (cv_product_id v) (cv_title v) (cv_image v)
    (cv_quantity v) (cv_price v).

(** A row of the purchase history once the product [pid] has taken the
    values of an update request: the title and the image are the
    product's, the price is the order item's. *)
Definition retitled (data : product_request) (pid : Z) (r : purchase_view)
    : purchase_view :=
  if pv_product_id r =? pid
  then mk_purchase_view (pv_order_id r) (pv_created_at r) (pv_product_id r)
         (match get (pr_title data) with Some t => t | None => pv_title r end)
         (match get (pr_image data) with Some i => i | None => pv_image r end)
         (pv_quantity r) (pv_price r)
  else r.

(** The total quantity of some cart rows. *)
Definition list_sum_quantity (cs : list cart_row) : Z :=
  fold_right (fun c n => c_quantity c + n) 0 cs.

(** A row of the cart view, and a row of checkout's cart read, once the
    product [pid] has taken the values of an update request. *)
Definition refreshed (data : product_request) (price : option float) (pid : Z)
    (v : cart_view) : cart_view :=
  if cv_product_id v =? pid
  then mk_cart_view (cv_cart_id v) (cv_product_id v)
         (match get (pr_title data) with Some t => t | None => cv_title v end)
         (match price with Some f => f | None => cv_price v end)
         (match get (pr_image data) with Some i => i | None => cv_image v end)
         (cv_quantity v)
  else v.

Definition repriced (price : option float) (pid : Z) (it : cart_item) : cart_item :=
  if it_product_id it =? pid
  then mk_cart_item (it_product_id it) (it_quantity it)
         (match price with Some f => f | None => it_price it end)
  else it.

(** Products by id, highest first. *)
Definition higher_id_first (p1 p2 : product) : Prop := p_id p2 <= p_id p1.

(** The [WHERE] of [list_products] on a row, for the stripped arguments:
    an empty argument adds no condition. *)
Definition listed (like : string -> string -> bool) (q category : string)
    (p : product) : Prop :=
  (q = "" \/
   like (p_title p) (String.append "%" (String.append q "%")) = true \/
   like (p_description p) (String.append "%" (String.append q "%")) = true) /\
  (category = "" \/ p_category p = category).

(** [list_products]. [q] and [category] are the query arguments, [None]
    when absent. [like text pattern] is MySQL's [text LIKE pattern] under
    the collation of the column, which the repository does not fix: it is a
    parameter. *)
Definition list_products `{PyStr} (like : string -> string -> bool) (faults : schedule)
    (q category : option string) (db : DB) : DB * answer :=
  let q := strip (match q with Some s => s | None => "" end) in
  let category := strip (match category with Some s => s | None => "" end) in
  with_connection_listing faults db
    (let conditions := [] in
     let conditions :=
       if nonempty q
       then
         let pattern := String.append "%" (String.append q "%") in
         conditions ++
           [fun p => like (p_title p) pattern || like (p_description p) pattern]
       else conditions in
     let conditions :=
       if nonempty category
       then conditions ++ [fun p => String.eqb (p_category p) category]
       else conditions in
     rows <- query (select_products conditions) ;;
     ret (Listed 200 (ProductRows rows))).

Definition get_product (faults : schedule) (pid : Z) (db : DB) : DB * answer :=
  with_connection_listing faults db
    (prod <- query (select_product pid) ;;
     match prod with
     | None => ret (Answered (Json 404 (Error "not found")))
     | Some p => ret (Listed 200 (ProductRow p))
     end).

(** [SELECT id, username, email FROM users WHERE id=%s], [fetchone()]. *)
Definition select_user_by_id (id : Z) (db : DB) : option user :=
  find (fun u => u_id u =? id) (users db).

Definition profile (faults : schedule) (current_user : Z) (db : DB)
    : DB * answer :=
  with_connection_listing faults db
    (user <- query (select_user_by_id current_user) ;;
     match user with
     | None => ret (Answered (Json 404 (Error "not found")))
     | Some u =>
         ret (Listed 200 (UserRow (mk_user_view (u_id u) (u_username u) (u_email u))))
     end).

Record profile_request := mk_profile_request {
  pf_username : field string;
  pf_email : field string
}.

(** [SELECT id FROM users WHERE email=%s AND id!=%s], [fetchone()]. *)
Definition select_email_conflict (email : string) (id : Z) (db : DB) : option user :=
  find (fun u => String.eqb (u_email u) email && negb (u_id u =? id)) (users db).

(** [UPDATE users SET username=%s, email=%s WHERE id=%s]. *)
Definition update_user (username email : string) (id : Z) (db : DB) : DB :=
  mk_db
    (map (fun u =>
            if u_id u =? id then mk_user (u_id u) username email (u_password u)
            else u)
       (users db))
    (products db) (cart db) (orders db) (order_items db)
    (next_user_id db) (next_product_id db) (next_cart_id db) (next_order_id db).

Definition update_profile `{PyStr} (faults : schedule) (current_user : Z)
    (data : profile_request) (db : DB) : DB * response :=
  match
    rbind (py_strip (get_default (pf_username data) "")) (fun username =>
    rbind (py_strip (get_default (pf_email data) "")) (fun email =>
    inr (username, lower email)))
  with
  | inl e => (db, Unhandled e)
  | inr (username, email) =>
      if negb (nonempty username && nonempty email)
      then (db, Json 400 (Error "username and email required"))
      else
        with_connection faults db
          (conflict <- query (select_email_conflict email current_user) ;;
           match conflict with
           | Some _ => ret (Json 400 (Error "email already in use"))
           | None =>
               execute (update_user username email current_user) ;;
               commit ;;
               ret (Json 200 (Message "profile updated"))
           end)
  end.

Definition categories : answer :=
  Listed 200
    (CategoryNames ["Clothing"; "Electronics"; "Furniture"; "Books"; "Home"; "Other"]).

(** ** All the requests, and what every store they reach satisfies *)

Inductive request :=
| Call (c : call)
| GetProduct (faults : schedule) (pid : Z)
| ListProducts (like : string -> string -> bool) (faults : schedule)
    (q category : option string)
| GetProfile (faults : schedule) (current_user : Z)
| UpdateProfile (faults : schedule) (current_user : Z) (data : profile_request)
| Categories.

(** The status of an answer; the framework's error page is a 500. *)
Definition status_of (r : response) : Z :=
  match r with
  | Json status _ => status
  | Unhandled _ => 500
  end.

Definition answer_status (a : answer) : Z :=
  match a with
  | Listed status _ => status
  | Answered r => status_of r
  end.

(** The statuses of success: 200, and 201 for a creation. *)
Definition succeeded (status : Z) : bool := (status =? 200) || (status =? 201).

(** The store and the status a request leaves. *)
Definition handle `{PyStr} (r : request) (db : DB) : DB * Z :=
  match r with
  | Call c => let (db', resp) := serve c db in (db', status_of resp)
  | GetProduct faults pid =>
      let (db', a) := get_product faults pid db in (db', answer_status a)
  | ListProducts like faults q category =>
      let (db', a) := list_products like faults q category db in (db', answer_status a)
  | GetProfile faults u =>
      let (db', a) := profile faults u db in (db', answer_status a)
  | UpdateProfile faults u data =>
      let (db', resp) := update_profile faults u data db in (db', status_of resp)
  | Categories => (db, answer_status categories)
  end.

Definition handle_all `{PyStr} (rs : list request) (db : DB) : DB :=
  fold_left (fun db r => fst (handle r db)) rs db.

(** Accounts: ids are unique and below the counter, no two users share
    an email, and every stored username and email is non-empty, the email
    in lower case. *)
Definition users_wf `{PyStr} (db : DB) : Prop :=
  NoDup (map u_id (users db)) /\
  Forall (fun u => u_id u < next_user_id db) (users db) /\
  NoDup (map u_email (users db)) /\
  Forall (fun u => nonempty (u_username u) = true /\
                   nonempty (u_email u) = true /\
                   lower (u_email u) = u_email u)
    (users db).

(** Orders: ids are unique and below the counter, every order item
    belongs to an order of the table, and every order has an item. *)
Definition orders_wf (db : DB) : Prop :=
  NoDup (map o_id (orders db)) /\
  Forall (fun o => o_id o < next_order_id db) (orders db) /\
  Forall (fun oi => exists o, In o (orders db) /\ o_id o = oi_order_id oi)
    (order_items db) /\
  Forall (fun o => exists oi, In oi (order_items db) /\ oi_order_id oi = o_id o)
    (orders db).

Definition store_inv `{PyStr} (db : DB) : Prop :=
  db_wf db /\ users_wf db /\ orders_wf db.

(** ** A worked scenario

    The configuration of [app.py] when the environment sets nothing, and
    the stores a seller (user 1) and a buyer (user 2) go through. The
    characters of the scenario's strings are read as the code points 0 to
    255 (Latin-1), on which [str.strip()] and [str.lower()] are the
    functions below. *)

Section Scenario.

(** The characters below 256 of [str.isspace], which [str.strip()]
    removes: tab, line feed, vertical tab, form feed, carriage return, the
    four separators 28..31, space, next line (133), no-break space (160). *)
Definition is_space (c : ascii) : bool :=
  let n := nat_of_ascii c in
  ((9 <=? n) && (n <=? 13) || (28 <=? n) && (n <=? 32) ||
   (n =? 133) || (n =? 160))%nat.

Fixpoint lstrip (s : string) : string :=
  match s with
  | EmptyString => EmptyString
  | String c s' => if is_space c then lstrip s' else s
  end.

Fixpoint rev_string (acc s : string) : string :=
  match s with
  | EmptyString => acc
  | String c s' => rev_string (String c acc) s'
  end.

Definition rstrip (s : string) : string :=
  rev_string EmptyString (lstrip (rev_string EmptyString s)).

Definition latin1_strip (s : string) : string := rstrip (lstrip s).

(** The lower-case mapping below 256: A..Z, and the capital letters
    192..222 of Latin-1 but for the multiplication sign 215, each to the
    letter 32 above. *)
Definition lower_char (c : ascii) : ascii :=
  let n := nat_of_ascii c in
  if ((65 <=? n) && (n <=? 90) ||
      (192 <=? n) && (n <=? 222) && negb (n =? 215))%nat
  then ascii_of_nat (n + 32) else c.

Fixpoint latin1_lower (s : string) : string :=
  match s with
  | EmptyString => EmptyString
  | String c s' => String (lower_char c) (latin1_lower s')
  end.

(** [str.strip()] and [str.lower()] on Latin-1 text, with the three facts
    of [PyStr]. *)
Definition latin1_text : PyStr.
Proof.
  refine (Build_PyStr latin1_strip latin1_lower eq_refl eq_refl _).
  abstract (induction s as [|c s IH]; [reflexivity|];
            cbn [latin1_lower]; rewrite IH; f_equal;
            destruct c as [[] [] [] [] [] [] [] []]; reflexivity).
Defined.

#[local] Existing Instance latin1_text.

Definition default_config : config := mk_config "replace_this_secret" 24.

Definition seller : Z := 1.
Definition buyer : Z := 2.

Definition lamp : product_request :=
  mk_product_request (Val "Lamp") Absent (Val (NInt 10)) Absent Absent Absent.

Definition vase : product_request :=
  mk_product_request (Val "Vase") Absent (Val (NFloat 25.5)) Absent Absent Absent.

(** The seller lists the lamp (product 1) and the vase (product 2). *)
Definition shop : DB :=
  fst (create_product [] seller vase (fst (create_product [] seller lamp empty_db))).

(** The buyer puts two lamps and one vase in the cart. *)
Definition basket : DB :=
  fst (add_to_cart [] buyer (mk_cart_request (Val 2) Absent)
         (fst (add_to_cart [] buyer (mk_cart_request (Val 1) (Val (NInt 2))) shop))).

(** The seller then deletes the vase: the buyer's second cart row is
    orphaned. *)
Definition basket_orphaned : DB := fst (delete_product [] seller 2 basket).

(** The buyer checks out the full basket at time 1000; later the seller
    deletes the vase. *)
Definition bought : DB := fst (checkout [] 1000 buyer basket).

Definition bought_vase_deleted : DB := fst (delete_product [] seller 2 bought).

(** Ann signs up at time 0. *)
Definition ann : signup_request :=
  mk_signup_request (Val "Ann") (Val " Ann@Example.com") (Val "s3cret").

Definition registered : DB :=
  fst (signup default_config [] 0 "salt" ann empty_db).

(** A request that only changes the price. *)
Definition reprice : product_request :=
  mk_product_request Absent Absent (Val (NFloat 12.5)) Absent Absent Absent.

(** A request with no field at all. *)
Definition no_fields : product_request :=
  mk_product_request Absent Absent Absent Absent Absent Absent.

End Scenario.

(** * Properties *)

Section Properties.
Context {unicode : PyStr}.

(** ** The builtins on examples *)

Example strip_spaces : latin1_strip "  Ann Lee   " = "Ann Lee".
Proof. reflexivity. Qed.

Example strip_no_break_space :
  latin1_strip (String (ascii_of_nat 160) "Ann") = "Ann".
Proof. reflexivity. Qed.

Example lower_email : latin1_lower "Ann@Example.COM" = "ann@example.com".
Proof. reflexivity. Qed.

Example lower_e_acute :
  latin1_lower (String (ascii_of_nat 201) "ve") = String (ascii_of_nat 233) "ve".
Proof. reflexivity. Qed.

Example float_of_negative_int : py_float (NInt (-5)) = inr (-5)%float.
Proof. vm_compute. reflexivity. Qed.

Example float_of_huge_int : py_float (NInt (10 ^ 400)) = inl OverflowError.
Proof. vm_compute. reflexivity. Qed.

Example int_truncates : py_int (Some (NFloat (-2.75)%float)) = inr (-2).
Proof. vm_compute. reflexivity. Qed.

Example int_of_null : py_int None = inl TypeError.
Proof. reflexivity. Qed.

(** What [create_token] returns: the payload signed with the key, when
    the expiry is a date. *)
Lemma create_token_ok (cfg : config) (issued uid : Z) (tok : token) :
  create_token cfg issued uid = inr tok <->
  in_datetime_range (issued + 3600 * JWT_EXPIRE_HOURS cfg) = true /\
  tok = Signed (SECRET_KEY cfg) (mk_payload uid (issued + 3600 * JWT_EXPIRE_HOURS cfg)).
Proof.
  unfold create_token, jwt_encode. cbv zeta.
  destruct (in_datetime_range _); split.
  - intros Heq. injection Heq as <-. split; reflexivity.
  - intros [_ ->]. reflexivity.
  - discriminate.
  - intros [Hr _]. discriminate.
Qed.

Lemma create_token_overflow (cfg : config) (issued uid : Z) (e : exn) :
  create_token cfg issued uid = inl e ->
  e = OverflowError /\ forall uid', create_token cfg issued uid' = inl OverflowError.
Proof.
  unfold create_token. cbv zeta.
  destruct (in_datetime_range _); [discriminate|].
  intros Heq. injection Heq as <-. split; reflexivity.
Qed.

(** A token past its expiry, and a token signed with another key. *)
Lemma jwt_required_rejects (cfg : config) (issued now uid : Z) (key : string)
    (tok : token) (f : Z -> DB -> DB * response) (db : DB) :
  (create_token cfg issued uid = inr tok ->
   issued + 3600 * JWT_EXPIRE_HOURS cfg <= now ->
   jwt_required cfg now (Bearer tok) f db =
   (db, Json 401 (Error "Token expired"))) /\
  (key <> SECRET_KEY cfg ->
   jwt_required cfg now (Bearer (Signed key (mk_payload uid (now + 1)))) f db =
   (db, Json 401 (Error "Invalid token"))).
Proof.
  split.
  - intros Htok Hexp. apply create_token_ok in Htok as [_ ->].
    unfold jwt_required, jwt_decode. cbn [claim_exp].
    rewrite String.eqb_refl. cbn [negb].
    destruct (issued + 3600 * JWT_EXPIRE_HOURS cfg <=? now) eqn:E; [reflexivity|lia].
  - intros Hkey. unfold jwt_required, jwt_decode.
    destruct (String.eqb key (SECRET_KEY cfg)) eqn:E; [|reflexivity].
    apply String.eqb_eq in E. contradiction.
Qed.

(** ** Running statements against a schedule *)

Lemma first_fault_firstn (s : schedule) (k : nat) (d : string) (n : nat) :
  first_fault s = Some (k, d) -> (k < n)%nat ->
  first_fault (firstn n s) = Some (k, d).
Proof.
  revert k n. induction s as [|[d'|] s IH]; intros k n H Hk; simpl in H.
  - discriminate.
  - injection H as <- <-. destruct n; [lia|]. reflexivity.
  - destruct (first_fault s) as [[k' d'']|] eqn:E; [|discriminate].
    injection H as <- <-. destruct n; [lia|]. simpl.
    rewrite (IH k' n eq_refl) by lia. reflexivity.
Qed.

Lemma for_each_execute_run {A} (f : A -> DB -> DB) (xs : list A) :
  forall cm w s,
    for_each xs (fun x => execute (f x)) (mk_conn cm w s) =
    match first_fault (firstn (List.length xs) s) with
    | Some (k, d) =>
        (inl (StoreError d),
         mk_conn cm (fold_left (fun w x => f x w) (firstn k xs) w) (skipn (S k) s))
    | None =>
        (inr tt,
         mk_conn cm (fold_left (fun w x => f x w) xs w) (skipn (List.length xs) s))
    end.
Proof.
  induction xs as [|x xs IH]; intros cm w s.
  - reflexivity.
  - destruct s as [|[d|] s]; cbn [for_each].
    + unfold bind, execute, statement. cbn.
      rewrite IH. destruct xs; reflexivity.
    + reflexivity.
    + unfold bind, execute, statement. cbn.
      rewrite IH. destruct (first_fault (firstn (List.length xs) s)) as [[k d]|]; reflexivity.
Qed.

Lemma first_fault_firstn_app (s : schedule) (n m : nat) :
  first_fault (firstn (n + m) s) =
  match first_fault (firstn n s) with
  | Some r => Some r
  | None =>
      match first_fault (firstn m (skipn n s)) with
      | Some (k, d) => Some ((n + k)%nat, d)
      | None => None
      end
  end.
Proof.
  revert s. induction n as [|n IH]; intros s.
  - cbn. destruct (first_fault (firstn m s)) as [[k d]|]; reflexivity.
  - destruct s as [|[d|] s].
    + cbn. destruct m; reflexivity.
    + reflexivity.
    + cbn [Nat.add firstn skipn first_fault]. rewrite IH.
      destruct (first_fault (firstn n s)) as [[k d]|]; [reflexivity|].
      destruct (first_fault (firstn m (skipn n s))) as [[k d]|]; reflexivity.
Qed.

(** One statement, and what follows it, on each shape of schedule. *)
Section Steps.
Context {A B : Type}.
Variables (cm w : DB) (s : schedule) (d : string).

Lemma bind_run (m : Tx A) (k : A -> Tx B) (c : conn) :
  bind m k c =
  match m c with
  | (inl e, c') => (inl e, c')
  | (inr a, c') => k a c'
  end.
Proof. reflexivity. Qed.

Lemma statement_nil (run : DB -> DB * A) (k : A -> Tx B) :
  bind (statement run) k (mk_conn cm w []) =
  k (snd (run w)) (mk_conn cm (fst (run w)) []).
Proof. unfold bind, statement. cbn. destruct (run w). reflexivity. Qed.

Lemma statement_pass (run : DB -> DB * A) (k : A -> Tx B) :
  bind (statement run) k (mk_conn cm w (None :: s)) =
  k (snd (run w)) (mk_conn cm (fst (run w)) s).
Proof. unfold bind, statement. cbn. destruct (run w). reflexivity. Qed.

Lemma statement_fault (run : DB -> DB * A) (k : A -> Tx B) :
  bind (statement run) k (mk_conn cm w (Some d :: s)) =
  (inl (StoreError d), mk_conn cm w s).
Proof. reflexivity. Qed.

Lemma query_nil (q : DB -> A) (k : A -> Tx B) :
  bind (query q) k (mk_conn cm w []) = k (q w) (mk_conn cm w []).
Proof. reflexivity. Qed.

Lemma query_pass (q : DB -> A) (k : A -> Tx B) :
  bind (query q) k (mk_conn cm w (None :: s)) = k (q w) (mk_conn cm w s).
Proof. reflexivity. Qed.

Lemma query_fault (q : DB -> A) (k : A -> Tx B) :
  bind (query q) k (mk_conn cm w (Some d :: s)) =
  (inl (StoreError d), mk_conn cm w s).
Proof. reflexivity. Qed.

Lemma execute_nil (u : DB -> DB) (k : unit -> Tx B) :
  bind (execute u) k (mk_conn cm w []) = k tt (mk_conn cm (u w) []).
Proof. reflexivity. Qed.

Lemma execute_pass (u : DB -> DB) (k : unit -> Tx B) :
  bind (execute u) k (mk_conn cm w (None :: s)) = k tt (mk_conn cm (u w) s).
Proof. reflexivity. Qed.

Lemma execute_fault (u : DB -> DB) (k : unit -> Tx B) :
  bind (execute u) k (mk_conn cm w (Some d :: s)) =
  (inl (StoreError d), mk_conn cm w s).
Proof. reflexivity. Qed.

Lemma commit_nil (k : unit -> Tx B) :
  bind commit k (mk_conn cm w []) = k tt (mk_conn w w []).
Proof. reflexivity. Qed.

Lemma commit_pass (k : unit -> Tx B) :
  bind commit k (mk_conn cm w (None :: s)) = k tt (mk_conn w w s).
Proof. reflexivity. Qed.

Lemma commit_fault (k : unit -> Tx B) :
  bind commit k (mk_conn cm w (Some d :: s)) =
  (inl (StoreError d), mk_conn cm w s).
Proof. reflexivity. Qed.

Lemma lift_ok (a : A) (k : A -> Tx B) (c : conn) :
  bind (lift (inr a)) k c = k a c.
Proof. reflexivity. Qed.

Lemma lift_raise (e : exn) (k : A -> Tx B) (c : conn) :
  bind (lift (inl e)) k c = (inl e, c).
Proof. reflexivity. Qed.
End Steps.

Create Rewrite HintDb tx.

#[local] Hint Rewrite
  @statement_nil @statement_pass @statement_fault
  @query_nil @query_pass @query_fault
  @execute_nil @execute_pass @execute_fault
  @commit_nil @commit_pass @commit_fault
  @lift_ok @lift_raise : tx.

(** Runs the statements of a handler whose schedule is known. *)
Ltac tx := unfold with_connection; autorewrite with tx; cbn [ret fst snd committed].

(** The two statements that end a writing handler, on every schedule. *)
Lemma write_commit_run (db : DB) (f1 : schedule) (w : DB -> DB) (r : response) :
  with_connection f1 db (execute w ;; commit ;; ret r) =
  match first_fault (firstn 2 f1) with
  | Some (_, d) => (db, Json 500 (ServerError (StoreError d)))
  | None => (w db, r)
  end.
Proof. destruct f1 as [|[d|] [|[d'|] f2]]; tx; reflexivity. Qed.

Lemma insert_commit_run (db : DB) (f1 : schedule) (ins : DB -> DB * Z)
    (r : Z -> response) :
  with_connection f1 db (id <- statement ins ;; commit ;; ret (r id)) =
  match first_fault (firstn 2 f1) with
  | Some (_, d) => (db, Json 500 (ServerError (StoreError d)))
  | None => (fst (ins db), r (snd (ins db)))
  end.
Proof. destruct f1 as [|[d|] [|[d'|] f2]]; tx; reflexivity. Qed.

(** The same, followed by a computation that may raise after the commit:
    what was committed stays. *)
Lemma insert_commit_lift_run {A} (db : DB) (f1 : schedule) (ins : DB -> DB * Z)
    (g : Z -> result A) (r : Z -> A -> response) :
  with_connection f1 db
    (id <- statement ins ;; commit ;; x <- lift (g id) ;; ret (r id x)) =
  match first_fault (firstn 2 f1) with
  | Some (_, d) => (db, Json 500 (ServerError (StoreError d)))
  | None =>
      (fst (ins db),
       match g (snd (ins db)) with
       | inr x => r (snd (ins db)) x
       | inl e => Json 500 (ServerError e)
       end)
  end.
Proof.
  destruct f1 as [|[d|] [|[d'|] f2]]; tx; try reflexivity;
    destruct (ins db) as [w id]; cbn [fst snd];
    destruct (g id) as [e|x]; tx; reflexivity.
Qed.

(** What checkout returns on a cart that reads non-empty, for every
    schedule: a fault among its statements gives 500 and the store as it
    was; otherwise the order is committed. *)
Lemma checkout_run (faults : schedule) (now u : Z) (db : DB) :
  select_cart_items u db <> [] ->
  checkout faults now u db =
  match first_fault (firstn (2 + (List.length (select_cart_items u db) + 2)) faults) with
  | Some (_, d) => (db, Json 500 (ServerError (StoreError d)))
  | None => (checked_out now u db, Json 200 (CheckoutComplete (next_order_id db)))
  end.
Proof.
  intros Hne. unfold checkout, checked_out.
  destruct (select_cart_items u db) as [|i items'] eqn:Ei; [congruence|].
  rewrite <- Ei. set (items := select_cart_items u db).
  destruct faults as [|[d|] f1]; cbn [Nat.add firstn first_fault]; tx;
    [rewrite Ei; rewrite <- Ei; fold items | reflexivity | rewrite Ei; rewrite <- Ei; fold items].
  - tx. rewrite bind_run, for_each_execute_run, firstn_nil. cbn [first_fault skipn].
    rewrite skipn_nil. tx. reflexivity.
  - destruct f1 as [|[d|] f2]; cbn [firstn first_fault]; tx; [|reflexivity|].
    + rewrite bind_run, for_each_execute_run, firstn_nil. cbn [first_fault skipn].
      rewrite skipn_nil. tx. reflexivity.
    + rewrite bind_run, for_each_execute_run, first_fault_firstn_app.
      destruct (first_fault (firstn (List.length items) f2)) as [[k d]|]; [reflexivity|].
      destruct (skipn (List.length items) f2) as [|[d|] f3]; tx; [reflexivity|reflexivity|].
      destruct f3 as [|[d|] f4]; tx; reflexivity.
Qed.

(** On a cart that reads empty, checkout stops after its first statement. *)
Lemma checkout_empty (faults : schedule) (now u : Z) (db : DB) :
  select_cart_items u db = [] ->
  checkout faults now u db =
  match faults with
  | Some d :: _ => (db, Json 500 (ServerError (StoreError d)))
  | _ => (db, Json 400 (Error "cart empty"))
  end.
Proof.
  intros He. unfold checkout.
  destruct faults as [|[d|] f1]; tx; rewrite ?He; reflexivity.
Qed.

(** Whatever the schedule, checkout either commits the whole order or
    leaves the store as it was. *)
Lemma checkout_all_or_nothing (faults : schedule) (now u : Z) (db : DB) :
  checkout faults now u db =
    (checked_out now u db, Json 200 (CheckoutComplete (next_order_id db)))
  \/ fst (checkout faults now u db) = db.
Proof.
  destruct (select_cart_items u db) as [|i items] eqn:E.
  - right. rewrite checkout_empty by assumption.
    destruct faults as [|[d|] f]; reflexivity.
  - rewrite checkout_run by (rewrite E; discriminate).
    destruct (first_fault _) as [[k d]|]; [right|left]; reflexivity.
Qed.

(** A checkout that answers 200 is the committed one, and its cart read
    was not empty. *)
Lemma checkout_ok_inv (faults : schedule) (now u : Z) (db db' : DB) (b : body) :
  checkout faults now u db = (db', Json 200 b) ->
  select_cart_items u db <> [] /\
  db' = checked_out now u db /\ b = CheckoutComplete (next_order_id db).
Proof.
  intros H. destruct (select_cart_items u db) as [|i items] eqn:E.
  - rewrite checkout_empty in H by assumption.
    destruct faults as [|[d|] f]; discriminate.
  - rewrite checkout_run in H by (rewrite E; discriminate).
    destruct (first_fault _) as [[k d]|]; [discriminate|].
    injection H as <- <-. repeat split. discriminate.
Qed.

(** ** The cart join and the committed checkout *)

Lemma filter_none {A} (f : A -> bool) (l : list A) :
  existsb f l = false -> filter f l = [].
Proof.
  induction l as [|a l IH]; [reflexivity|]. simpl.
  destruct (f a); [discriminate|]. exact IH.
Qed.

Lemma in_cart_join {A} (row : cart_row -> product -> A) (u : Z) (db : DB) (x : A) :
  In x (cart_join row u db) <->
  exists c p, In c (cart db) /\ c_user_id c = u /\
              In p (products db) /\ p_id p = c_product_id c /\ x = row c p.
Proof.
  unfold cart_join. rewrite in_flat_map. split.
  - intros (c & Hc & Hx). apply filter_In in Hc as [Hc Hu].
    apply in_map_iff in Hx as (p & <- & Hp). apply filter_In in Hp as [Hp Hid].
    exists c, p. repeat split; try assumption; lia.
  - intros (c & p & Hc & Hu & Hp & Hid & ->). exists c. split.
    + apply filter_In. split; [assumption|lia].
    + apply in_map, filter_In. split; [assumption|lia].
Qed.

(** Orphaned rows contribute nothing to the join. *)
Lemma cart_join_without_orphans {A} (row : cart_row -> product -> A) (u : Z) (db : DB) :
  cart_join row u (without_orphans db) = cart_join row u db.
Proof.
  unfold cart_join, without_orphans, with_cart. cbn [cart products].
  induction (cart db) as [|c cs IH]; [reflexivity|]. cbn [filter].
  destruct (has_product db c) eqn:Hp; cbn [filter];
    destruct (c_user_id c =? u) eqn:Hu; cbn [flat_map]; rewrite ?IH; try reflexivity.
  unfold has_product in Hp. rewrite (filter_none _ _ Hp). reflexivity.
Qed.

Lemma cart_join_cart_nil {A} (row : cart_row -> product -> A) (u : Z) (db : DB) :
  (forall c, In c (cart db) -> c_user_id c <> u) -> cart_join row u db = [].
Proof.
  intros H. unfold cart_join.
  induction (cart db) as [|c cs IH]; [reflexivity|]. cbn [filter].
  destruct (c_user_id c =? u) eqn:Hu.
  - exfalso. apply (H c); [left; reflexivity|lia].
  - apply IH. intros c' Hc'. apply H. right. exact Hc'.
Qed.

Lemma insert_items_fold (oid : Z) (items : list cart_item) :
  forall w,
    fold_left (fun w it => insert_order_item oid it w) items w =
    mk_db (users w) (products w) (cart w) (orders w)
      (order_items w ++ map (item_of oid) items)
      (next_user_id w) (next_product_id w) (next_cart_id w) (next_order_id w).
Proof.
  induction items as [|it items IH]; intros w; cbn [fold_left map].
  - rewrite app_nil_r. destruct w; reflexivity.
  - rewrite IH. unfold insert_order_item. cbn. rewrite <- app_assoc. reflexivity.
Qed.

(** The committed checkout, table by table. *)
Lemma checked_out_eq (now u : Z) (db : DB) :
  checked_out now u db =
  mk_db (users db) (products db)
    (filter (fun c => negb (c_user_id c =? u)) (cart db))
    (orders db ++ [mk_order (next_order_id db) u now])
    (order_items db ++ map (item_of (next_order_id db)) (select_cart_items u db))
    (next_user_id db) (next_product_id db) (next_cart_id db) (next_order_id db + 1).
Proof.
  unfold checked_out. rewrite insert_items_fold. reflexivity.
Qed.

Lemma delete_cart_clears (u : Z) (cs : list cart_row) (c : cart_row) :
  In c (filter (fun c => negb (c_user_id c =? u)) cs) -> c_user_id c <> u.
Proof.
  intros H. apply filter_In in H as [_ H].
  apply negb_true_iff in H. lia.
Qed.

Lemma cart_join_map {A B C} (r1 : cart_row -> product -> A)
    (r2 : cart_row -> product -> B) (g : A -> C) (h : B -> C) (u : Z) (db : DB) :
  (forall c p, p_id p = c_product_id c -> g (r1 c p) = h (r2 c p)) ->
  map g (cart_join r1 u db) = map h (cart_join r2 u db).
Proof.
  intros H. unfold cart_join.
  induction (filter (fun c => c_user_id c =? u) (cart db)) as [|c cs IH];
    [reflexivity|].
  cbn [flat_map]. rewrite !map_app, IH. f_equal. clear IH.
  induction (products db) as [|p ps IHp]; [reflexivity|]. cbn [filter].
  destruct (p_id p =? c_product_id c) eqn:E; [|exact IHp].
  cbn [map]. rewrite IHp, H by lia. reflexivity.
Qed.

Lemma filter_unique_id (x : Z) (ps : list product) :
  NoDup (map p_id ps) ->
  filter (fun p => p_id p =? x) ps =
  match find (fun p => p_id p =? x) ps with
  | Some p => [p]
  | None => []
  end.
Proof.
  induction ps as [|a ps IH]; intros Hnd; [reflexivity|].
  cbn [map] in Hnd. apply NoDup_cons_iff in Hnd as [Hnot Hnd].
  cbn [filter find]. destruct (p_id a =? x) eqn:E.
  - f_equal. apply filter_none. apply not_true_is_false. intros Hex.
    apply existsb_exists in Hex as (p & Hp & Hid). apply Hnot.
    replace (p_id a) with (p_id p) by lia. apply in_map. exact Hp.
  - apply IH. exact Hnd.
Qed.

(** With unique product ids, the cart join is the user's rows whose
    product exists. *)
Lemma cart_join_purchasable (u : Z) (db : DB) :
  NoDup (map p_id (products db)) ->
  map (fun it => (it_product_id it, it_quantity it, it_price it))
    (select_cart_items u db) = purchasable u db.
Proof.
  intros Hnd. unfold select_cart_items, cart_join, purchasable, select_product.
  induction (filter (fun c => c_user_id c =? u) (cart db)) as [|c cs IH];
    [reflexivity|].
  cbn [flat_map]. rewrite map_app, IH. f_equal.
  rewrite filter_unique_id by assumption.
  destruct (find _ (products db)); reflexivity.
Qed.

Lemma items_of_new_order (oid : Z) (old : list order_item) (items : list cart_item) :
  Forall (fun oi => oi_order_id oi < oid) old ->
  filter (fun oi => oi_order_id oi =? oid) (old ++ map (item_of oid) items) =
  map (item_of oid) items.
Proof.
  intros Hold. rewrite filter_app.
  replace (filter _ old) with (@nil order_item).
  - cbn [app]. induction items as [|it items IH]; [reflexivity|].
    cbn [map filter item_of oi_order_id]. rewrite Z.eqb_refl. f_equal. exact IH.
  - symmetry. induction Hold as [|oi old Hlt _ IH]; [reflexivity|].
    cbn [filter]. destruct (oi_order_id oi =? oid) eqn:E; [lia|exact IH].
Qed.

(** ** Product updates and deletions, for every schedule *)

Lemma update_product_run (faults : schedule) (cu pid : Z)
    (data : product_request) (db : DB) :
  update_product faults cu pid data db =
  match faults with
  | Some d :: _ => (db, Json 500 (ServerError (StoreError d)))
  | _ =>
      match select_product_owner pid db with
      | None => (db, Json 404 (Error "not found"))
      | Some owner =>
          if negb (owner =? cu) then (db, Json 403 (Error "forbidden"))
          else
            match requested_price data with
            | inl e => (db, Json 500 (ServerError e))
            | inr price =>
                match requested_fields data price with
                | [] => (db, Json 400 (Error "nothing to update"))
                | (_ :: _) as fields =>
                    match first_fault (firstn 2 (tl faults)) with
                    | Some (_, d) => (db, Json 500 (ServerError (StoreError d)))
                    | None =>
                        (update_products fields pid db, Json 200 (Message "updated"))
                    end
                end
            end
      end
  end.
Proof.
  unfold update_product, requested_price, requested_fields.
  destruct faults as [|[d|] f1]; tx; try reflexivity;
    (destruct (select_product_owner pid db) as [owner|]; [|reflexivity]);
    (destruct (negb (owner =? cu)); [reflexivity|]);
    (destruct (get (pr_price data)) as [n|]; cbn [rbind];
     [destruct (py_float n) as [e|f]; cbn [rbind]; tx; [reflexivity|]|tx]);
    match goal with
    | |- context [append_field ?i SetImage ?l] =>
        destruct (append_field i SetImage l); [reflexivity|]
    end; cbn [tl]; apply write_commit_run.
Qed.

Lemma delete_product_run (faults : schedule) (cu pid : Z) (db : DB) :
  delete_product faults cu pid db =
  match faults with
  | Some d :: _ => (db, Json 500 (ServerError (StoreError d)))
  | _ =>
      match select_product_owner pid db with
      | None => (db, Json 404 (Error "not found"))
      | Some owner =>
          if negb (owner =? cu) then (db, Json 403 (Error "forbidden"))
          else
            match first_fault (firstn 2 (tl faults)) with
            | Some (_, d) => (db, Json 500 (ServerError (StoreError d)))
            | None => (delete_products pid db, Json 200 (Message "deleted"))
            end
      end
  end.
Proof.
  unfold delete_product.
  destruct faults as [|[d|] f1]; tx; try reflexivity;
    (destruct (select_product_owner pid db) as [owner|]; [|reflexivity]);
    (destruct (negb (owner =? cu)); [reflexivity|]); cbn [tl]; apply write_commit_run.
Qed.

(** An update of a product touches no other table. *)
Lemma update_product_tables (faults : schedule) (cu pid : Z)
    (data : product_request) (db : DB) :
  let db' := fst (update_product faults cu pid data db) in
  users db' = users db /\ cart db' = cart db /\ orders db' = orders db /\
  order_items db' = order_items db.
Proof.
  rewrite update_product_run.
  repeat match goal with
         | |- context [match ?x with _ => _ end] => destruct x
         end; cbn; auto.
Qed.

(** ** Checkout *)

Lemma view_cart_run (u : Z) (db : DB) :
  view_cart [] u db = (db, Json 200 (CartRows (select_cart_view u db))).
Proof. reflexivity. Qed.

Lemma all_orphans_read_empty {A} (row : cart_row -> product -> A) (u : Z) (db : DB) :
  (forall c, In c (cart db) -> c_user_id c = u -> has_product db c = false) ->
  cart_join row u db = [].
Proof.
  intros H. rewrite <- cart_join_without_orphans. apply cart_join_cart_nil.
  unfold without_orphans, with_cart. cbn [cart]. intros c Hc Hu.
  apply filter_In in Hc as [Hc Hp]. rewrite (H c Hc Hu) in Hp. discriminate.
Qed.

(** ** Tokens, signup and login *)

Lemma jwt_decode_fresh (cfg : config) (issued now uid : Z) (tok : token) :
  create_token cfg issued uid = inr tok ->
  now < issued + 3600 * JWT_EXPIRE_HOURS cfg ->
  jwt_decode tok (SECRET_KEY cfg) now =
  inr (mk_payload uid (issued + 3600 * JWT_EXPIRE_HOURS cfg)).
Proof.
  intros Htok Hnow. apply create_token_ok in Htok as [_ ->].
  unfold jwt_decode. cbn [claim_exp]. rewrite String.eqb_refl. cbn [negb].
  destruct (issued + 3600 * JWT_EXPIRE_HOURS cfg <=? now) eqn:E; [lia|reflexivity].
Qed.

Lemma empty_email_is_empty : nonempty (lower (strip "")) = false.
Proof. rewrite strip_empty, lower_empty. reflexivity. Qed.

Lemma find_snoc {A} (f : A -> bool) (l : list A) (x : A) :
  find f l = None -> f x = true -> find f (l ++ [x]) = Some x.
Proof.
  induction l as [|a l IH]; cbn [find app]; intros Hl Hx.
  - rewrite Hx. reflexivity.
  - destruct (f a); [discriminate|]. apply IH; assumption.
Qed.

Lemma signup_run (cfg : config) (faults : schedule) (t0 : Z) (salt : string)
    (data : signup_request) (db : DB) :
  signup cfg faults t0 salt data db =
  match py_strip (get_default (sr_username data) "") with
  | inl e => (db, Unhandled e)
  | inr username =>
      match py_strip (get_default (sr_email data) "") with
      | inl e => (db, Unhandled e)
      | inr e =>
          match get_default (sr_password data) "" with
          | None => (db, Json 400 (Error "username, email and password required"))
          | Some password =>
              if negb (nonempty username && nonempty (lower e) && nonempty password)
              then (db, Json 400 (Error "username, email and password required"))
              else
                match faults with
                | Some d :: _ => (db, Json 500 (ServerError (StoreError d)))
                | _ =>
                    match select_user_by_email (lower e) db with
                    | Some _ => (db, Json 400 (Error "email already registered"))
                    | None =>
                        match first_fault (firstn 2 (tl faults)) with
                        | Some (_, d) => (db, Json 500 (ServerError (StoreError d)))
                        | None =>
                            (fst (insert_user username (lower e)
                                    (generate_password_hash salt password) db),
                             signed_up cfg t0 (next_user_id db) username (lower e))
                        end
                    end
                end
          end
      end
  end.
Proof.
  unfold signup, signed_up.
  destruct (py_strip (get_default (sr_username data) "")) as [e|username];
    [reflexivity|]. cbn [rbind].
  destruct (py_strip (get_default (sr_email data) "")) as [e|e];
    [reflexivity|]. cbn [rbind].
  destruct (get_default (sr_password data) "") as [password|]; [|reflexivity].
  destruct (negb _); [reflexivity|].
  destruct faults as [|[d|] f1]; [| reflexivity |].
  - unfold with_connection at 1. autorewrite with tx.
    destruct (select_user_by_email (lower e) db); [reflexivity|].
    apply (insert_commit_lift_run db []
             (insert_user username (lower e) (generate_password_hash salt password))
             (create_token cfg t0)
             (fun id tok => Json 201 (Session tok (mk_user_view id username (lower e))))).
  - unfold with_connection at 1. autorewrite with tx.
    destruct (select_user_by_email (lower e) db); [reflexivity|].
    apply (insert_commit_lift_run db f1
             (insert_user username (lower e) (generate_password_hash salt password))
             (create_token cfg t0)
             (fun id tok => Json 201 (Session tok (mk_user_view id username (lower e))))).
Qed.

Lemma login_run (cfg : config) (faults : schedule) (now : Z)
    (data : login_request) (db : DB) :
  login cfg faults now data db =
  let email := lower (strip (or_else (get (lr_email data)) "")) in
  let password := or_else (get (lr_password data)) "" in
  if negb (nonempty email && nonempty password)
  then (db, Json 400 (Error "email and password required"))
  else
    match faults with
    | Some d :: _ => (db, Json 500 (ServerError (StoreError d)))
    | _ =>
        match select_user_by_email email db with
        | None => (db, Json 401 (Error "invalid credentials"))
        | Some user =>
            if negb (check_password_hash (u_password user) password)
            then (db, Json 401 (Error "invalid credentials"))
            else
              match create_token cfg now (u_id user) with
              | inr tok =>
                  (db, Json 200
                         (Session tok
                            (mk_user_view (u_id user) (u_username user) (u_email user))))
              | inl e => (db, Json 500 (ServerError e))
              end
        end
    end.
Proof.
  unfold login. cbv zeta. destruct (negb _); [reflexivity|].
  destruct faults as [|[d|] f1]; tx; try reflexivity;
    (destruct (select_user_by_email _ db) as [user|]; [|reflexivity]);
    (destruct (negb (check_password_hash _ _)); [reflexivity|]);
    destruct (create_token cfg now (u_id user)); tx; reflexivity.
Qed.

Lemma or_else_nonempty (s : string) : or_else (Some s) "" = s.
Proof.
  unfold or_else. destruct (String.eqb s "") eqn:E; [|reflexivity].
  apply String.eqb_eq in E. symmetry. exact E.
Qed.

(** A signup that answers 201 has stored the normalised email with the
    hash of the password, under the id it returns. *)
Lemma signup_ok_inv (cfg : config) (faults : schedule) (t0 : Z) (salt : string)
    (data : signup_request) (db db1 : DB) (tok : token) (uv : user_view) :
  signup cfg faults t0 salt data db = (db1, Json 201 (Session tok uv)) ->
  exists username e password,
    sr_email data = Val e /\ sr_password data = Val password /\
    nonempty (lower (strip e)) = true /\ nonempty password = true /\
    select_user_by_email (lower (strip e)) db = None /\
    uv = mk_user_view (next_user_id db) username (lower (strip e)) /\
    create_token cfg t0 (next_user_id db) = inr tok /\
    db1 = fst (insert_user username (lower (strip e))
                 (generate_password_hash salt password) db).
Proof.
  rewrite signup_run. intros H0.
  destruct (py_strip (get_default (sr_username data) "")) as [?|username];
    [discriminate|].
  destruct (sr_email data) as [| |e] eqn:Ee; cbn [get_default py_strip] in H0;
    [| discriminate |].
  { destruct (get_default (sr_password data) ""); [|discriminate].
    rewrite empty_email_is_empty, andb_false_r in H0. discriminate. }
  destruct (sr_password data) as [| |password] eqn:Ep; cbn [get_default] in H0;
    [| discriminate |].
  { rewrite andb_false_r in H0. discriminate. }
  destruct (negb _) eqn:G in H0; [discriminate|].
  apply negb_false_iff in G. apply andb_true_iff in G as [G Gp].
  apply andb_true_iff in G as [Gu Ge].
  assert (Hsel : select_user_by_email (lower (strip e)) db = None /\
                 (db1, Json 201 (Session tok uv)) =
                 (fst (insert_user username (lower (strip e))
                         (generate_password_hash salt password) db),
                  signed_up cfg t0 (next_user_id db) username (lower (strip e)))).
  { destruct faults as [|[d|] f1]; [| discriminate |];
      (destruct (select_user_by_email (lower (strip e)) db); [discriminate|]);
      (destruct (first_fault _) as [[k d]|]; [discriminate|]);
      split; [reflexivity | symmetry; exact H0 | reflexivity | symmetry; exact H0]. }
  destruct Hsel as [Hsel Heq]. unfold signed_up in Heq.
  destruct (create_token cfg t0 (next_user_id db)) as [?|tok'] eqn:Etok;
    [discriminate|].
  injection Heq as -> -> ->.
  exists username, e, password. repeat split; assumption.
Qed.

Lemma signup_then_login (cfg : config) (faults : schedule) (t0 t1 : Z)
    (salt : string) (data : signup_request) (db db1 : DB) (tok tok1 : token)
    (uv : user_view) :
  signup cfg faults t0 salt data db = (db1, Json 201 (Session tok uv)) ->
  create_token cfg t1 (uv_id uv) = inr tok1 ->
  login cfg [] t1 (mk_login_request (sr_email data) (sr_password data)) db1 =
  (db1, Json 200 (Session tok1 uv)).
Proof.
  intros H0 Htok.
  apply signup_ok_inv in H0
    as (username & e & password & Ee & Ep & Ge & Gp & Hsel & -> & _ & ->).
  rewrite login_run. cbn [lr_email lr_password]. rewrite Ee, Ep. cbn [get].
  rewrite !or_else_nonempty. cbv zeta. rewrite Ge, Gp. cbn [andb negb].
  unfold select_user_by_email, insert_user. cbn [fst users].
  rewrite find_snoc; [| exact Hsel | cbn [u_email]; apply String.eqb_refl].
  cbn [u_password generate_password_hash check_password_hash].
  rewrite String.eqb_refl. cbn [negb u_id uv_id] in *. rewrite Htok. reflexivity.
Qed.

(** ** Product ownership *)

Lemma select_product_owner_eq (pid : Z) (db : DB) :
  select_product_owner pid db = option_map p_user_id (select_product pid db).
Proof. reflexivity. Qed.

Lemma select_product_none (pid : Z) (db : DB) :
  (forall p, In p (products db) -> p_id p <> pid) -> select_product pid db = None.
Proof.
  intros H. unfold select_product.
  destruct (find _ (products db)) as [p|] eqn:E; [|reflexivity].
  apply find_some in E as [Hin Heq]. exfalso. apply (H p Hin). lia.
Qed.

(** ** Partial updates *)

Lemma assign_requested (data : product_request) (price : option float) (p : product) :
  fold_left assign (requested_fields data price) p = updated data price p.
Proof.
  unfold requested_fields, updated.
  destruct (get (pr_title data)), (get (pr_description data)), price,
    (get (pr_category data)), (get (pr_image data)), p; reflexivity.
Qed.

Lemma requested_price_none (data : product_request) (price : option float) :
  requested_price data = inr price -> get (pr_price data) = None -> price = None.
Proof.
  unfold requested_price. intros H Hn. rewrite Hn in H. congruence.
Qed.

Lemma updated_retains (data : product_request) (price : option float) (p : product) :
  requested_price data = inr price -> retains data p (updated data price p).
Proof.
  intros Hp. unfold retains, updated. cbn.
  repeat split; try (intros ->; reflexivity).
  intros Hn. rewrite (requested_price_none data price Hp Hn). reflexivity.
Qed.

Lemma retains_refl (data : product_request) (p : product) : retains data p p.
Proof. unfold retains. repeat split; reflexivity. Qed.

Lemma Forall2_map_r {A} (R : A -> A -> Prop) (g : A -> A) (l : list A) :
  (forall x, R x (g x)) -> Forall2 R l (map g l).
Proof.
  intros H. induction l as [|a l IH]; constructor; [apply H | exact IH].
Qed.

Lemma Forall2_same {A} (R : A -> A -> Prop) (l : list A) :
  (forall x, R x x) -> Forall2 R l l.
Proof.
  intros H. induction l as [|a l IH]; constructor; [apply H | exact IH].
Qed.

(** ** Purchase history *)

Lemma insert_desc_perm (r : purchase_view) (rs : list purchase_view) :
  Permutation (insert_desc r rs) (r :: rs).
Proof.
  induction rs as [|r' rs IH]; cbn [insert_desc]; [reflexivity|].
  destruct (pv_created_at r' <=? pv_created_at r); [reflexivity|].
  rewrite IH. apply perm_swap.
Qed.

Lemma order_by_perm (rs : list purchase_view) :
  Permutation (order_by_created_at_desc rs) rs.
Proof.
  induction rs as [|r rs IH]; cbn; [reflexivity|].
  rewrite insert_desc_perm. constructor. exact IH.
Qed.

Lemma insert_desc_sorted (r : purchase_view) (rs : list purchase_view) :
  StronglySorted newer_first rs -> StronglySorted newer_first (insert_desc r rs).
Proof.
  induction rs as [|r' rs IH]; intros Hs; cbn [insert_desc].
  - repeat constructor.
  - apply StronglySorted_inv in Hs as [Hs Hall].
    destruct (pv_created_at r' <=? pv_created_at r) eqn:E.
    + constructor; [constructor; assumption|].
      constructor; [unfold newer_first; lia|].
      eapply Forall_impl; [|exact Hall]. unfold newer_first. intros x Hx. lia.
    + constructor; [apply IH; exact Hs|].
      eapply Permutation_Forall; [symmetry; apply insert_desc_perm|].
      constructor; [unfold newer_first; lia | exact Hall].
Qed.

Lemma order_by_sorted (rs : list purchase_view) :
  StronglySorted newer_first (order_by_created_at_desc rs).
Proof.
  induction rs as [|r rs IH]; cbn; [constructor|].
  apply insert_desc_sorted. exact IH.
Qed.

Lemma in_purchases_join (u : Z) (db : DB) (r : purchase_view) :
  In r (purchases_join u db) <->
  exists o oi p,
    In o (orders db) /\ o_user_id o = u /\
    In oi (order_items db) /\ oi_order_id oi = o_id o /\
    In p (products db) /\ p_id p = oi_product_id oi /\
    r = mk_purchase_view (o_id o) (o_created_at o) (oi_product_id oi)
          (p_title p) (p_image p) (oi_quantity oi) (oi_price oi).
Proof.
  unfold purchases_join. rewrite in_flat_map. split.
  - intros (o & Ho & Hr). apply filter_In in Ho as [Ho Hu].
    apply in_flat_map in Hr as (oi & Hoi & Hr). apply filter_In in Hoi as [Hoi Hid].
    apply in_map_iff in Hr as (p & <- & Hp). apply filter_In in Hp as [Hp Hpid].
    exists o, oi, p. repeat split; try assumption; lia.
  - intros (o & oi & p & Ho & Hu & Hoi & Hid & Hp & Hpid & ->).
    exists o. split; [apply filter_In; split; [assumption|lia]|].
    apply in_flat_map. exists oi. split; [apply filter_In; split; [assumption|lia]|].
    apply in_map_iff. exists p. split; [reflexivity|].
    apply filter_In. split; [assumption|lia].
Qed.

(** ** The cart *)

Lemma add_to_cart_run (u p q : Z) (data : cart_request) (db : DB) :
  get (cr_product_id data) = Some p -> p <> 0 ->
  py_int (get_default (cr_quantity data) (NInt 1)) = inr q ->
  add_to_cart [] u data db =
  (match select_cart_entry u p db with
   | Some (id, _) => add_cart_quantity q id db
   | None => insert_cart u p q db
   end, Json 200 (Message "added to cart")).
Proof.
  intros Hp Hnz Hq. unfold add_to_cart. rewrite Hp, Hq.
  destruct (p =? 0) eqn:E; [lia|]. tx.
  destruct (select_cart_entry u p db) as [[id q0]|]; tx; reflexivity.
Qed.

Lemma filter_find_nil {A} (f : A -> bool) (l : list A) :
  filter f l = [] -> find f l = None.
Proof.
  induction l as [|a l IH]; [reflexivity|]. cbn [filter find].
  destruct (f a); [discriminate|exact IH].
Qed.

Lemma filter_find_cons {A} (f : A -> bool) (l : list A) (x : A) (xs : list A) :
  filter f l = x :: xs -> find f l = Some x.
Proof.
  induction l as [|a l IH]; [discriminate|]. cbn [filter find].
  destruct (f a); [|exact IH]. intros H. injection H as -> _. reflexivity.
Qed.

Lemma filter_map_same {A} (f : A -> bool) (g : A -> A) (l : list A) :
  (forall x, f (g x) = f x) -> filter f (map g l) = map g (filter f l).
Proof.
  intros H. induction l as [|a l IH]; [reflexivity|]. cbn [map filter].
  rewrite H. destruct (f a); cbn [map]; rewrite IH; reflexivity.
Qed.

Lemma unique_cart_id (cs : list cart_row) (c c' : cart_row) :
  NoDup (map c_id cs) -> In c cs -> In c' cs -> c_id c' = c_id c -> c' = c.
Proof.
  induction cs as [|a cs IH]; intros Hnd Hc Hc' Hid; [destruct Hc|].
  cbn [map] in Hnd. apply NoDup_cons_iff in Hnd as [Hnot Hnd].
  destruct Hc as [<-|Hc], Hc' as [<-|Hc'].
  - reflexivity.
  - exfalso. apply Hnot. rewrite <- Hid. apply in_map. exact Hc'.
  - exfalso. apply Hnot. rewrite Hid. apply in_map. exact Hc.
  - apply IH; assumption.
Qed.

(** The [UPDATE] of one cart row: that row takes the amount, the others
    are as they were. *)
Lemma add_cart_quantity_rows (q : Z) (c : cart_row) (cs : list cart_row) :
  NoDup (map c_id cs) -> In c cs ->
  forall f : cart_row -> bool,
    (forall x, f (add_quantity q x) = f x) ->
    filter f (map (fun x => if c_id x =? c_id c then add_quantity q x else x) cs) =
    map (fun x => if f c then if c_id x =? c_id c then add_quantity q x else x else x)
      (filter f cs).
Proof.
  intros Hnd Hc f Hf.
  rewrite filter_map_same
    by (intros x; destruct (c_id x =? c_id c); [apply Hf|reflexivity]).
  apply map_ext_in. intros x Hx. apply filter_In in Hx as [Hx Hfx].
  destruct (c_id x =? c_id c) eqn:E; [|destruct (f c); reflexivity].
  assert (x = c) as -> by (apply (unique_cart_id cs); [assumption..|lia]).
  rewrite Hfx. reflexivity.
Qed.

Lemma cart_key_match (u p : Z) (c : cart_row) :
  (c_user_id c =? u) && (c_product_id c =? p) = true <-> cart_key c = (u, p).
Proof.
  unfold cart_key. rewrite andb_true_iff, !Z.eqb_eq. split.
  - intros [-> ->]. reflexivity.
  - intros H. injection H as -> ->. split; reflexivity.
Qed.

Lemma no_entry_no_key (u p : Z) (cs : list cart_row) :
  filter (fun c => (c_user_id c =? u) && (c_product_id c =? p)) cs = [] ->
  ~ In (u, p) (map cart_key cs).
Proof.
  intros Hnil Hin. apply in_map_iff in Hin as (c & Hk & Hc).
  assert (Hf : In c (filter (fun c => (c_user_id c =? u) && (c_product_id c =? p)) cs)).
  { apply filter_In. split; [exact Hc|]. apply cart_key_match. exact Hk. }
  rewrite Hnil in Hf. destruct Hf.
Qed.

Lemma one_entry_per_key (u p : Z) (cs : list cart_row) :
  NoDup (map cart_key cs) ->
  (List.length
     (filter (fun c => ((c_user_id c =? u) && (c_product_id c =? p))%Z) cs) <= 1)%nat.
Proof.
  induction cs as [|a cs IH]; intros Hnd; [cbn; lia|].
  cbn [map] in Hnd. apply NoDup_cons_iff in Hnd as [Hnot Hnd]. cbn [filter].
  destruct ((c_user_id a =? u) && (c_product_id a =? p)) eqn:E; [|apply IH; exact Hnd].
  apply cart_key_match in E. rewrite E in Hnot.
  replace (filter _ cs) with (@nil cart_row); [cbn; lia|].
  symmetry. apply filter_none. apply not_true_is_false. intros Hex.
  apply existsb_exists in Hex as (c & Hc & Hm). apply cart_key_match in Hm.
  apply Hnot. rewrite <- Hm. apply in_map. exact Hc.
Qed.

(** What one add does to the cart table. *)
Lemma add_to_cart_table (u p q : Z) (data : cart_request) (db : DB) :
  get (cr_product_id data) = Some p -> p <> 0 ->
  py_int (get_default (cr_quantity data) (NInt 1)) = inr q ->
  let db' := fst (add_to_cart [] u data db) in
  match cart_entries u p db with
  | [] =>
      cart db' = cart db ++ [mk_cart (next_cart_id db) u p q] /\
      next_cart_id db' = next_cart_id db + 1
  | c :: _ =>
      cart db' =
        map (fun x => if c_id x =? c_id c then add_quantity q x else x) (cart db) /\
      next_cart_id db' = next_cart_id db
  end.
Proof.
  intros Hp Hnz Hq db'. subst db'. rewrite (add_to_cart_run u p q) by assumption.
  unfold select_cart_entry, cart_entries. cbn [fst].
  destruct (filter _ (cart db)) as [|c cs] eqn:E.
  - rewrite (filter_find_nil _ _ E). cbn [option_map]. split; reflexivity.
  - rewrite (filter_find_cons _ _ _ _ E). cbn [option_map]. split; reflexivity.
Qed.

Lemma add_to_cart_wf (u p q : Z) (data : cart_request) (db : DB) :
  get (cr_product_id data) = Some p -> p <> 0 ->
  py_int (get_default (cr_quantity data) (NInt 1)) = inr q ->
  cart_wf db -> cart_wf (fst (add_to_cart [] u data db)).
Proof.
  intros Hp Hnz Hq (Hid & Hbelow & Hkey).
  pose proof (add_to_cart_table u p q data db Hp Hnz Hq) as H. cbv zeta in H.
  unfold cart_wf. destruct (cart_entries u p db) as [|c cs] eqn:E;
    destruct H as [-> ->].
  - rewrite !map_app. cbn [map c_id cart_key c_user_id c_product_id].
    split; [|split].
    + apply Permutation_NoDup with (l := next_cart_id db :: map c_id (cart db)).
      * apply Permutation_cons_append.
      * constructor; [|exact Hid]. intros Hin.
        apply in_map_iff in Hin as (x & Hx & Hin).
        rewrite Forall_forall in Hbelow. specialize (Hbelow x Hin). lia.
    + apply Forall_app. split.
      * eapply Forall_impl; [|exact Hbelow]. cbn. intros x Hx. lia.
      * constructor; [cbn; lia|constructor].
    + apply Permutation_NoDup with (l := (u, p) :: map cart_key (cart db)).
      * apply Permutation_cons_append.
      * constructor; [|exact Hkey]. apply no_entry_no_key. exact E.
  - rewrite !map_map.
    rewrite (map_ext (fun x => c_id (if c_id x =? c_id c then add_quantity q x else x)) c_id)
      by (intros x; destruct (c_id x =? c_id c); reflexivity).
    rewrite (map_ext (fun x => cart_key (if c_id x =? c_id c then add_quantity q x else x))
               cart_key)
      by (intros x; destruct (c_id x =? c_id c); reflexivity).
    split; [exact Hid|]. split; [|exact Hkey].
    apply Forall_map. eapply Forall_impl; [|exact Hbelow].
    intros x Hx. destruct (c_id x =? c_id c); exact Hx.
Qed.

Lemma add_to_cart_entries (u p q : Z) (data : cart_request) (db : DB) :
  get (cr_product_id data) = Some p -> p <> 0 ->
  py_int (get_default (cr_quantity data) (NInt 1)) = inr q ->
  cart_wf db ->
  let db' := fst (add_to_cart [] u data db) in
  (forall c, cart_entries u p db = [c] -> cart_entries u p db' = [add_quantity q c]) /\
  (cart_entries u p db = [] ->
   cart_entries u p db' = [mk_cart (next_cart_id db) u p q]) /\
  (forall u' p', (u', p') <> (u, p) ->
   cart_entries u' p' db' = cart_entries u' p' db).
Proof.
  intros Hp Hnz Hq (Hid & Hbelow & Hkey) db'.
  pose proof (add_to_cart_table u p q data db Hp Hnz Hq) as H. cbv zeta in H.
  fold db' in H. unfold cart_entries in *.
  split; [|split].
  - intros c E. rewrite E in H. destruct H as [-> _].
    assert (Hc : In c (cart db)).
    { assert (Hin : In c [c]) by (left; reflexivity).
      rewrite <- E in Hin. apply filter_In in Hin. tauto. }
    rewrite (add_cart_quantity_rows q c (cart db) Hid Hc) by reflexivity.
    rewrite E. cbn [map].
    assert (Hm : In c (filter (fun c => (c_user_id c =? u) && (c_product_id c =? p))
                         (cart db))) by (rewrite E; left; reflexivity).
    apply filter_In in Hm as [_ ->]. rewrite Z.eqb_refl. reflexivity.
  - intros E. rewrite E in H. destruct H as [-> _].
    rewrite filter_app, E. cbn [app filter c_user_id c_product_id].
    rewrite !Z.eqb_refl. reflexivity.
  - intros u' p' Hne.
    destruct (filter (fun c => (c_user_id c =? u) && (c_product_id c =? p)) (cart db))
      as [|c cs] eqn:E; destruct H as [-> _].
    + rewrite filter_app. cbn [filter c_user_id c_product_id].
      destruct ((u =? u') && (p =? p')) eqn:Em; [|apply app_nil_r].
      apply andb_true_iff in Em as [Eu Ep]. exfalso. apply Hne. f_equal; lia.
    + assert (Hm : In c (filter (fun c => (c_user_id c =? u) && (c_product_id c =? p))
                           (cart db))) by (rewrite E; left; reflexivity).
      apply filter_In in Hm as [Hc Hm].
      rewrite (add_cart_quantity_rows q c (cart db) Hid Hc) by reflexivity.
      replace ((c_user_id c =? u') && (c_product_id c =? p')) with false.
      * apply map_id.
      * symmetry. apply not_true_is_false. intros Hm'.
        apply cart_key_match in Hm, Hm'. apply Hne. congruence.
Qed.

(** ** Every reachable store is well formed *)

Lemma with_connection_query (faults : schedule) (db : DB) {A} (q : DB -> A)
    (k : A -> Tx response) :
  with_connection faults db (x <- query q ;; k x) =
  match faults with
  | Some d :: _ => (db, Json 500 (ServerError (StoreError d)))
  | _ => with_connection (tl faults) db (k (q db))
  end.
Proof. destruct faults as [|[d|] f]; reflexivity. Qed.

Lemma with_connection_lift (faults : schedule) (db : DB) {A} (r : result A)
    (k : A -> Tx response) :
  with_connection faults db (x <- lift r ;; k x) =
  match r with
  | inl e => (db, Json 500 (ServerError e))
  | inr a => with_connection faults db (k a)
  end.
Proof. destruct r; reflexivity. Qed.

Lemma read_only_store (faults : schedule) (db : DB) {A} (q : DB -> A)
    (r : A -> response) :
  fst (with_connection faults db (x <- query q ;; ret (r x))) = db.
Proof. destruct faults as [|[d|] f]; reflexivity. Qed.

Lemma login_store (cfg : config) (faults : schedule) (now : Z)
    (data : login_request) (db : DB) :
  fst (login cfg faults now data db) = db.
Proof.
  rewrite login_run. cbv zeta.
  repeat match goal with
         | |- context [match ?x with _ => _ end] => destruct x
         end; reflexivity.
Qed.

Lemma signup_store (cfg : config) (faults : schedule) (now : Z) (salt : string)
    (data : signup_request) (db : DB) :
  fst (signup cfg faults now salt data db) = db \/
  exists username email password,
    fst (signup cfg faults now salt data db) =
    fst (insert_user username email password db).
Proof.
  rewrite signup_run.
  repeat match goal with
         | |- context [match ?x with _ => _ end] => destruct x
         end;
    first [left; reflexivity | right; do 3 eexists; reflexivity].
Qed.

Lemma create_product_store (faults : schedule) (cu : Z) (data : product_request)
    (db : DB) :
  fst (create_product faults cu data db) = db \/
  exists title description price category image,
    fst (create_product faults cu data db) =
    fst (insert_product cu title description price category image db).
Proof.
  unfold create_product.
  destruct (py_strip (get_default (pr_title data) "")) as [?|title];
    [left; reflexivity|]. cbn [rbind].
  destruct (py_strip (get_default (pr_description data) "")) as [?|description];
    [left; reflexivity|]. cbn [rbind].
  destruct (py_strip (get_default (pr_category data) "")) as [?|category];
    [left; reflexivity|]. cbn [rbind].
  destruct (py_strip (get_default (pr_image data) "")) as [?|image];
    [left; reflexivity|]. cbn [rbind].
  destruct (get (pr_price data)) as [n|]; [|left; reflexivity].
  destruct (negb (nonempty title)); [left; reflexivity|].
  rewrite with_connection_lift.
  destruct (py_float n) as [?|price]; [left; reflexivity|].
  rewrite (insert_commit_run db faults
             (insert_product cu title description price category image)
             (fun id => Json 201 (ProductCreated id))).
  destruct (first_fault _) as [[k d]|];
    [left; reflexivity | right; do 5 eexists; reflexivity].
Qed.

Lemma add_to_cart_store (faults : schedule) (u : Z) (data : cart_request) (db : DB) :
  fst (add_to_cart faults u data db) = db \/
  exists p q,
    get (cr_product_id data) = Some p /\ p <> 0 /\
    py_int (get_default (cr_quantity data) (NInt 1)) = inr q /\
    fst (add_to_cart faults u data db) = fst (add_to_cart [] u data db).
Proof.
  destruct (py_int (get_default (cr_quantity data) (NInt 1))) as [e|q] eqn:Hq;
    [left; unfold add_to_cart; rewrite Hq; reflexivity|].
  destruct (get (cr_product_id data)) as [p|] eqn:Hp;
    [|left; unfold add_to_cart; rewrite Hq, Hp; reflexivity].
  destruct (p =? 0) eqn:Hz;
    [left; unfold add_to_cart; rewrite Hq, Hp, Hz; reflexivity|].
  assert (Hnz : p <> 0) by lia.
  rewrite (add_to_cart_run u p q data db Hp Hnz Hq).
  unfold add_to_cart. rewrite Hq, Hp, Hz. rewrite with_connection_query.
  destruct faults as [|[d|] f1]; [right | left; reflexivity |].
  - exists p, q. repeat split; try assumption. cbn [tl].
    destruct (select_cart_entry u p db) as [[id q0]|]; reflexivity.
  - cbn [tl]. destruct (select_cart_entry u p db) as [[id q0]|];
      rewrite write_commit_run;
      (destruct (first_fault _) as [[k d]|];
       [left; reflexivity | right; exists p, q; repeat split; assumption]).
Qed.

Lemma NoDup_snoc_fresh {A} (id : A -> Z) (l : list A) (x : A) (bound : Z) :
  NoDup (map id l) -> Forall (fun a => id a < bound) l -> id x = bound ->
  NoDup (map id (l ++ [x])).
Proof.
  intros Hnd Hb Hx. rewrite map_app. cbn [map].
  apply Permutation_NoDup with (l := id x :: map id l).
  - apply Permutation_cons_append.
  - constructor; [|exact Hnd]. intros Hin.
    apply in_map_iff in Hin as (a & Ha & Hin).
    rewrite Forall_forall in Hb. specialize (Hb a Hin). lia.
Qed.

Lemma NoDup_map_filter {A B} (g : A -> B) (f : A -> bool) (l : list A) :
  NoDup (map g l) -> NoDup (map g (filter f l)).
Proof.
  induction l as [|a l IH]; intros Hnd; [constructor|].
  cbn [map] in Hnd. apply NoDup_cons_iff in Hnd as [Hnot Hnd]. cbn [filter].
  destruct (f a); [|apply IH; exact Hnd].
  cbn [map]. constructor; [|apply IH; exact Hnd].
  intros Hin. apply Hnot. apply in_map_iff in Hin as (x & Hx & Hin).
  apply filter_In in Hin as [Hin _]. rewrite <- Hx. apply in_map. exact Hin.
Qed.

Lemma Forall_filter {A} (P : A -> Prop) (f : A -> bool) (l : list A) :
  Forall P l -> Forall P (filter f l).
Proof.
  intros H. apply Forall_forall. intros x Hx.
  apply filter_In in Hx as [Hx _]. rewrite Forall_forall in H. exact (H x Hx).
Qed.

Lemma assign_all_id (fields : list assignment) (p : product) :
  p_id (fold_left assign fields p) = p_id p.
Proof.
  revert p. induction fields as [|a fields IH]; intros p; [reflexivity|].
  cbn [fold_left]. rewrite IH. destruct a; reflexivity.
Qed.

Lemma db_wf_insert_user (username email : string) (password : pwhash) (db : DB) :
  db_wf db -> db_wf (fst (insert_user username email password db)).
Proof. intros H. exact H. Qed.

Lemma db_wf_insert_product (cu : Z) (title description : string) (price : float)
    (category image : string) (db : DB) :
  db_wf db ->
  db_wf (fst (insert_product cu title description price category image db)).
Proof.
  intros (Hnd & Hb & Hcart & Hitems). unfold db_wf, cart_wf, insert_product.
  cbn [fst products cart order_items next_product_id next_cart_id next_order_id].
  split; [|split; [|split; assumption]].
  - apply (NoDup_snoc_fresh p_id _ _ (next_product_id db)); [assumption..|reflexivity].
  - apply Forall_app. split.
    + eapply Forall_impl; [|exact Hb]. cbn. intros p Hp. lia.
    + constructor; [cbn; lia|constructor].
Qed.

Lemma db_wf_update_products (fields : list assignment) (pid : Z) (db : DB) :
  db_wf db -> db_wf (update_products fields pid db).
Proof.
  intros (Hnd & Hb & Hcart & Hitems). unfold db_wf, cart_wf, update_products, with_products.
  cbn [products cart order_items next_product_id next_cart_id next_order_id].
  assert (Hid : forall p,
    p_id (if p_id p =? pid then fold_left assign fields p else p) = p_id p).
  { intros p. destruct (p_id p =? pid); [apply assign_all_id|reflexivity]. }
  split; [|split; [|split; assumption]].
  - rewrite map_map. rewrite (map_ext _ p_id Hid). exact Hnd.
  - apply Forall_map. eapply Forall_impl; [|exact Hb].
    intros p Hp. cbn. rewrite Hid. exact Hp.
Qed.

Lemma db_wf_delete_products (pid : Z) (db : DB) :
  db_wf db -> db_wf (delete_products pid db).
Proof.
  intros (Hnd & Hb & Hcart & Hitems). unfold db_wf, cart_wf, delete_products, with_products.
  cbn [products cart order_items next_product_id next_cart_id next_order_id].
  split; [|split; [|split; assumption]].
  - apply NoDup_map_filter. exact Hnd.
  - apply Forall_filter. exact Hb.
Qed.

Lemma db_wf_checked_out (now u : Z) (db : DB) :
  db_wf db -> db_wf (checked_out now u db).
Proof.
  intros (Hnd & Hb & (Hid & Hbelow & Hkey) & Hitems).
  rewrite checked_out_eq. unfold db_wf, cart_wf.
  cbn [products cart order_items next_product_id next_cart_id next_order_id].
  repeat split; try assumption.
  - apply NoDup_map_filter. exact Hid.
  - apply Forall_filter. exact Hbelow.
  - apply NoDup_map_filter. exact Hkey.
  - apply Forall_app. split.
    + eapply Forall_impl; [|exact Hitems]. cbn. intros oi Hoi. lia.
    + apply Forall_map. apply Forall_forall. intros it _. cbn. lia.
Qed.

Lemma db_wf_add_to_cart (u p q : Z) (data : cart_request) (db : DB) :
  get (cr_product_id data) = Some p -> p <> 0 ->
  py_int (get_default (cr_quantity data) (NInt 1)) = inr q ->
  db_wf db -> db_wf (fst (add_to_cart [] u data db)).
Proof.
  intros Hp Hnz Hq (Hnd & Hb & Hcart & Hitems).
  pose proof (add_to_cart_wf u p q data db Hp Hnz Hq Hcart) as Hcart'.
  revert Hcart'. rewrite (add_to_cart_run u p q data db Hp Hnz Hq). cbn [fst].
  intros Hcart'. unfold db_wf.
  destruct (select_cart_entry u p db) as [[id q0]|];
    (split; [exact Hnd|split; [exact Hb|split; [exact Hcart'|exact Hitems]]]).
Qed.

(** Serving a request keeps the store well formed. *)
Lemma serve_wf (c : call) (db : DB) : db_wf db -> db_wf (fst (serve c db)).
Proof.
  intros Hwf. destruct c; cbn [serve].
  - destruct (signup_store cfg faults now salt data db)
      as [->|(username & email & password & ->)];
      [exact Hwf|apply db_wf_insert_user; exact Hwf].
  - rewrite login_store. exact Hwf.
  - destruct (create_product_store faults current_user data db)
      as [->|(t & d & f & cat & i & ->)];
      [exact Hwf|apply db_wf_insert_product; exact Hwf].
  - rewrite update_product_run.
    repeat match goal with
           | |- context [match ?x with _ => _ end] => destruct x
           end; cbn [fst]; try exact Hwf; apply db_wf_update_products; exact Hwf.
  - rewrite delete_product_run.
    repeat match goal with
           | |- context [match ?x with _ => _ end] => destruct x
           end; cbn [fst]; try exact Hwf; apply db_wf_delete_products; exact Hwf.
  - destruct (add_to_cart_store faults current_user data db)
      as [->|(p & q & Hp & Hnz & Hq & ->)];
      [exact Hwf|apply (db_wf_add_to_cart current_user p q); assumption].
  - unfold view_cart. rewrite read_only_store. exact Hwf.
  - destruct (checkout_all_or_nothing faults now current_user db) as [->| ->];
      [apply db_wf_checked_out; exact Hwf|exact Hwf].
  - unfold purchases. rewrite read_only_store. exact Hwf.
Qed.

Lemma empty_db_wf : db_wf empty_db.
Proof. repeat split; constructor. Qed.

(** Every store reached from the empty one by serving requests is well
    formed. *)
Lemma reachable_wf (cs : list call) : db_wf (serve_all cs empty_db).
Proof.
  unfold serve_all. generalize empty_db_wf. generalize empty_db.
  induction cs as [|c cs IH]; intros db Hwf; [exact Hwf|].
  cbn [fold_left]. apply IH. apply serve_wf. exact Hwf.
Qed.

(** * The claims of the specification *)

(** C1. Whenever a statement of steps 3-5 of checkout (the insertion of
    the order, of one of its items, the deletion of the cart rows) or the
    commit that follows them raises, the answer is the 500 "server error"
    and the store is the one before the attempt: no order and no order
    item is kept, and the cart is as it was. [k] counts the statements
    from the cart read, which is statement 0. *)
Theorem checkout_atomic (faults : schedule) (now u : Z) (db : DB)
    (k : nat) (d : string) :
  select_cart_items u db <> [] ->
  first_fault faults = Some (k, d) ->
  (1 <= k <= List.length (select_cart_items u db) + 3)%nat ->
  checkout faults now u db = (db, Json 500 (ServerError (StoreError d))).
Proof.
  intros Hne Hf Hk. rewrite checkout_run by assumption.
  rewrite (first_fault_firstn faults k d) by (assumption || lia).
  reflexivity.
Qed.

(** C2, as amended. On a well-formed store - every reachable store is
    one - a checkout that succeeds adds exactly one order, of that user
    and stamped [now]; the items of that order are the rows the cart view
    showed before, that is the user's cart rows whose product exists, each
    with its product id, its quantity and the product's price at that
    time; the items of earlier orders stay; every cart row of the user is
    deleted and the cart view is empty afterwards; and no later product
    update changes an order item. *)
Theorem checkout_snapshot (faults : schedule) (now u : Z) (db db' : DB) (b : body) :
  db_wf db ->
  checkout faults now u db = (db', Json 200 b) ->
  let order_id := next_order_id db in
  b = CheckoutComplete order_id /\
  orders db' = orders db ++ [mk_order order_id u now] /\
  order_items db' = order_items db ++ items_of_order order_id db' /\
  items_of_order order_id db' =
    map (fun v => mk_item order_id (cv_product_id v) (cv_quantity v) (cv_price v))
      (select_cart_view u db) /\
  map snapshot (items_of_order order_id db') = purchasable u db /\
  (forall c, In c (cart db') -> c_user_id c <> u) /\
  view_cart [] u db' = (db', Json 200 (CartRows [])) /\
  (forall faults' cu pid data,
     order_items (fst (update_product faults' cu pid data db')) = order_items db').
Proof.
  intros (Hnd & _ & _ & Hold) H order_id.
  apply checkout_ok_inv in H as (Hne & -> & ->).
  rewrite checked_out_eq. unfold items_of_order. cbn [orders order_items cart].
  fold order_id. rewrite (items_of_new_order order_id) by exact Hold.
  split; [reflexivity|]. split; [reflexivity|]. split; [reflexivity|].
  split; [|split; [|split; [|split]]].
  - unfold select_cart_items, select_cart_view. apply cart_join_map.
    intros c p Hid. unfold item_of. cbn. rewrite Hid. reflexivity.
  - rewrite <- cart_join_purchasable by exact Hnd.
    rewrite map_map. reflexivity.
  - intros c. apply delete_cart_clears.
  - rewrite view_cart_run. do 2 f_equal. f_equal. apply cart_join_cart_nil.
    cbn [cart]. intros c. apply delete_cart_clears.
  - intros faults' cu pid data. apply update_product_tables.
Qed.

(** C3. When the expiry of a token issued at [issued] is a date
    [datetime] can hold - otherwise [create_token] raises and no token is
    issued - the token issued for a user id decodes, under the same key
    and before its expiry, to that user id, and [jwt_required] hands that
    id to the handler it wraps; a login with the credentials of a
    successful signup succeeds and its token carries the id that signup
    returned. *)
Theorem token_identifies_user (cfg : config) (issued now : Z) :
  now < issued + 3600 * JWT_EXPIRE_HOURS cfg ->
  in_datetime_range (issued + 3600 * JWT_EXPIRE_HOURS cfg) = true ->
  (forall uid,
     exists tok,
       create_token cfg issued uid = inr tok /\
       jwt_decode tok (SECRET_KEY cfg) now =
         inr (mk_payload uid (issued + 3600 * JWT_EXPIRE_HOURS cfg)) /\
       forall f db, jwt_required cfg now (Bearer tok) f db = f uid db) /\
  (forall faults t0 salt data db db1 tok uv,
     signup cfg faults t0 salt data db = (db1, Json 201 (Session tok uv)) ->
     exists tok',
       login cfg [] issued (mk_login_request (sr_email data) (sr_password data)) db1 =
         (db1, Json 200 (Session tok' uv)) /\
       forall f db2, jwt_required cfg now (Bearer tok') f db2 = f (uv_id uv) db2).
Proof.
  intros Hnow Hrange.
  assert (Hissue : forall uid,
    create_token cfg issued uid =
    inr (Signed (SECRET_KEY cfg)
           (mk_payload uid (issued + 3600 * JWT_EXPIRE_HOURS cfg)))).
  { intros uid. apply create_token_ok. split; [exact Hrange|reflexivity]. }
  assert (Hreq : forall uid tok f db,
    create_token cfg issued uid = inr tok ->
    jwt_required cfg now (Bearer tok) f db = f uid db).
  { intros uid tok f db Htok. unfold jwt_required.
    rewrite (jwt_decode_fresh cfg issued now uid tok Htok Hnow). reflexivity. }
  split.
  - intros uid. eexists. split; [apply Hissue|]. split.
    + apply (jwt_decode_fresh cfg issued now uid _ (Hissue uid) Hnow).
    + intros f db. apply (Hreq uid). apply Hissue.
  - intros faults t0 salt data db db1 tok uv H0.
    eexists. split.
    + apply (signup_then_login _ _ _ _ _ _ _ _ _ _ _ H0 (Hissue (uv_id uv))).
    + intros f db2. apply (Hreq (uv_id uv)). apply Hissue.
Qed.

(** C4, as amended. An update or a delete of a product id no row has is
    answered 404 "not found"; of a product whose stored owner is not the
    requester, 403 "forbidden"; in both cases nothing changes, whatever
    the store does. For the owner the delete succeeds, and the update
    succeeds when the request supplies at least one field and its price,
    if any, converts to a float. *)
Theorem product_ownership (cu pid : Z) (data : product_request) (db : DB) :
  ((forall p, In p (products db) -> p_id p <> pid) ->
   update_product [] cu pid data db = (db, Json 404 (Error "not found")) /\
   delete_product [] cu pid db = (db, Json 404 (Error "not found")) /\
   forall faults,
     fst (update_product faults cu pid data db) = db /\
     fst (delete_product faults cu pid db) = db) /\
  (forall p, select_product pid db = Some p -> p_user_id p <> cu ->
   update_product [] cu pid data db = (db, Json 403 (Error "forbidden")) /\
   delete_product [] cu pid db = (db, Json 403 (Error "forbidden")) /\
   forall faults,
     fst (update_product faults cu pid data db) = db /\
     fst (delete_product faults cu pid db) = db) /\
  (forall p, select_product pid db = Some p -> p_user_id p = cu ->
   delete_product [] cu pid db =
     (delete_products pid db, Json 200 (Message "deleted")) /\
   forall price,
     requested_price data = inr price ->
     requested_fields data price <> [] ->
     update_product [] cu pid data db =
       (update_products (requested_fields data price) pid db,
        Json 200 (Message "updated"))).
Proof.
  split; [|split].
  - intros H. pose proof (select_product_none pid db H) as Hsel.
    split; [|split].
    + rewrite update_product_run, select_product_owner_eq, Hsel. reflexivity.
    + rewrite delete_product_run, select_product_owner_eq, Hsel. reflexivity.
    + intros faults.
      rewrite update_product_run, delete_product_run, select_product_owner_eq, Hsel.
      destruct faults as [|[d|] f]; split; reflexivity.
  - intros p Hsel Hp.
    assert (E : negb (p_user_id p =? cu) = true)
      by (apply negb_true_iff; lia).
    split; [|split].
    + rewrite update_product_run, select_product_owner_eq, Hsel. cbn [option_map].
      rewrite E. reflexivity.
    + rewrite delete_product_run, select_product_owner_eq, Hsel. cbn [option_map].
      rewrite E. reflexivity.
    + intros faults.
      rewrite update_product_run, delete_product_run, select_product_owner_eq, Hsel.
      cbn [option_map]. rewrite E.
      destruct faults as [|[d|] f]; split; reflexivity.
  - intros p Hsel Hp.
    rewrite update_product_run, delete_product_run, select_product_owner_eq, Hsel.
    cbn [option_map]. rewrite Hp, Z.eqb_refl. cbn [negb].
    split; [reflexivity|]. intros price -> Hf.
    destruct (requested_fields data price); [congruence|reflexivity].
Qed.

(** C5, as amended. For a non-zero product id and an amount that converts
    to an integer, on a cart table with one row per user and product: an
    add answers 200; where a row for (u, p) exists its quantity becomes
    the old one plus the amount - it is not overwritten, and it does not
    decrease when the amount is not negative -; where none exists a row
    with the amount is inserted; the rows of other users and products are
    untouched; and the table still has at most one row per user and
    product, as has every store reached from the empty one. In particular
    an add of 2 then an add of 3, for a product not yet in the cart, leave
    exactly one row for (u, p), of quantity 5. *)
Theorem add_to_cart_accumulates (u p q : Z) (data : cart_request) (db : DB) :
  get (cr_product_id data) = Some p -> p <> 0 ->
  py_int (get_default (cr_quantity data) (NInt 1)) = inr q ->
  cart_wf db ->
  let db' := fst (add_to_cart [] u data db) in
  snd (add_to_cart [] u data db) = Json 200 (Message "added to cart") /\
  (forall c, cart_entries u p db = [c] ->
     cart_entries u p db' = [mk_cart (c_id c) u p (c_quantity c + q)] /\
     (0 <= q -> c_quantity c <= c_quantity c + q)) /\
  (cart_entries u p db = [] ->
     cart_entries u p db' = [mk_cart (next_cart_id db) u p q]) /\
  (forall u' p', (u', p') <> (u, p) ->
     cart_entries u' p' db' = cart_entries u' p' db) /\
  cart_wf db' /\
  (forall u' p', (List.length (cart_entries u' p' db') <= 1)%nat) /\
  (forall cs u' p',
     (List.length (cart_entries u' p' (serve_all cs empty_db)) <= 1)%nat) /\
  (cart_entries u p db = [] -> q = 2 ->
   forall data3,
     get (cr_product_id data3) = Some p ->
     py_int (get_default (cr_quantity data3) (NInt 1)) = inr 3 ->
     cart_entries u p (fst (add_to_cart [] u data3 db')) =
       [mk_cart (next_cart_id db) u p 5]).
Proof.
  intros Hp Hnz Hq Hwf db'.
  pose proof (add_to_cart_entries u p q data db Hp Hnz Hq Hwf) as (Hex & Hnew & Hoth).
  pose proof (add_to_cart_wf u p q data db Hp Hnz Hq Hwf) as Hwf'.
  fold db' in Hex, Hnew, Hoth, Hwf'.
  split; [rewrite (add_to_cart_run u p q) by assumption; reflexivity|].
  split; [|split; [exact Hnew|split; [exact Hoth|split; [exact Hwf'|split; [|split]]]]].
  - intros c E. split; [|lia]. rewrite (Hex c E). unfold add_quantity.
    assert (Hm : In c (cart_entries u p db)) by (rewrite E; left; reflexivity).
    apply filter_In in Hm as [_ Hm]. apply cart_key_match in Hm.
    injection Hm as -> ->. reflexivity.
  - intros u' p'. apply one_entry_per_key. apply Hwf'.
  - intros cs u' p'. apply one_entry_per_key.
    destruct (reachable_wf cs) as (_ & _ & (_ & _ & Hkey) & _). exact Hkey.
  - intros E -> data3 Hp3 Hq3.
    pose proof (add_to_cart_entries u p 3 data3 db' Hp3 Hnz Hq3 Hwf') as (Hex3 & _ & _).
    rewrite (Hex3 _ (Hnew E)). reflexivity.
Qed.


(** C7, as amended. A create request with a title that is non-empty
    after trimming and a price that converts to a float stores one new
    product whose price is that float - of either sign - and whose owner
    is the user the handler runs for, whatever ['user_id'] the body
    carries; under [jwt_required] that user is the one of the token. *)
Theorem create_product_stores (cu : Z) (data : product_request) (db : DB)
    (title description category image : string) (n : num) (f : float) :
  py_strip (get_default (pr_title data) "") = inr title ->
  py_strip (get_default (pr_description data) "") = inr description ->
  py_strip (get_default (pr_category data) "") = inr category ->
  py_strip (get_default (pr_image data) "") = inr image ->
  nonempty title = true ->
  get (pr_price data) = Some n ->
  py_float n = inr f ->
  let stored := mk_product (next_product_id db) cu title description f category image in
  create_product [] cu data db =
    (fst (insert_product cu title description f category image db),
     Json 201 (ProductCreated (next_product_id db))) /\
  products (fst (create_product [] cu data db)) = products db ++ [stored] /\
  forall cfg issued now tok,
    create_token cfg issued cu = inr tok ->
    now < issued + 3600 * JWT_EXPIRE_HOURS cfg ->
    jwt_required cfg now (Bearer tok)
      (fun current_user => create_product [] current_user data) db =
    create_product [] cu data db.
Proof.
  intros Ht Hd Hc Hi Hne Hp Hf stored.
  assert (Hrun : create_product [] cu data db =
    (fst (insert_product cu title description f category image db),
     Json 201 (ProductCreated (next_product_id db)))).
  { unfold create_product. rewrite Ht, Hd, Hc, Hi, Hp. cbn [rbind].
    rewrite Hne. cbn [negb]. rewrite Hf. tx. reflexivity. }
  split; [exact Hrun|]. split; [rewrite Hrun; reflexivity|].
  intros cfg issued now tok Htok Hnow. unfold jwt_required.
  rewrite (jwt_decode_fresh cfg issued now cu tok Htok Hnow). reflexivity.
Qed.

(** C8. Whatever an update by the owner of a product answers, every row
    of [products] afterwards differs from the row before at most in the
    columns the request supplies, and only in the row of that id; no other
    table changes. When the request supplies at least one field and its
    price converts, the row takes the supplied values. A request that
    supplies no field is answered 400 "nothing to update" and the store is
    unchanged. *)
Theorem update_product_partial (faults : schedule) (cu pid : Z)
    (data : product_request) (db : DB) :
  select_product_owner pid db = Some cu ->
  let db' := fst (update_product faults cu pid data db) in
  (users db' = users db /\ cart db' = cart db /\ orders db' = orders db /\
   order_items db' = order_items db) /\
  Forall2 (fun p p' => retains data p p' /\ (p_id p <> pid -> p' = p))
    (products db) (products db') /\
  (forall price,
     requested_price data = inr price ->
     requested_fields data price <> [] ->
     update_product [] cu pid data db =
       (with_products db
          (map (fun p => if p_id p =? pid then updated data price p else p)
             (products db)),
        Json 200 (Message "updated"))) /\
  (get (pr_title data) = None -> get (pr_description data) = None ->
   get (pr_price data) = None -> get (pr_category data) = None ->
   get (pr_image data) = None ->
   update_product [] cu pid data db = (db, Json 400 (Error "nothing to update"))).
Proof.
  intros Hown db'. split; [apply update_product_tables|].
  subst db'. rewrite !update_product_run, Hown, Z.eqb_refl. cbn [negb].
  split; [|split].
  - assert (Hsame : Forall2 (fun p p' => retains data p p' /\ (p_id p <> pid -> p' = p))
                      (products db) (products db)).
    { apply Forall2_same. intros p. split; [apply retains_refl|reflexivity]. }
    destruct faults as [|[d|] f1]; [| exact Hsame |];
      (destruct (requested_price data) as [e|price] eqn:Hp; [exact Hsame|]);
      (destruct (requested_fields data price) as [|a l] eqn:Hf; [exact Hsame|]);
      (destruct (first_fault _) as [[k d]|]; [exact Hsame|]);
      rewrite <- Hf; unfold update_products, with_products; cbn [fst products];
      apply Forall2_map_r; intros p; rewrite assign_requested;
      (destruct (p_id p =? pid) eqn:E;
       [split; [apply updated_retains; exact Hp | lia]
       |split; [apply retains_refl | reflexivity]]).
  - intros price -> Hf.
    destruct (requested_fields data price) as [|a l] eqn:Hf'; [congruence|].
    rewrite <- Hf'. cbn [tl firstn first_fault]. unfold update_products.
    do 2 f_equal. apply map_ext. intros p. rewrite assign_requested. reflexivity.
  - intros Ht Hd Hp Hc Hi. unfold requested_price, requested_fields.
    rewrite Ht, Hd, Hp, Hc, Hi. reflexivity.
Qed.

(** C9, as amended. The purchase history of a user is, newest order
    first, one row for every order item of every order of that user whose
    product still exists, with the quantity and the price the item
    recorded and the product's current title and image. An item whose
    product has been deleted stays in [order_items] but has no row. *)
Theorem purchases_lists_items (u : Z) (db : DB) :
  purchases [] u db = (db, Json 200 (PurchaseRows (select_purchases u db))) /\
  Permutation (select_purchases u db) (purchases_join u db) /\
  StronglySorted newer_first (select_purchases u db) /\
  (forall r,
     In r (select_purchases u db) <->
     exists o oi p,
       In o (orders db) /\ o_user_id o = u /\
       In oi (order_items db) /\ oi_order_id oi = o_id o /\
       In p (products db) /\ p_id p = oi_product_id oi /\
       r = mk_purchase_view (o_id o) (o_created_at o) (oi_product_id oi)
             (p_title p) (p_image p) (oi_quantity oi) (oi_price oi)) /\
  (forall faults cu pid,
     order_items (fst (delete_product faults cu pid db)) = order_items db /\
     orders (fst (delete_product faults cu pid db)) = orders db).
Proof.
  split; [reflexivity|]. split; [apply order_by_perm|].
  split; [apply order_by_sorted|]. split.
  - intros r. rewrite <- in_purchases_join. split; intros H.
    + eapply Permutation_in; [apply order_by_perm | exact H].
    + eapply Permutation_in; [symmetry; apply order_by_perm | exact H].
  - intros faults cu pid. rewrite delete_product_run.
    repeat match goal with
           | |- context [match ?x with _ => _ end] => destruct x
           end; cbn; auto.
Qed.

Lemma cart_read_nonempty (u : Z) (db : DB) :
  (exists c, In c (cart db) /\ c_user_id c = u /\ has_product db c = true) ->
  select_cart_items u db <> [].
Proof.
  intros (c & Hc & Hu & Hp) Hnil.
  unfold has_product in Hp. apply existsb_exists in Hp as (p & Hin & Hid).
  assert (Hrow : In (mk_cart_item (c_product_id c) (c_quantity c) (p_price p))
                   (select_cart_items u db)).
  { apply in_cart_join. exists c, p. repeat split; try assumption. lia. }
  rewrite Hnil in Hrow. destruct Hrow.
Qed.

(** C10. Orphaned cart rows - rows whose product no longer exists - are
    not part of the cart join: the cart view is the view of the cart
    without them. When the user has a cart row whose product exists, a
    checkout without store fault succeeds, writes an item only for the
    rows whose product exists and deletes every cart row of the user,
    orphaned or not; the same holds of any checkout that answers 200. A
    cart of orphaned rows only is answered "cart empty", the store
    unchanged. *)
Theorem checkout_ignores_orphans (faults : schedule) (now u : Z) (db : DB) :
  let committed_checkout db' :=
    cart db' = filter (fun c => negb (c_user_id c =? u)) (cart db) /\
    (forall c, In c (cart db') -> c_user_id c <> u) /\
    order_items db' =
      order_items db ++
      map (item_of (next_order_id db)) (select_cart_items u (without_orphans db)) /\
    (forall oi, In oi (order_items db') ->
       In oi (order_items db) \/
       exists c, In c (cart db) /\ c_user_id c = u /\ has_product db c = true /\
                 oi_product_id oi = c_product_id c /\
                 oi_quantity oi = c_quantity c) in
  view_cart [] u db =
    (db, Json 200 (CartRows (select_cart_view u (without_orphans db)))) /\
  ((exists c, In c (cart db) /\ c_user_id c = u /\ has_product db c = true) ->
   exists db',
     checkout [] now u db = (db', Json 200 (CheckoutComplete (next_order_id db))) /\
     committed_checkout db') /\
  (forall db' b,
     checkout faults now u db = (db', Json 200 b) -> committed_checkout db') /\
  ((forall c, In c (cart db) -> c_user_id c = u -> has_product db c = false) ->
   checkout [] now u db = (db, Json 400 (Error "cart empty"))).
Proof.
  intros committed_checkout.
  assert (Hcommitted : committed_checkout (checked_out now u db)).
  { unfold committed_checkout. rewrite checked_out_eq. cbn [cart order_items].
    unfold select_cart_items. rewrite cart_join_without_orphans.
    split; [reflexivity|]. split; [intros c; apply delete_cart_clears|].
    split; [reflexivity|].
    intros oi Hoi.
    apply in_app_or in Hoi as [Hoi|Hoi]; [left; exact Hoi|right].
    apply in_map_iff in Hoi as (it & <- & Hit).
    apply in_cart_join in Hit as (c & p & Hc & Hu & Hp & Hid & ->).
    exists c. repeat split; try assumption.
    unfold has_product. apply existsb_exists. exists p. split; [assumption|lia]. }
  split; [|split; [|split]].
  - rewrite view_cart_run. unfold select_cart_view.
    rewrite cart_join_without_orphans. reflexivity.
  - intros Hrow. exists (checked_out now u db). split; [|exact Hcommitted].
    rewrite checkout_run by (apply cart_read_nonempty; exact Hrow).
    rewrite firstn_nil. reflexivity.
  - intros db' b H0. apply checkout_ok_inv in H0 as (Hne & -> & _).
    exact Hcommitted.
  - intros Hall. rewrite checkout_empty; [reflexivity|].
    apply all_orphans_read_empty. exact Hall.
Qed.

(** * Further properties of the handlers *)

(** ** Who succeeds changes the store, who fails does not *)

Lemma read_only_listing (faults : schedule) (db : DB) {A} (q : DB -> A)
    (k : A -> answer) :
  fst (with_connection_listing faults db (x <- query q ;; ret (k x))) = db.
Proof. destruct faults as [|[d|] f]; reflexivity. Qed.

Lemma get_product_store (faults : schedule) (pid : Z) (db : DB) :
  fst (get_product faults pid db) = db.
Proof.
  unfold get_product, with_connection_listing.
  destruct faults as [|[d|] f]; autorewrite with tx; try reflexivity;
    destruct (select_product pid db); reflexivity.
Qed.

Lemma profile_store (faults : schedule) (u : Z) (db : DB) :
  fst (profile faults u db) = db.
Proof.
  unfold profile, with_connection_listing.
  destruct faults as [|[d|] f]; autorewrite with tx; try reflexivity;
    destruct (select_user_by_id u db); reflexivity.
Qed.

Lemma list_products_store (like : string -> string -> bool) (faults : schedule)
    (q category : option string) (db : DB) :
  fst (list_products like faults q category db) = db.
Proof. unfold list_products. cbv zeta. apply read_only_listing. Qed.

Lemma update_profile_run (faults : schedule) (cu : Z) (data : profile_request)
    (db : DB) :
  update_profile faults cu data db =
  match py_strip (get_default (pf_username data) "") with
  | inl e => (db, Unhandled e)
  | inr username =>
      match py_strip (get_default (pf_email data) "") with
      | inl e => (db, Unhandled e)
      | inr e =>
          if negb (nonempty username && nonempty (lower e))
          then (db, Json 400 (Error "username and email required"))
          else
            match faults with
            | Some d :: _ => (db, Json 500 (ServerError (StoreError d)))
            | _ =>
                match select_email_conflict (lower e) cu db with
                | Some _ => (db, Json 400 (Error "email already in use"))
                | None =>
                    match first_fault (firstn 2 (tl faults)) with
                    | Some (_, d) => (db, Json 500 (ServerError (StoreError d)))
                    | None =>
                        (update_user username (lower e) cu db,
                         Json 200 (Message "profile updated"))
                    end
                end
            end
      end
  end.
Proof.
  unfold update_profile.
  destruct (py_strip (get_default (pf_username data) "")) as [?|username];
    [reflexivity|]. cbn [rbind].
  destruct (py_strip (get_default (pf_email data) "")) as [?|e];
    [reflexivity|]. cbn [rbind].
  destruct (negb _); [reflexivity|].
  rewrite with_connection_query.
  destruct faults as [|[d|] f1]; [| reflexivity |]; cbn [tl];
    (destruct (select_email_conflict (lower e) cu db); [reflexivity|]);
    apply write_commit_run.
Qed.

Lemma create_product_run (faults : schedule) (cu : Z) (data : product_request)
    (db : DB) :
  create_product faults cu data db =
  match py_strip (get_default (pr_title data) "") with
  | inl e => (db, Unhandled e)
  | inr title =>
  match py_strip (get_default (pr_description data) "") with
  | inl e => (db, Unhandled e)
  | inr description =>
  match py_strip (get_default (pr_category data) "") with
  | inl e => (db, Unhandled e)
  | inr category =>
  match py_strip (get_default (pr_image data) "") with
  | inl e => (db, Unhandled e)
  | inr image =>
      match get (pr_price data) with
      | None => (db, Json 400 (Error "title and price required"))
      | Some n =>
          if negb (nonempty title)
          then (db, Json 400 (Error "title and price required"))
          else
            match py_float n with
            | inl e => (db, Json 500 (ServerError e))
            | inr price =>
                match first_fault (firstn 2 faults) with
                | Some (_, d) => (db, Json 500 (ServerError (StoreError d)))
                | None =>
                    (fst (insert_product cu title description price category image db),
                     Json 201 (ProductCreated (next_product_id db)))
                end
            end
      end
  end end end end.
Proof.
  unfold create_product.
  destruct (py_strip (get_default (pr_title data) "")) as [?|title];
    [reflexivity|]. cbn [rbind].
  destruct (py_strip (get_default (pr_description data) "")) as [?|description];
    [reflexivity|]. cbn [rbind].
  destruct (py_strip (get_default (pr_category data) "")) as [?|category];
    [reflexivity|]. cbn [rbind].
  destruct (py_strip (get_default (pr_image data) "")) as [?|image];
    [reflexivity|]. cbn [rbind].
  destruct (get (pr_price data)) as [n|]; [|reflexivity].
  destruct (negb (nonempty title)); [reflexivity|].
  rewrite with_connection_lift.
  destruct (py_float n) as [?|price]; [reflexivity|].
  apply (insert_commit_run db faults
           (insert_product cu title description price category image)
           (fun id => Json 201 (ProductCreated id))).
Qed.

Lemma add_to_cart_any_run (faults : schedule) (u : Z) (data : cart_request) (db : DB) :
  add_to_cart faults u data db =
  match py_int (get_default (cr_quantity data) (NInt 1)) with
  | inl e => (db, Unhandled e)
  | inr q =>
      match get (cr_product_id data) with
      | None => (db, Json 400 (Error "product_id required"))
      | Some p =>
          if p =? 0 then (db, Json 400 (Error "product_id required"))
          else
            match faults with
            | Some d :: _ => (db, Json 500 (ServerError (StoreError d)))
            | _ =>
                match first_fault (firstn 2 (tl faults)) with
                | Some (_, d) => (db, Json 500 (ServerError (StoreError d)))
                | None =>
                    (match select_cart_entry u p db with
                     | Some (id, _) => add_cart_quantity q id db
                     | None => insert_cart u p q db
                     end, Json 200 (Message "added to cart"))
                end
            end
      end
  end.
Proof.
  unfold add_to_cart.
  destruct (py_int (get_default (cr_quantity data) (NInt 1))) as [?|q];
    [reflexivity|].
  destruct (get (cr_product_id data)) as [p|]; [|reflexivity].
  destruct (p =? 0); [reflexivity|].
  rewrite with_connection_query.
  destruct faults as [|[d|] f1]; [| reflexivity |]; cbn [tl];
    destruct (select_cart_entry u p db) as [[id q0]|];
    rewrite write_commit_run; destruct (first_fault _) as [[k d]|]; reflexivity.
Qed.

Ltac split_outcomes :=
  repeat match goal with
         | |- context [match ?x with _ => _ end] => destruct x
         end;
  cbn; intros; first [reflexivity | discriminate].

(** A signup that fails has changed nothing, unless it failed after its
    commit: then the token could not be made, and the account is stored. *)
Lemma signup_failure (cfg : config) (faults : schedule) (now : Z) (salt : string)
    (data : signup_request) (db : DB) :
  succeeded (status_of (snd (signup cfg faults now salt data db))) = false ->
  fst (signup cfg faults now salt data db) = db \/
  exists username email password,
    create_token cfg now (next_user_id db) = inl OverflowError /\
    signup cfg faults now salt data db =
    (fst (insert_user username email password db),
     Json 500 (ServerError OverflowError)).
Proof.
  rewrite signup_run. unfold signed_up.
  destruct (create_token cfg now (next_user_id db)) as [e|tok] eqn:Etok.
  - apply create_token_overflow in Etok as [-> _].
    repeat match goal with
           | |- context [match ?x with _ => _ end] => destruct x
           end;
      cbn [fst snd]; intros _;
      first [left; reflexivity
            |right; do 3 eexists; split; reflexivity].
  - repeat match goal with
           | |- context [match ?x with _ => _ end] => destruct x
           end;
      cbn; intros Hs; first [left; reflexivity | discriminate].
Qed.

Lemma serve_failure (c : call) (db : DB) :
  succeeded (status_of (snd (serve c db))) = false ->
  fst (serve c db) = db \/
  exists cfg faults now salt data username email password,
    c = Signup cfg faults now salt data /\
    create_token cfg now (next_user_id db) = inl OverflowError /\
    serve c db =
    (fst (insert_user username email password db),
     Json 500 (ServerError OverflowError)).
Proof.
  destruct c; cbn [serve].
  - intros Hf. destruct (signup_failure cfg faults now salt data db Hf)
      as [Hsame | (username & email & password & Htok & Hrun)];
      [left; exact Hsame|right].
    exists cfg, faults, now, salt, data, username, email, password.
    split; [reflexivity|]. split; assumption.
  - intros _. left. apply login_store.
  - intros Hf. left. revert Hf. rewrite create_product_run. split_outcomes.
  - intros Hf. left. revert Hf. rewrite update_product_run. split_outcomes.
  - intros Hf. left. revert Hf. rewrite delete_product_run. split_outcomes.
  - intros Hf. left. revert Hf. rewrite add_to_cart_any_run. split_outcomes.
  - intros _. left. unfold view_cart. apply read_only_store.
  - destruct (checkout_all_or_nothing faults now current_user db) as [-> | Hsame];
      [cbn; discriminate | intros _; left; exact Hsame].
  - intros _. left. unfold purchases. apply read_only_store.
Qed.

Lemma handle_pair (r : request) (db : DB) :
  handle r db =
  match r with
  | Call c => (fst (serve c db), status_of (snd (serve c db)))
  | GetProduct faults pid =>
      (fst (get_product faults pid db), answer_status (snd (get_product faults pid db)))
  | ListProducts like faults q category =>
      (fst (list_products like faults q category db),
       answer_status (snd (list_products like faults q category db)))
  | GetProfile faults u =>
      (fst (profile faults u db), answer_status (snd (profile faults u db)))
  | UpdateProfile faults u data =>
      (fst (update_profile faults u data db),
       status_of (snd (update_profile faults u data db)))
  | Categories => (db, 200)
  end.
Proof.
  destruct r; cbn [handle]; try reflexivity;
    match goal with
    | |- (let (_, _) := ?x in _) = _ => destruct x; reflexivity
    end.
Qed.

(** X1. Whatever the request, the handler and the schedule of store
    faults, an answer whose status is neither 200 nor 201 leaves the store
    exactly as it was, with one exception: a signup that has committed the
    new account and then cannot make the token ([create_token] raises
    [OverflowError]) answers 500 and the account stays stored. *)
Theorem failure_changes_nothing (r : request) (db : DB) :
  succeeded (snd (handle r db)) = false ->
  fst (handle r db) = db \/
  exists cfg faults now salt data username email password,
    r = Call (Signup cfg faults now salt data) /\
    create_token cfg now (next_user_id db) = inl OverflowError /\
    handle r db = (fst (insert_user username email password db), 500).
Proof.
  rewrite handle_pair. destruct r; cbn [fst snd].
  - intros Hf. destruct (serve_failure c db Hf)
      as [Hsame | (cfg & faults & now & salt & data & username & email &
                   password & -> & Htok & Hrun)];
      [left; exact Hsame|right].
    exists cfg, faults, now, salt, data, username, email, password.
    split; [reflexivity|]. split; [exact Htok|]. rewrite Hrun. reflexivity.
  - intros _. left. apply get_product_store.
  - intros _. left. apply list_products_store.
  - intros _. left. apply profile_store.
  - intros Hf. left. revert Hf. rewrite update_profile_run. split_outcomes.
  - left. reflexivity.
Qed.

(** ** What every reachable store satisfies *)

Lemma signup_outcome (cfg : config) (faults : schedule) (now : Z) (salt : string)
    (data : signup_request) (db : DB) :
  fst (signup cfg faults now salt data db) = db \/
  exists username e password,
    nonempty username = true /\ nonempty (lower e) = true /\
    select_user_by_email (lower e) db = None /\
    fst (signup cfg faults now salt data db) =
    fst (insert_user username (lower e) password db).
Proof.
  rewrite signup_run.
  destruct (py_strip (get_default (sr_username data) "")) as [?|username];
    [left; reflexivity|].
  destruct (py_strip (get_default (sr_email data) "")) as [?|e];
    [left; reflexivity|].
  destruct (get_default (sr_password data) "") as [password|]; [|left; reflexivity].
  destruct (negb _) eqn:G; [left; reflexivity|].
  apply negb_false_iff in G. apply andb_true_iff in G as [G _].
  apply andb_true_iff in G as [Gu Ge].
  destruct (select_user_by_email (lower e) db) eqn:Hsel;
    [destruct faults as [|[d|] f]; left; reflexivity|].
  destruct faults as [|[d|] f]; [| left; reflexivity |];
    (destruct (first_fault _) as [[k d']|];
     [left; reflexivity
     |right; exists username, e, (generate_password_hash salt password);
      repeat split; assumption]).
Qed.

Lemma update_profile_outcome (faults : schedule) (cu : Z) (data : profile_request)
    (db : DB) :
  fst (update_profile faults cu data db) = db \/
  exists username e,
    nonempty username = true /\ nonempty (lower e) = true /\
    select_email_conflict (lower e) cu db = None /\
    fst (update_profile faults cu data db) = update_user username (lower e) cu db.
Proof.
  rewrite update_profile_run.
  destruct (py_strip (get_default (pf_username data) "")) as [?|username];
    [left; reflexivity|].
  destruct (py_strip (get_default (pf_email data) "")) as [?|e];
    [left; reflexivity|].
  destruct (negb _) eqn:G; [left; reflexivity|].
  apply negb_false_iff in G. apply andb_true_iff in G as [Gu Ge].
  destruct (select_email_conflict (lower e) cu db) eqn:Hsel;
    [destruct faults as [|[d|] f]; left; reflexivity|].
  destruct faults as [|[d|] f]; [| left; reflexivity |];
    (destruct (first_fault _) as [[k d']|];
     [left; reflexivity
     |right; exists username, e; repeat split; assumption]).
Qed.

Lemma checkout_outcome (faults : schedule) (now u : Z) (db : DB) :
  fst (checkout faults now u db) = db \/
  (select_cart_items u db <> [] /\
   fst (checkout faults now u db) = checked_out now u db).
Proof.
  destruct (select_cart_items u db) as [|i items] eqn:E.
  - left. rewrite checkout_empty by assumption.
    destruct faults as [|[d|] f]; reflexivity.
  - rewrite checkout_run by (rewrite E; discriminate).
    destruct (first_fault _) as [[k d]|]; [left; reflexivity|right].
    split; [discriminate|reflexivity].
Qed.

Lemma find_none_not_in {A B} (g : A -> B) (eqb : B -> B -> bool) (l : list A) (b : B) :
  (forall x y, eqb x y = true <-> x = y) ->
  find (fun a => eqb (g a) b) l = None -> ~ In b (map g l).
Proof.
  intros Heq Hfind Hin. apply in_map_iff in Hin as (a & Ha & Hin).
  apply (find_none _ _ Hfind) in Hin. cbn in Hin.
  assert (eqb (g a) b = true) by (apply Heq; exact Ha). congruence.
Qed.

Lemma users_wf_insert_user (username email : string) (password : pwhash) (db : DB) :
  nonempty username = true -> nonempty email = true -> lower email = email ->
  select_user_by_email email db = None ->
  users_wf db -> users_wf (fst (insert_user username email password db)).
Proof.
  intros Hu He Hl Hsel (Hid & Hbelow & Hemail & Hok).
  unfold users_wf, insert_user. cbn [fst users next_user_id].
  split; [|split; [|split]].
  - apply (NoDup_snoc_fresh u_id _ _ (next_user_id db)); [assumption..|reflexivity].
  - apply Forall_app. split.
    + eapply Forall_impl; [|exact Hbelow]. cbn. intros x Hx. lia.
    + constructor; [cbn; lia|constructor].
  - rewrite map_app. cbn [map u_email].
    apply Permutation_NoDup with (l := email :: map u_email (users db)).
    + apply Permutation_cons_append.
    + constructor; [|exact Hemail].
      apply (find_none_not_in u_email String.eqb); [apply String.eqb_eq|exact Hsel].
  - apply Forall_app. split; [exact Hok|].
    constructor; [cbn; repeat split; assumption|constructor].
Qed.

Lemma update_user_unchanged (username email : string) (id : Z) (us : list user) :
  ~ In id (map u_id us) ->
  map (fun u => if u_id u =? id then mk_user (u_id u) username email (u_password u)
                else u) us = us.
Proof.
  induction us as [|a us IH]; intros Hnot; [reflexivity|]. cbn [map].
  destruct (u_id a =? id) eqn:E.
  - exfalso. apply Hnot. left. lia.
  - f_equal. apply IH. intros Hin. apply Hnot. right. exact Hin.
Qed.

Lemma update_user_emails (username email : string) (id : Z) (us : list user) :
  NoDup (map u_id us) -> NoDup (map u_email us) ->
  (forall u, In u us -> u_email u = email -> u_id u = id) ->
  NoDup (map u_email
           (map (fun u => if u_id u =? id
                          then mk_user (u_id u) username email (u_password u)
                          else u) us)).
Proof.
  induction us as [|a us IH]; intros Hid Hem Hown; [constructor|].
  cbn [map] in Hid, Hem. apply NoDup_cons_iff in Hid as [Hida Hid].
  apply NoDup_cons_iff in Hem as [Hema Hem]. cbn [map].
  destruct (u_id a =? id) eqn:E.
  - rewrite update_user_unchanged by (replace id with (u_id a) by lia; exact Hida).
    cbn [u_email]. constructor; [|exact Hem].
    intros Hin. apply in_map_iff in Hin as (x & Hx & Hin).
    apply Hida. replace (u_id a) with (u_id x).
    + apply in_map. exact Hin.
    + rewrite (Hown x (or_intror Hin) Hx). lia.
  - constructor.
    + intros Hin. apply in_map_iff in Hin as (y & Hy & Hin).
      apply in_map_iff in Hin as (x & <- & Hin).
      destruct (u_id x =? id) eqn:Ex.
      * cbn [u_email] in Hy. assert (u_id a = id) by (apply Hown; [left; reflexivity|congruence]).
        lia.
      * apply Hema. rewrite <- Hy. apply in_map. exact Hin.
    + apply IH; [assumption..|]. intros u Hu. apply Hown. right. exact Hu.
Qed.

Lemma users_wf_update_user (username email : string) (id : Z) (db : DB) :
  nonempty username = true -> nonempty email = true -> lower email = email ->
  select_email_conflict email id db = None ->
  users_wf db -> users_wf (update_user username email id db).
Proof.
  intros Hu He Hl Hsel (Hid & Hbelow & Hemail & Hok).
  unfold users_wf, update_user. cbn [users next_user_id].
  assert (Hsame : forall u : user,
    u_id (if u_id u =? id then mk_user (u_id u) username email (u_password u) else u)
    = u_id u) by (intros u; destruct (u_id u =? id); reflexivity).
  split; [|split; [|split]].
  - rewrite map_map. rewrite (map_ext _ u_id Hsame). exact Hid.
  - apply Forall_map. eapply Forall_impl; [|exact Hbelow].
    intros u Hlt. cbn. rewrite Hsame. exact Hlt.
  - apply update_user_emails; [assumption..|].
    intros u Hin Heq. unfold select_email_conflict in Hsel.
    apply (find_none _ _ Hsel) in Hin. cbn in Hin.
    rewrite Heq, String.eqb_refl in Hin. cbn in Hin.
    apply negb_false_iff in Hin. lia.
  - apply Forall_map. eapply Forall_impl; [|exact Hok].
    intros u Hu'. cbn. destruct (u_id u =? id); [|exact Hu'].
    cbn. repeat split; assumption.
Qed.

Lemma orders_wf_checked_out (now u : Z) (db : DB) :
  select_cart_items u db <> [] ->
  orders_wf db -> orders_wf (checked_out now u db).
Proof.
  intros Hne (Hid & Hbelow & Hitems & Horders).
  rewrite checked_out_eq. unfold orders_wf.
  cbn [orders order_items next_order_id].
  split; [|split; [|split]].
  - apply (NoDup_snoc_fresh o_id _ _ (next_order_id db)); [assumption..|reflexivity].
  - apply Forall_app. split.
    + eapply Forall_impl; [|exact Hbelow]. cbn. intros o Ho. lia.
    + constructor; [cbn; lia|constructor].
  - apply Forall_app. split.
    + eapply Forall_impl; [|exact Hitems]. cbn.
      intros oi (o & Ho & Heq). exists o. split; [apply in_or_app; left; exact Ho|exact Heq].
    + apply Forall_map, Forall_forall. intros it _.
      exists (mk_order (next_order_id db) u now).
      split; [apply in_or_app; right; left; reflexivity|reflexivity].
  - apply Forall_app. split.
    + eapply Forall_impl; [|exact Horders]. cbn.
      intros o (oi & Hoi & Heq). exists oi.
      split; [apply in_or_app; left; exact Hoi|exact Heq].
    + constructor; [|constructor].
      destruct (select_cart_items u db) as [|it items]; [congruence|].
      exists (item_of (next_order_id db) it).
      split; [apply in_or_app; right; left; reflexivity|reflexivity].
Qed.

Lemma serve_inv (c : call) (db : DB) : store_inv db -> store_inv (fst (serve c db)).
Proof.
  intros (Hwf & Hu & Ho).
  split; [apply serve_wf; exact Hwf|].
  destruct c; cbn [serve].
  - destruct (signup_outcome cfg faults now salt data db)
      as [->|(username & e & password & Gu & Ge & Hsel & ->)];
      [split; assumption|].
    split; [|exact Ho].
    apply users_wf_insert_user; try assumption. apply lower_idem.
  - rewrite login_store. split; assumption.
  - destruct (create_product_store faults current_user data db)
      as [->|(t & d & f & cat & i & ->)]; split; assumption.
  - rewrite update_product_run.
    repeat match goal with
           | |- context [match ?x with _ => _ end] => destruct x
           end; cbn [fst]; split; assumption.
  - rewrite delete_product_run.
    repeat match goal with
           | |- context [match ?x with _ => _ end] => destruct x
           end; cbn [fst]; split; assumption.
  - rewrite add_to_cart_any_run.
    repeat match goal with
           | |- context [match ?x with _ => _ end] => destruct x
           end; cbn [fst]; split; assumption.
  - unfold view_cart. rewrite read_only_store. split; assumption.
  - destruct (checkout_outcome faults now current_user db) as [->|[Hne ->]];
      [split; assumption|].
    split; [rewrite checked_out_eq; exact Hu|].
    apply orders_wf_checked_out; assumption.
  - unfold purchases. rewrite read_only_store. split; assumption.
Qed.

Lemma handle_inv (r : request) (db : DB) :
  store_inv db -> store_inv (fst (handle r db)).
Proof.
  intros Hinv. rewrite handle_pair. destruct r; cbn [fst].
  - apply serve_inv. exact Hinv.
  - rewrite get_product_store. exact Hinv.
  - rewrite list_products_store. exact Hinv.
  - rewrite profile_store. exact Hinv.
  - destruct (update_profile_outcome faults current_user data db)
      as [->|(username & e & Gu & Ge & Hsel & ->)]; [exact Hinv|].
    destruct Hinv as (Hwf & Hu & Ho).
    split; [exact Hwf|]. split; [|exact Ho].
    apply users_wf_update_user; try assumption. apply lower_idem.
  - exact Hinv.
Qed.

Lemma empty_db_inv : store_inv empty_db.
Proof. repeat split; constructor. Qed.

Lemma reachable_inv (rs : list request) : store_inv (handle_all rs empty_db).
Proof.
  unfold handle_all. generalize empty_db_inv. generalize empty_db.
  induction rs as [|r rs IH]; intros db Hinv; [exact Hinv|].
  cbn [fold_left]. apply IH. apply handle_inv. exact Hinv.
Qed.

Lemma unique_by_key {A B} (g : A -> B) (l : list A) (x y : A) :
  NoDup (map g l) -> In x l -> In y l -> g x = g y -> x = y.
Proof.
  induction l as [|a l IH]; intros Hnd Hx Hy Heq; [destruct Hx|].
  cbn [map] in Hnd. apply NoDup_cons_iff in Hnd as [Hnot Hnd].
  destruct Hx as [<-|Hx], Hy as [<-|Hy].
  - reflexivity.
  - exfalso. apply Hnot. rewrite Heq. apply in_map. exact Hy.
  - exfalso. apply Hnot. rewrite <- Heq. apply in_map. exact Hx.
  - apply IH; assumption.
Qed.

(** X2. In every store reached from the empty one by any sequence of
    requests, user ids are unique, no two users share an email, and every
    stored username and email is non-empty, the email in lower case:
    [signup] and [update_profile] check the email before they write it. *)
Theorem accounts_stay_unique (rs : list request) :
  let db := handle_all rs empty_db in
  NoDup (map u_id (users db)) /\
  NoDup (map u_email (users db)) /\
  (forall u, In u (users db) ->
     nonempty (u_username u) = true /\ nonempty (u_email u) = true /\
     lower (u_email u) = u_email u) /\
  (forall u1 u2, In u1 (users db) -> In u2 (users db) ->
     u_email u1 = u_email u2 -> u1 = u2).
Proof.
  intros db. destruct (reachable_inv rs) as (_ & (Hid & _ & Hemail & Hok) & _).
  fold db in Hid, Hemail, Hok.
  split; [exact Hid|]. split; [exact Hemail|]. split.
  - intros u Hu. rewrite Forall_forall in Hok. exact (Hok u Hu).
  - intros u1 u2 H1 H2 Heq.
    apply (unique_by_key u_email (users db)); assumption.
Qed.

(** X3. In every store reached from the empty one by any sequence of
    requests, order ids are unique, every order item belongs to an order
    of the table, and every order has at least one item: [checkout] is the
    only writer of both tables, writes them together and never for an
    empty cart read. *)
Theorem orders_stay_whole (rs : list request) :
  let db := handle_all rs empty_db in
  NoDup (map o_id (orders db)) /\
  (forall oi, In oi (order_items db) ->
     exists o, In o (orders db) /\ o_id o = oi_order_id oi) /\
  (forall o, In o (orders db) ->
     exists oi, In oi (order_items db) /\ oi_order_id oi = o_id o).
Proof.
  intros db. destruct (reachable_inv rs) as (_ & _ & (Hid & _ & Hitems & Horders)).
  fold db in Hid, Hitems, Horders.
  rewrite Forall_forall in Hitems, Horders.
  split; [exact Hid|]. split; [exact Hitems|exact Horders].
Qed.

Lemma find_by_unique_id {A} (id : A -> Z) (l : list A) (x : A) :
  NoDup (map id l) -> In x l -> find (fun a => id a =? id x) l = Some x.
Proof.
  intros Hnd Hx.
  destruct (find (fun a => id a =? id x) l) as [y|] eqn:E.
  - apply find_some in E as [Hy Heq]. f_equal.
    apply (unique_by_key id l); [assumption..|lia].
  - apply (find_none _ _ E) in Hx. cbn in Hx. lia.
Qed.

Lemma find_no_id {A} (id : A -> Z) (l : list A) (k : Z) :
  (forall a, In a l -> id a <> k) -> find (fun a => id a =? k) l = None.
Proof.
  intros H. destruct (find (fun a => id a =? k) l) as [y|] eqn:E; [|reflexivity].
  apply find_some in E as [Hy Heq]. exfalso. apply (H y Hy). lia.
Qed.

Lemma get_product_run (pid : Z) (db : DB) :
  get_product [] pid db =
  (db, match select_product pid db with
       | Some p => Listed 200 (ProductRow p)
       | None => Answered (Json 404 (Error "not found"))
       end).
Proof.
  unfold get_product, with_connection_listing. autorewrite with tx.
  destruct (select_product pid db); reflexivity.
Qed.

Lemma profile_run (u : Z) (db : DB) :
  profile [] u db =
  (db, match select_user_by_id u db with
       | Some x => Listed 200 (UserRow (mk_user_view (u_id x) (u_username x) (u_email x)))
       | None => Answered (Json 404 (Error "not found"))
       end).
Proof.
  unfold profile, with_connection_listing. autorewrite with tx.
  destruct (select_user_by_id u db); reflexivity.
Qed.

(** X4. In every store reached from the empty one, each stored product is
    the row [get_product] returns for its id, and each stored user is the
    row [profile] returns for its id, with its username and email; an id
    that no row has is answered 404 "not found". *)
Theorem stored_rows_are_served (rs : list request) :
  let db := handle_all rs empty_db in
  (forall p, In p (products db) ->
     get_product [] (p_id p) db = (db, Listed 200 (ProductRow p))) /\
  (forall u, In u (users db) ->
     profile [] (u_id u) db =
     (db, Listed 200 (UserRow (mk_user_view (u_id u) (u_username u) (u_email u))))) /\
  (forall pid, (forall p, In p (products db) -> p_id p <> pid) ->
     get_product [] pid db = (db, Answered (Json 404 (Error "not found")))) /\
  (forall uid, (forall u, In u (users db) -> u_id u <> uid) ->
     profile [] uid db = (db, Answered (Json 404 (Error "not found")))).
Proof.
  intros db.
  destruct (reachable_inv rs) as ((Hpid & _) & (Huid & _) & _).
  fold db in Hpid, Huid.
  split; [|split; [|split]].
  - intros p Hp. rewrite get_product_run. unfold select_product.
    rewrite (find_by_unique_id p_id) by assumption. reflexivity.
  - intros u Hu. rewrite profile_run. unfold select_user_by_id.
    rewrite (find_by_unique_id u_id) by assumption. reflexivity.
  - intros pid H. rewrite get_product_run. unfold select_product.
    rewrite (find_no_id p_id) by assumption. reflexivity.
  - intros uid H. rewrite profile_run. unfold select_user_by_id.
    rewrite (find_no_id u_id) by assumption. reflexivity.
Qed.

(** ** Emails identify accounts *)

(** X6. After a successful signup, every spelling of its email that
    [strip] and [lower] take to the same string names the same account: a
    login with such a spelling and the signup's password succeeds with the
    id signup returned, whenever its token can be made, and a further
    signup with such a spelling, a username that is not blank and a
    password that is not empty is answered 400 "email already registered"
    and changes nothing. *)
Theorem email_identifies_account (cfg : config) (faults : schedule) (t0 : Z)
    (salt : string) (data : signup_request) (db db1 : DB) (tok : token)
    (uv : user_view) :
  signup cfg faults t0 salt data db = (db1, Json 201 (Session tok uv)) ->
  exists e,
    sr_email data = Val e /\
    forall e', lower (strip e') = lower (strip e) ->
      (forall t1 tok1,
         create_token cfg t1 (uv_id uv) = inr tok1 ->
         login cfg [] t1 (mk_login_request (Val e') (sr_password data)) db1 =
         (db1, Json 200 (Session tok1 uv))) /\
      (forall cfg' t1 salt' username' password',
         nonempty (strip username') = true -> nonempty password' = true ->
         signup cfg' [] t1 salt'
           (mk_signup_request (Val username') (Val e') (Val password')) db1 =
         (db1, Json 400 (Error "email already registered"))).
Proof.
  intros H0.
  apply signup_ok_inv in H0
    as (username & e & password & Ee & Ep & Ge & Gp & Hsel & -> & _ & ->).
  exists e. split; [exact Ee|]. intros e' He'.
  assert (Hfind : select_user_by_email (lower (strip e))
                    (fst (insert_user username (lower (strip e))
                            (generate_password_hash salt password) db)) =
                  Some (mk_user (next_user_id db) username (lower (strip e))
                          (generate_password_hash salt password))).
  { unfold select_user_by_email, insert_user. cbn [fst users].
    apply find_snoc; [exact Hsel|]. cbn [u_email]. apply String.eqb_refl. }
  remember (fst (insert_user username (lower (strip e))
                   (generate_password_hash salt password) db)) as db1 eqn:Edb.
  clear Edb. split.
  - intros t1 tok1 Htok. rewrite login_run. cbn [lr_email lr_password get].
    rewrite Ep. cbn [get]. rewrite !or_else_nonempty. cbv zeta.
    rewrite He', Ge, Gp. cbn [andb negb]. rewrite Hfind.
    cbn [u_password generate_password_hash check_password_hash].
    rewrite String.eqb_refl. cbn [negb u_id uv_id] in *. rewrite Htok. reflexivity.
  - intros cfg' t1 salt' username' password' Hu Hp. rewrite signup_run.
    cbn [sr_username sr_email sr_password get_default py_strip].
    rewrite Hu, Hp, He', Ge. cbn [andb negb]. rewrite Hfind. reflexivity.
Qed.

(** ** The life of a product *)

Lemma create_product_ok_inv (faults : schedule) (cu : Z) (data : product_request)
    (db db1 : DB) (id : Z) :
  create_product faults cu data db = (db1, Json 201 (ProductCreated id)) ->
  exists title description price category image,
    id = next_product_id db /\
    db1 = fst (insert_product cu title description price category image db).
Proof.
  rewrite create_product_run. intros H.
  destruct (py_strip (get_default (pr_title data) "")) as [?|title];
    [discriminate|].
  destruct (py_strip (get_default (pr_description data) "")) as [?|description];
    [discriminate|].
  destruct (py_strip (get_default (pr_category data) "")) as [?|category];
    [discriminate|].
  destruct (py_strip (get_default (pr_image data) "")) as [?|image];
    [discriminate|].
  destruct (get (pr_price data)) as [n|]; [|discriminate].
  destruct (negb (nonempty title)); [discriminate|].
  destruct (py_float n) as [?|price]; [discriminate|].
  destruct (first_fault _) as [[k d]|]; [discriminate|].
  injection H as <- <-. exists title, description, price, category, image.
  split; reflexivity.
Qed.

Lemma filter_out_fresh (l : list product) (p : product) (id : Z) :
  p_id p = id -> (forall x, In x l -> p_id x < id) ->
  filter (fun x => negb (p_id x =? id)) (l ++ [p]) = l.
Proof.
  intros <- Hlt. rewrite filter_app. cbn [filter]. rewrite Z.eqb_refl. cbn [negb].
  rewrite app_nil_r. induction l as [|a l IH]; [reflexivity|].
  cbn [filter]. assert (Ha : p_id a < p_id p) by (apply Hlt; left; reflexivity).
  replace (p_id a =? p_id p) with false by (symmetry; apply Z.eqb_neq; lia).
  cbn [negb]. f_equal. apply IH. intros x Hx. apply Hlt. right. exact Hx.
Qed.

(** X7. A product created on a well-formed store gets an id above every
    stored product's, is appended to the products with the creator as its
    owner, and is the row [get_product] then returns. Nobody but the
    creator can delete it (403, nothing changes). The creator's delete
    answers 200 and puts the products table back as it was before the
    creation; after it [get_product] and a second delete both answer 404
    "not found". *)
Theorem product_lifecycle (faults : schedule) (cu : Z) (data : product_request)
    (db db1 : DB) (id : Z) :
  db_wf db ->
  create_product faults cu data db = (db1, Json 201 (ProductCreated id)) ->
  exists p,
    products db1 = products db ++ [p] /\ p_id p = id /\ p_user_id p = cu /\
    (forall x, In x (products db) -> p_id x < id) /\
    get_product [] id db1 = (db1, Listed 200 (ProductRow p)) /\
    (forall other, other <> cu ->
       delete_product [] other id db1 = (db1, Json 403 (Error "forbidden"))) /\
    let db2 := delete_products id db1 in
    delete_product [] cu id db1 = (db2, Json 200 (Message "deleted")) /\
    products db2 = products db /\
    get_product [] id db2 = (db2, Answered (Json 404 (Error "not found"))) /\
    delete_product [] cu id db2 = (db2, Json 404 (Error "not found")).
Proof.
  intros (_ & Hlt & _) H.
  apply create_product_ok_inv in H
    as (title & description & price & category & image & -> & ->).
  rewrite Forall_forall in Hlt.
  set (p := mk_product (next_product_id db) cu title description price category image).
  assert (Hold : find (fun x => p_id x =? next_product_id db) (products db) = None).
  { apply find_no_id. intros a Ha. specialize (Hlt a Ha). lia. }
  assert (Hnew : select_product (next_product_id db)
                   (fst (insert_product cu title description price category image db))
                 = Some p).
  { unfold select_product, insert_product. cbn [fst products].
    apply find_snoc; [exact Hold|]. cbn [p_id]. apply Z.eqb_refl. }
  assert (Hgone : select_product (next_product_id db)
                    (delete_products (next_product_id db)
                       (fst (insert_product cu title description price category image db)))
                  = None).
  { unfold select_product, delete_products, insert_product, with_products.
    cbn [fst products].
    fold p.
    rewrite (filter_out_fresh (products db) p (next_product_id db) eq_refl Hlt).
    exact Hold. }
  exists p. split; [reflexivity|]. split; [reflexivity|]. split; [reflexivity|].
  split; [exact Hlt|]. split.
  { rewrite get_product_run, Hnew. reflexivity. }
  split.
  { intros other Hother. rewrite delete_product_run, select_product_owner_eq, Hnew.
    cbn [option_map p_user_id p].
    replace (cu =? other) with false by (symmetry; apply Z.eqb_neq; lia).
    reflexivity. }
  cbv zeta. split.
  { rewrite delete_product_run, select_product_owner_eq, Hnew.
    cbn [option_map p_user_id p]. rewrite Z.eqb_refl. reflexivity. }
  split.
  { unfold delete_products, insert_product, with_products. cbn [fst products].
    fold p.
    apply (filter_out_fresh (products db) p (next_product_id db) eq_refl Hlt). }
  split.
  { rewrite get_product_run, Hgone. reflexivity. }
  rewrite delete_product_run, select_product_owner_eq, Hgone. reflexivity.
Qed.

(** ** Changing the profile *)

Lemma find_all_false {A} (f : A -> bool) (l : list A) :
  (forall x, In x l -> f x = false) -> find f l = None.
Proof.
  intros H. destruct (find f l) as [y|] eqn:E; [|reflexivity].
  apply find_some in E as [Hy Hf]. rewrite (H y Hy) in Hf. discriminate.
Qed.

Lemma find_one_true {A} (f : A -> bool) (l : list A) (x : A) :
  In x l -> f x = true -> exists y, find f l = Some y.
Proof.
  intros Hx Hf. destruct (find f l) as [y|] eqn:E; [exists y; reflexivity|].
  apply (find_none _ _ E) in Hx. congruence.
Qed.

Lemma find_by_unique_email (l : list user) (x : user) :
  NoDup (map u_email l) -> In x l ->
  find (fun u => String.eqb (u_email u) (u_email x)) l = Some x.
Proof.
  intros Hnd Hx.
  destruct (find (fun u => String.eqb (u_email u) (u_email x)) l) as [y|] eqn:E.
  - apply find_some in E as [Hy Heq]. apply String.eqb_eq in Heq. f_equal.
    apply (unique_by_key u_email l); assumption.
  - apply (find_none _ _ E) in Hx. cbn in Hx. rewrite String.eqb_refl in Hx.
    discriminate.
Qed.

(** X8. For a user with a stored row, in a store with unique ids and
    emails, a profile update with a non-empty name and email (after
    stripping, the email lowered) has two outcomes. If another user holds
    that email: 400 "email already in use", nothing changes. Otherwise:
    200, and then [profile] shows the new name and email, every other
    user's row is as it was, a login with the submitted email and the
    unchanged password succeeds for the same id whenever its token can be
    made, and, when the email changed, a login with the old email is
    answered 401. *)
Theorem update_profile_moves_account (cu : Z) (rawname rawmail : string)
    (db : DB) (user : user) :
  users_wf db -> In user (users db) -> u_id user = cu ->
  nonempty (strip rawname) = true -> nonempty (lower (strip rawmail)) = true ->
  let data := mk_profile_request (Val rawname) (Val rawmail) in
  let email := lower (strip rawmail) in
  ((exists other, In other (users db) /\ u_email other = email /\ u_id other <> cu) ->
   update_profile [] cu data db = (db, Json 400 (Error "email already in use"))) /\
  ((forall other, In other (users db) -> u_email other = email -> u_id other = cu) ->
   let db' := update_user (strip rawname) email cu db in
   let view := mk_user_view cu (strip rawname) email in
   update_profile [] cu data db = (db', Json 200 (Message "profile updated")) /\
   profile [] cu db' = (db', Listed 200 (UserRow view)) /\
   (forall u, In u (users db) -> u_id u <> cu -> In u (users db')) /\
   List.length (users db') = List.length (users db) /\
   (forall cfg t pw tok,
      nonempty pw = true -> check_password_hash (u_password user) pw = true ->
      create_token cfg t cu = inr tok ->
      login cfg [] t (mk_login_request (Val rawmail) (Val pw)) db' =
      (db', Json 200 (Session tok view))) /\
   (u_email user <> email ->
    forall cfg t old pw,
      lower (strip old) = u_email user -> nonempty pw = true ->
      login cfg [] t (mk_login_request (Val old) (Val pw)) db' =
      (db', Json 401 (Error "invalid credentials")))).
Proof.
  intros Hwf Hin Hid Gu Ge data email.
  assert (Hrun := update_profile_run [] cu data db).
  cbn [data pf_username pf_email get_default py_strip] in Hrun.
  fold email in Hrun. rewrite Gu in Hrun. fold email in Ge. rewrite Ge in Hrun.
  cbn [andb negb tl firstn first_fault] in Hrun.
  split.
  - intros (other & Ho & He & Hne). rewrite Hrun.
    destruct (find_one_true
                (fun u => String.eqb (u_email u) email && negb (u_id u =? cu))
                (users db) other Ho) as [y Hy].
    + rewrite He, String.eqb_refl. cbn [andb]. apply negb_true_iff.
      apply Z.eqb_neq. exact Hne.
    + unfold select_email_conflict. rewrite Hy. reflexivity.
  - intros Hfree db' view.
    assert (Hsel : select_email_conflict email cu db = None).
    { apply find_all_false. intros x Hx.
      destruct (String.eqb (u_email x) email) eqn:E; [|reflexivity].
      apply String.eqb_eq in E. rewrite (Hfree x Hx E), Z.eqb_refl. reflexivity. }
    assert (Hlow : lower email = email) by apply lower_idem.
    assert (Hwf' : users_wf db')
      by (apply users_wf_update_user; assumption).
    destruct Hwf as (Hnd & _ & Hem & Hok). destruct Hwf' as (Hnd' & _ & Hem' & _).
    set (user' := mk_user cu (strip rawname) email (u_password user)).
    assert (Hin' : In user' (users db')).
    { unfold db', update_user. cbn [users]. apply in_map_iff. exists user.
      split; [|exact Hin]. rewrite Hid, Z.eqb_refl. reflexivity. }
    rewrite Hrun, Hsel. split; [reflexivity|]. split.
    { rewrite profile_run. unfold select_user_by_id.
      change cu with (u_id user') at 1.
      rewrite (find_by_unique_id u_id) by assumption. reflexivity. }
    split.
    { intros u Hu Hne. unfold db', update_user. cbn [users]. apply in_map_iff.
      exists u. split; [|exact Hu].
      replace (u_id u =? cu) with false by (symmetry; apply Z.eqb_neq; exact Hne).
      reflexivity. }
    split.
    { unfold db', update_user. cbn [users]. apply length_map. }
    split.
    { intros cfg t pw tok Gp Hpw Htok. rewrite login_run.
      cbn [lr_email lr_password get].
      rewrite !or_else_nonempty. cbv zeta. fold email. rewrite Ge, Gp.
      cbn [andb negb]. unfold select_user_by_email.
      change email with (u_email user') at 1.
      rewrite find_by_unique_email by assumption.
      cbn [user' u_password u_id u_username u_email]. rewrite Hpw, Htok.
      reflexivity. }
    intros Hchanged cfg t old pw Hold Gp. rewrite login_run.
    cbn [lr_email lr_password get]. rewrite !or_else_nonempty. cbv zeta.
    rewrite Hold, Gp. rewrite Forall_forall in Hok.
    destruct (Hok user Hin) as (_ & Gold & _). rewrite Gold. cbn [andb negb].
    unfold select_user_by_email. rewrite find_all_false; [reflexivity|].
    intros x Hx. apply not_true_is_false. intros Heq. apply String.eqb_eq in Heq.
    unfold db', update_user in Hx. cbn [users] in Hx.
    apply in_map_iff in Hx as (u & <- & Hu).
    destruct (u_id u =? cu) eqn:E.
    + cbn [u_email] in Heq. apply Hchanged. symmetry. exact Heq.
    + assert (u = user) by (apply (unique_by_key u_email (users db)); assumption).
      subst u. lia.
Qed.

(** ** Listing the products *)

Lemma insert_id_desc_perm (p : product) (ps : list product) :
  Permutation (insert_id_desc p ps) (p :: ps).
Proof.
  induction ps as [|p' ps IH]; cbn [insert_id_desc]; [reflexivity|].
  destruct (p_id p' <=? p_id p); [reflexivity|].
  rewrite IH. apply perm_swap.
Qed.

Lemma order_by_id_perm (ps : list product) : Permutation (order_by_id_desc ps) ps.
Proof.
  induction ps as [|p ps IH]; cbn; [reflexivity|].
  rewrite insert_id_desc_perm. constructor. exact IH.
Qed.

Lemma insert_id_desc_sorted (p : product) (ps : list product) :
  StronglySorted higher_id_first ps ->
  StronglySorted higher_id_first (insert_id_desc p ps).
Proof.
  induction ps as [|p' ps IH]; intros Hs; cbn [insert_id_desc].
  - repeat constructor.
  - apply StronglySorted_inv in Hs as [Hs Hall].
    destruct (p_id p' <=? p_id p) eqn:E.
    + constructor; [constructor; assumption|].
      constructor; [unfold higher_id_first; lia|].
      eapply Forall_impl; [|exact Hall]. unfold higher_id_first. intros x Hx. lia.
    + constructor; [apply IH; exact Hs|].
      eapply Permutation_Forall; [symmetry; apply insert_id_desc_perm|].
      constructor; [unfold higher_id_first; lia | exact Hall].
Qed.

Lemma order_by_id_sorted (ps : list product) :
  StronglySorted higher_id_first (order_by_id_desc ps).
Proof.
  induction ps as [|p ps IH]; cbn; [constructor|].
  apply insert_id_desc_sorted. exact IH.
Qed.

Lemma nonempty_false (s : string) : nonempty s = false <-> s = "".
Proof.
  unfold nonempty. rewrite negb_false_iff. apply String.eqb_eq.
Qed.

Lemma nonempty_true (s : string) : nonempty s = true <-> s <> "".
Proof.
  unfold nonempty. rewrite negb_true_iff. apply String.eqb_neq.
Qed.

Lemma list_products_run (like : string -> string -> bool) (q category : option string)
    (db : DB) :
  let qs := strip (match q with Some s => s | None => "" end) in
  let cs := strip (match category with Some s => s | None => "" end) in
  list_products like [] q category db =
  (db, Listed 200 (ProductRows (select_products
     ((if nonempty qs
       then [fun p => like (p_title p) (String.append "%" (String.append qs "%")) ||
                      like (p_description p) (String.append "%" (String.append qs "%"))]
       else []) ++
      (if nonempty cs then [fun p => String.eqb (p_category p) cs] else [])) db))).
Proof.
  intros qs cs. unfold list_products, with_connection_listing. fold qs cs.
  cbv zeta. autorewrite with tx. cbn [fst snd committed ret].
  destruct (nonempty qs), (nonempty cs); reflexivity.
Qed.

(** X9. [list_products] without store fault answers 200 with rows sorted by
    id, highest first, and leaves the store alone. A product is among the
    rows exactly when it is stored and passes every filter given: [q],
    once stripped and if not empty, must match the title or the description
    as the pattern %q%, and [category], once stripped and if not empty,
    must equal the product's category. With neither filter the rows are
    all the products, each once. *)
Theorem list_products_lists (like : string -> string -> bool)
    (q category : option string) (db : DB) :
  let qs := strip (match q with Some s => s | None => "" end) in
  let cs := strip (match category with Some s => s | None => "" end) in
  exists rows,
    list_products like [] q category db = (db, Listed 200 (ProductRows rows)) /\
    StronglySorted higher_id_first rows /\
    (forall p, In p rows <-> In p (products db) /\ listed like qs cs p) /\
    (qs = "" -> cs = "" -> Permutation rows (products db)).
Proof.
  intros qs cs. eexists. split; [apply list_products_run|]. fold qs cs.
  unfold select_products. split; [apply order_by_id_sorted|]. split.
  - intros p. split.
    + intros Hin. apply (Permutation_in _ (order_by_id_perm _)) in Hin.
      apply filter_In in Hin as [Hin Hall]. split; [exact Hin|].
      rewrite forallb_app in Hall. apply andb_true_iff in Hall as [Hq Hc].
      split.
      * destruct (nonempty qs) eqn:E; [|left; apply nonempty_false; exact E].
        right. cbn [forallb] in Hq. rewrite andb_true_r in Hq.
        apply orb_true_iff in Hq. exact Hq.
      * destruct (nonempty cs) eqn:E; [|left; apply nonempty_false; exact E].
        right. cbn [forallb] in Hc. rewrite andb_true_r in Hc.
        apply String.eqb_eq. exact Hc.
    + intros (Hin & Hq & Hc).
      apply (Permutation_in _ (Permutation_sym (order_by_id_perm _))).
      apply filter_In. split; [exact Hin|]. rewrite forallb_app.
      apply andb_true_iff. split.
      * destruct (nonempty qs) eqn:E; [|reflexivity].
        cbn [forallb]. rewrite andb_true_r. apply orb_true_iff.
        destruct Hq as [Hq|Hq]; [|exact Hq].
        apply nonempty_true in E. contradiction.
      * destruct (nonempty cs) eqn:E; [|reflexivity].
        cbn [forallb]. rewrite andb_true_r. apply String.eqb_eq.
        destruct Hc as [Hc|Hc]; [|exact Hc].
        apply nonempty_true in E. contradiction.
  - intros Hq Hc. apply nonempty_false in Hq, Hc. rewrite Hq, Hc. cbn [app forallb].
    rewrite order_by_id_perm.
    replace (filter (fun _ : product => true) (products db)) with (products db);
      [reflexivity|].
    induction (products db) as [|a l IH]; [reflexivity|]. cbn [filter].
    f_equal. exact IH.
Qed.

Lemma newest_on_top (p : product) (l : list product) :
  (forall x, In x l -> p_id x < p_id p) ->
  order_by_id_desc (l ++ [p]) = p :: order_by_id_desc l.
Proof.
  intros Hlt. unfold order_by_id_desc. rewrite fold_right_app. cbn [fold_right insert_id_desc].
  induction l as [|a l IH]; [reflexivity|]. cbn [fold_right].
  rewrite IH by (intros x Hx; apply Hlt; right; exact Hx).
  cbn [insert_id_desc].
  assert (Ha : p_id a < p_id p) by (apply Hlt; left; reflexivity).
  replace (p_id p <=? p_id a) with false by (symmetry; apply Z.leb_gt; exact Ha).
  reflexivity.
Qed.

Lemma filter_all (l : list product) : filter (fun _ : product => true) l = l.
Proof.
  induction l as [|a l IH]; [reflexivity|]. cbn [filter]. f_equal. exact IH.
Qed.

(** X10. A product created on a well-formed store is the first row of the
    unfiltered product list, under the id the creation returned and with
    the creator as owner, and the rows after it are exactly the list as it
    was before the creation. *)
Theorem new_product_listed_first (like : string -> string -> bool)
    (faults : schedule) (cu : Z) (data : product_request) (db db1 : DB) (id : Z) :
  db_wf db ->
  create_product faults cu data db = (db1, Json 201 (ProductCreated id)) ->
  exists p before,
    list_products like [] None None db = (db, Listed 200 (ProductRows before)) /\
    list_products like [] None None db1 =
    (db1, Listed 200 (ProductRows (p :: before))) /\
    p_id p = id /\ p_user_id p = cu.
Proof.
  intros (_ & Hlt & _) H.
  apply create_product_ok_inv in H
    as (title & description & price & category & image & -> & ->).
  rewrite Forall_forall in Hlt.
  exists (mk_product (next_product_id db) cu title description price category image),
         (order_by_id_desc (products db)).
  rewrite !list_products_run. cbv zeta. rewrite strip_empty.
  change (nonempty "") with false. cbn [app]. unfold select_products.
  cbn [forallb insert_product fst products]. rewrite !filter_all.
  rewrite newest_on_top by exact Hlt.
  repeat split; reflexivity.
Qed.

(** ** The cart follows the products *)

Lemma update_product_ok_inv (faults : schedule) (cu pid : Z) (data : product_request)
    (db db1 : DB) (b : body) :
  update_product faults cu pid data db = (db1, Json 200 b) ->
  exists price,
    requested_price data = inr price /\
    select_product_owner pid db = Some cu /\
    db1 = update_products (requested_fields data price) pid db.
Proof.
  rewrite update_product_run. intros H.
  assert (Hcore :
    match select_product_owner pid db with
    | None => (db, Json 404 (Error "not found"))
    | Some owner =>
        if negb (owner =? cu) then (db, Json 403 (Error "forbidden"))
        else
          match requested_price data with
          | inl e => (db, Json 500 (ServerError e))
          | inr price =>
              match requested_fields data price with
              | [] => (db, Json 400 (Error "nothing to update"))
              | (_ :: _) as fields =>
                  match first_fault (firstn 2 (tl faults)) with
                  | Some (_, d) => (db, Json 500 (ServerError (StoreError d)))
                  | None => (update_products fields pid db, Json 200 (Message "updated"))
                  end
              end
          end
    end = (db1, Json 200 b)).
  { destruct faults as [|[d|] f]; [exact H | discriminate | exact H]. }
  clear H. destruct (select_product_owner pid db) as [owner|]; [|discriminate].
  destruct (negb (owner =? cu)) eqn:E; [discriminate|].
  apply negb_false_iff in E. apply Z.eqb_eq in E. subst owner.
  destruct (requested_price data) as [e|price]; [discriminate|].
  exists price. split; [reflexivity|]. split; [reflexivity|].
  destruct (requested_fields data price) as [|a fields]; [discriminate|].
  destruct (first_fault _) as [[k d]|]; [discriminate|].
  injection Hcore as <- _. reflexivity.
Qed.

Lemma cart_join_products_map {A} (row : cart_row -> product -> A) (u : Z) (db : DB)
    (g : product -> product) :
  (forall p, p_id (g p) = p_id p) ->
  cart_join row u (with_products db (map g (products db))) =
  cart_join (fun c p => row c (g p)) u db.
Proof.
  intros Hid. unfold cart_join, with_products. cbn [cart products].
  apply flat_map_ext. intros c.
  rewrite (filter_map_same (fun p => p_id p =? c_product_id c) g)
    by (intros x; rewrite Hid; reflexivity).
  apply map_map.
Qed.

Lemma updated_products (data : product_request) (price : option float) (pid : Z)
    (db : DB) :
  update_products (requested_fields data price) pid db =
  with_products db
    (map (fun p => if p_id p =? pid then updated data price p else p) (products db)).
Proof.
  unfold update_products. f_equal. apply map_ext. intros p.
  rewrite assign_requested. reflexivity.
Qed.

(** X11. The cart stores no product data. After a successful update of
    product [pid], every user's cart view shows, on the rows of that
    product, the title, price and image the update supplied (the other
    rows and the quantities are as before), and a checkout made then
    writes its order items at the updated price: the price charged is the
    one at checkout, not the one when the product was put in the cart. *)
Theorem cart_follows_product_update (faults : schedule) (cu pid : Z)
    (data : product_request) (db db1 : DB) (b : body) :
  update_product faults cu pid data db = (db1, Json 200 b) ->
  exists price,
    requested_price data = inr price /\
    forall u,
      view_cart [] u db1 =
      (db1, Json 200 (CartRows (map (refreshed data price pid) (select_cart_view u db)))) /\
      forall now,
        order_items (fst (checkout [] now u db1)) =
        order_items db ++
        map (item_of (next_order_id db))
          (map (repriced price pid) (select_cart_items u db)).
Proof.
  intros H. apply update_product_ok_inv in H as (price & Hprice & _ & ->).
  exists price. split; [exact Hprice|]. intros u.
  rewrite updated_products.
  set (g := fun p => if p_id p =? pid then updated data price p else p).
  assert (Hid : forall p, p_id (g p) = p_id p)
    by (intros p; unfold g; destruct (p_id p =? pid); reflexivity).
  split.
  - rewrite view_cart_run. do 3 f_equal. unfold select_cart_view.
    rewrite (cart_join_products_map _ u db g Hid).
    rewrite <- (map_id (cart_join _ u db)) at 1.
    apply cart_join_map. intros c p Hp. unfold g, refreshed. cbn [cv_product_id].
    destruct (p_id p =? pid); reflexivity.
  - intros now.
    assert (Hitems : select_cart_items u (with_products db (map g (products db))) =
                     map (repriced price pid) (select_cart_items u db)).
    { unfold select_cart_items. rewrite (cart_join_products_map _ u db g Hid).
      rewrite <- (map_id (cart_join _ u db)) at 1.
      apply cart_join_map. intros c p Hp. unfold g, repriced. cbn [it_product_id].
      rewrite <- Hp. destruct (p_id p =? pid); reflexivity. }
    destruct (select_cart_items u (with_products db (map g (products db))))
      as [|i items] eqn:E.
    + rewrite checkout_empty by exact E. rewrite <- Hitems. cbn [map fst].
      rewrite app_nil_r. reflexivity.
    + rewrite checkout_run by (rewrite E; discriminate).
      cbn [firstn first_fault fst]. rewrite checked_out_eq. cbn [order_items].
      rewrite E, <- Hitems. reflexivity.
Qed.

Lemma cart_join_rows_changed {A} (row : cart_row -> product -> A) (v : Z)
    (ps : list product) (g : cart_row -> cart_row) (cs : list cart_row) :
  (forall x, c_user_id (g x) = c_user_id x) ->
  (forall x, In x cs ->
     map (row (g x)) (filter (fun p => p_id p =? c_product_id (g x)) ps) =
     map (row x) (filter (fun p => p_id p =? c_product_id x) ps)) ->
  flat_map (fun c => map (row c) (filter (fun p => p_id p =? c_product_id c) ps))
    (filter (fun c => c_user_id c =? v) (map g cs)) =
  flat_map (fun c => map (row c) (filter (fun p => p_id p =? c_product_id c) ps))
    (filter (fun c => c_user_id c =? v) cs).
Proof.
  intros Hu Hrow. induction cs as [|a cs IH]; [reflexivity|].
  cbn [map filter]. rewrite Hu.
  assert (IH' := IH (fun x Hx => Hrow x (or_intror Hx))).
  destruct (c_user_id a =? v); [|exact IH'].
  cbn [flat_map]. rewrite IH', (Hrow a (or_introl eq_refl)). reflexivity.
Qed.

Lemma no_product_no_row (p : Z) (ps : list product) :
  (forall x, In x ps -> p_id x <> p) -> filter (fun x => p_id x =? p) ps = [].
Proof.
  intros H. induction ps as [|a ps IH]; [reflexivity|]. cbn [filter].
  replace (p_id a =? p) with false
    by (symmetry; apply Z.eqb_neq; apply H; left; reflexivity).
  apply IH. intros x Hx. apply H. right. exact Hx.
Qed.

Lemma add_to_cart_unknown_join {A} (row : cart_row -> product -> A) (u p q v : Z)
    (data : cart_request) (db : DB) :
  cart_wf db ->
  get (cr_product_id data) = Some p -> p <> 0 ->
  py_int (get_default (cr_quantity data) (NInt 1)) = inr q ->
  (forall x, In x (products db) -> p_id x <> p) ->
  cart_join row v (fst (add_to_cart [] u data db)) = cart_join row v db.
Proof.
  intros (Hid & _ & _) Hp Hnz Hq Hnone.
  pose proof (add_to_cart_table u p q data db Hp Hnz Hq) as Htab. cbv zeta in Htab.
  assert (Hps : products (fst (add_to_cart [] u data db)) = products db).
  { rewrite (add_to_cart_run u p q data db Hp Hnz Hq). cbn [fst].
    destruct (select_cart_entry u p db) as [[id q0]|]; reflexivity. }
  unfold cart_join. rewrite Hps.
  destruct (cart_entries u p db) as [|c cs] eqn:E; destruct Htab as [-> _].
  - rewrite filter_app, flat_map_app. cbn [filter c_user_id].
    destruct (u =? v); cbn [flat_map c_product_id];
      rewrite ?(no_product_no_row p (products db) Hnone); cbn [map app];
      rewrite app_nil_r; reflexivity.
  - assert (Hc : In c (cart db) /\ c_product_id c = p).
    { assert (Hin : In c (cart_entries u p db)) by (rewrite E; left; reflexivity).
      apply filter_In in Hin as [Hin Hm]. split; [exact Hin|].
      apply andb_true_iff in Hm as [_ Hm]. lia. }
    destruct Hc as [Hc Hcp].
    apply cart_join_rows_changed.
    + intros x. destruct (c_id x =? c_id c); reflexivity.
    + intros x Hx. destruct (c_id x =? c_id c) eqn:Ex; [|reflexivity].
      assert (x = c) by (apply (unique_cart_id (cart db)); [assumption..|lia]).
      subst x. cbn [add_quantity c_product_id]. rewrite Hcp.
      rewrite (no_product_no_row p (products db) Hnone). reflexivity.
Qed.

(** X12. [add_to_cart] never looks the product up. On a well-formed cart,
    a request for a product id that no product has (with a usable
    quantity) is answered 200 "added to cart" and stores or updates the
    one cart row of the user for that id, yet neither the cart view nor
    the rows a checkout reads change for any user: the row stays
    invisible. *)
Theorem add_to_cart_unknown_product (u p q : Z) (data : cart_request) (db : DB) :
  cart_wf db ->
  get (cr_product_id data) = Some p -> p <> 0 ->
  py_int (get_default (cr_quantity data) (NInt 1)) = inr q ->
  (forall x, In x (products db) -> p_id x <> p) ->
  let db' := fst (add_to_cart [] u data db) in
  add_to_cart [] u data db = (db', Json 200 (Message "added to cart")) /\
  (exists c, cart_entries u p db' = [c] /\
             c_quantity c = q + list_sum_quantity (cart_entries u p db)) /\
  (forall v, view_cart [] v db' = (db', Json 200 (CartRows (select_cart_view v db)))) /\
  (forall v, select_cart_items v db' = select_cart_items v db).
Proof.
  intros Hwf Hp Hnz Hq Hnone db'.
  split.
  { unfold db'. rewrite (add_to_cart_run u p q data db Hp Hnz Hq). reflexivity. }
  split.
  { destruct (add_to_cart_entries u p q data db Hp Hnz Hq Hwf) as (Hone & Hnew & _).
    fold db' in Hone, Hnew.
    pose proof (one_entry_per_key u p (cart db) (proj2 (proj2 Hwf))) as Hlen.
    fold (cart_entries u p db) in Hlen.
    destruct (cart_entries u p db) as [|c [|c' cs]] eqn:E.
    - eexists. split; [apply Hnew; reflexivity|]. cbn. lia.
    - eexists. split; [apply Hone; reflexivity|]. cbn. lia.
    - cbn in Hlen. lia. }
  split.
  { intros v. rewrite view_cart_run. do 3 f_equal.
    apply add_to_cart_unknown_join with (p := p) (q := q); assumption. }
  intros v. apply add_to_cart_unknown_join with (p := p) (q := q); assumption.
Qed.

(** ** From the cart to the purchase history *)

Lemma in_select_purchases (u : Z) (db : DB) (r : purchase_view) :
  In r (select_purchases u db) <-> In r (purchases_join u db).
Proof.
  split; intros H.
  - eapply Permutation_in; [apply order_by_perm | exact H].
  - eapply Permutation_in; [symmetry; apply order_by_perm | exact H].
Qed.

Lemma flat_map_ext_in {A B} (f g : A -> list B) (l : list A) :
  (forall a, In a l -> f a = g a) -> flat_map f l = flat_map g l.
Proof.
  intros H. induction l as [|a l IH]; [reflexivity|]. cbn [flat_map].
  rewrite (H a (or_introl eq_refl)), IH; [reflexivity|].
  intros x Hx. apply H. right. exact Hx.
Qed.

Lemma new_items_not_of_order (oid x : Z) (items : list cart_item) :
  x <> oid ->
  filter (fun oi => oi_order_id oi =? x) (map (item_of oid) items) = [].
Proof.
  intros Hne. induction items as [|it items IH]; [reflexivity|].
  cbn [map filter item_of oi_order_id].
  replace (oid =? x) with false by (symmetry; apply Z.eqb_neq; lia).
  exact IH.
Qed.

(** The rows the new order joins to: one for each row of the cart view. *)
Lemma purchased_rows (oid now u : Z) (db : DB) :
  NoDup (map p_id (products db)) ->
  flat_map
    (fun oi =>
       map (fun p =>
              mk_purchase_view oid now (oi_product_id oi) (p_title p) (p_image p)
                (oi_quantity oi) (oi_price oi))
         (filter (fun p => p_id p =? oi_product_id oi) (products db)))
    (map (item_of oid) (select_cart_items u db)) =
  map (purchased oid now) (select_cart_view u db).
Proof.
  intros Hnd. unfold select_cart_items, select_cart_view, cart_join.
  induction (filter (fun c => c_user_id c =? u) (cart db)) as [|c cs IH];
    [reflexivity|].
  cbn [flat_map]. rewrite !map_app, flat_map_app, IH. f_equal. clear IH.
  rewrite (filter_unique_id (c_product_id c) (products db) Hnd).
  destruct (find (fun p => p_id p =? c_product_id c) (products db)) as [p|] eqn:E;
    [|reflexivity].
  cbn [map flat_map item_of oi_product_id oi_quantity oi_price it_product_id
       it_quantity it_price].
  rewrite (filter_unique_id (c_product_id c) (products db) Hnd), E.
  cbn [map app]. unfold purchased.
  cbn [cv_product_id cv_title cv_image cv_quantity cv_price].
  apply find_some in E as [_ E]. apply Z.eqb_eq in E. rewrite E. reflexivity.
Qed.

(** The join behind the purchase history after a checkout: the join
    before, then the rows of the new order. *)
Lemma purchases_join_checked_out (now u : Z) (db : DB) :
  store_inv db ->
  purchases_join u (checked_out now u db) =
  purchases_join u db ++
  map (purchased (next_order_id db) now) (select_cart_view u db).
Proof.
  intros ((Hpid & _ & _ & Hitems) & _ & (_ & Hbelow & _)).
  rewrite checked_out_eq. unfold purchases_join.
  cbn [orders order_items products]. rewrite filter_app. cbn [filter o_user_id].
  rewrite Z.eqb_refl, flat_map_app. f_equal.
  - apply flat_map_ext_in. intros o Ho. apply filter_In in Ho as [Ho _].
    rewrite Forall_forall in Hbelow. specialize (Hbelow o Ho).
    rewrite filter_app, new_items_not_of_order by lia.
    rewrite app_nil_r. reflexivity.
  - cbn [flat_map o_id o_created_at]. rewrite app_nil_r.
    rewrite items_of_new_order by exact Hitems.
    apply purchased_rows. exact Hpid.
Qed.

(** X13. After a successful checkout on a store reached by the handlers,
    the purchase history of the user is sorted newest first and holds,
    counted with multiplicity, exactly the rows it had before and one row
    for every row the cart view showed: under the new order's id and
    time, with the product, title, image, quantity and price of the cart
    view row. *)
Theorem purchases_after_checkout (faults : schedule) (now u : Z) (db db' : DB)
    (b : body) :
  store_inv db ->
  checkout faults now u db = (db', Json 200 b) ->
  b = CheckoutComplete (next_order_id db) /\
  exists rows,
    purchases [] u db' = (db', Json 200 (PurchaseRows rows)) /\
    Permutation rows
      (select_purchases u db ++
       map (purchased (next_order_id db) now) (select_cart_view u db)) /\
    StronglySorted newer_first rows /\
    List.length rows =
      (List.length (select_purchases u db) + List.length (select_cart_view u db))%nat.
Proof.
  intros Hinv H0.
  apply checkout_ok_inv in H0 as (_ & -> & ->). split; [reflexivity|].
  exists (select_purchases u (checked_out now u db)). split; [reflexivity|].
  assert (Hperm : Permutation (select_purchases u (checked_out now u db))
                    (select_purchases u db ++
                     map (purchased (next_order_id db) now) (select_cart_view u db))).
  { unfold select_purchases at 1. rewrite order_by_perm.
    rewrite (purchases_join_checked_out now u db Hinv).
    apply Permutation_app_tail. symmetry. apply order_by_perm. }
  split; [exact Hperm|]. split; [apply order_by_sorted|].
  rewrite (Permutation_length Hperm), length_app, length_map. reflexivity.
Qed.

(** ** What a deletion hides *)

Lemma delete_product_ok_inv (faults : schedule) (cu pid : Z) (db db' : DB) (b : body) :
  delete_product faults cu pid db = (db', Json 200 b) ->
  select_product_owner pid db = Some cu /\ db' = delete_products pid db.
Proof.
  rewrite delete_product_run. intros H.
  assert (Hcore :
    match select_product_owner pid db with
    | None => (db, Json 404 (Error "not found"))
    | Some owner =>
        if negb (owner =? cu) then (db, Json 403 (Error "forbidden"))
        else
          match first_fault (firstn 2 (tl faults)) with
          | Some (_, d) => (db, Json 500 (ServerError (StoreError d)))
          | None => (delete_products pid db, Json 200 (Message "deleted"))
          end
    end = (db', Json 200 b)).
  { destruct faults as [|[d|] f]; [exact H | discriminate | exact H]. }
  clear H. destruct (select_product_owner pid db) as [owner|]; [|discriminate].
  destruct (negb (owner =? cu)) eqn:E; [discriminate|].
  apply negb_false_iff in E. apply Z.eqb_eq in E. subst owner.
  destruct (first_fault _) as [[k d]|]; [discriminate|].
  injection Hcore as <- _. split; reflexivity.
Qed.

Lemma join_deleted {A} (row : product -> A) (k : A -> Z) (x pid : Z)
    (ps : list product) :
  (forall p, p_id p = x -> k (row p) = x) ->
  map row (filter (fun p => p_id p =? x)
             (filter (fun p => negb (p_id p =? pid)) ps)) =
  filter (fun r => negb (k r =? pid)) (map row (filter (fun p => p_id p =? x) ps)).
Proof.
  intros Hk. induction ps as [|a ps IH]; [reflexivity|]. cbn [filter].
  destruct (p_id a =? pid) eqn:Ed, (p_id a =? x) eqn:Ex; cbn [negb filter map];
    rewrite ?Ex; cbn [map filter]; rewrite ?Hk by lia.
  - replace (x =? pid) with true by (symmetry; apply Z.eqb_eq; lia).
    cbn [negb]. exact IH.
  - exact IH.
  - replace (x =? pid) with false by (symmetry; apply Z.eqb_neq; lia).
    cbn [negb]. f_equal. exact IH.
  - exact IH.
Qed.

Lemma filter_flat_map {A B} (f : B -> bool) (g : A -> list B) (l : list A) :
  filter f (flat_map g l) = flat_map (fun a => filter f (g a)) l.
Proof.
  induction l as [|a l IH]; [reflexivity|]. cbn [flat_map].
  rewrite filter_app, IH. reflexivity.
Qed.

Lemma insert_desc_top (r : purchase_view) (rs : list purchase_view) :
  Forall (newer_first r) rs -> insert_desc r rs = r :: rs.
Proof.
  intros H. destruct rs as [|r' rs]; [reflexivity|]. cbn [insert_desc].
  apply Forall_inv in H. unfold newer_first in H.
  replace (pv_created_at r' <=? pv_created_at r) with true
    by (symmetry; apply Z.leb_le; exact H).
  reflexivity.
Qed.

Lemma filter_insert_desc (f : purchase_view -> bool) (r : purchase_view)
    (rs : list purchase_view) :
  StronglySorted newer_first rs ->
  filter f (insert_desc r rs) =
  if f r then insert_desc r (filter f rs) else filter f rs.
Proof.
  induction rs as [|r' rs IH]; intros Hs.
  - cbn. destruct (f r); reflexivity.
  - apply StronglySorted_inv in Hs as [Hs Hall]. cbn [insert_desc].
    destruct (pv_created_at r' <=? pv_created_at r) eqn:E.
    + cbn [filter]. destruct (f r); [|reflexivity].
      symmetry. apply insert_desc_top.
      apply (Forall_filter (newer_first r) f (r' :: rs)).
      constructor; [unfold newer_first; lia|].
      eapply Forall_impl; [|exact Hall]. unfold newer_first. intros x Hx. lia.
    + cbn [filter]. rewrite (IH Hs).
      destruct (f r'), (f r); try reflexivity.
      cbn [insert_desc]. rewrite E. reflexivity.
Qed.

Lemma order_by_filter (f : purchase_view -> bool) (rs : list purchase_view) :
  order_by_created_at_desc (filter f rs) = filter f (order_by_created_at_desc rs).
Proof.
  induction rs as [|r rs IH]; [reflexivity|].
  cbn [order_by_created_at_desc fold_right filter].
  fold (order_by_created_at_desc rs).
  rewrite filter_insert_desc by apply order_by_sorted.
  destruct (f r); [|exact IH].
  cbn [order_by_created_at_desc fold_right].
  fold (order_by_created_at_desc (filter f rs)). rewrite IH. reflexivity.
Qed.

(** X14. A successful delete of product [pid] removes the product row and
    nothing else: cart rows, orders and order items are all kept. What
    changes is what the joins show: every user's cart view, and every
    user's purchase history, is the former one without the rows of that
    product, the remaining rows in the same order. *)
Theorem delete_hides_rows (faults : schedule) (cu pid : Z) (db db' : DB) (b : body) :
  delete_product faults cu pid db = (db', Json 200 b) ->
  users db' = users db /\ cart db' = cart db /\ orders db' = orders db /\
  order_items db' = order_items db /\
  (forall p, In p (products db') <-> In p (products db) /\ p_id p <> pid) /\
  forall u,
    view_cart [] u db' =
    (db', Json 200 (CartRows
       (filter (fun v => negb (cv_product_id v =? pid)) (select_cart_view u db)))) /\
    purchases [] u db' =
    (db', Json 200 (PurchaseRows
       (filter (fun r => negb (pv_product_id r =? pid)) (select_purchases u db)))).
Proof.
  intros H. apply delete_product_ok_inv in H as [_ ->].
  split; [reflexivity|]. split; [reflexivity|]. split; [reflexivity|].
  split; [reflexivity|]. split.
  { intros p. unfold delete_products, with_products. cbn [products].
    rewrite filter_In, negb_true_iff, Z.eqb_neq. reflexivity. }
  intros u. split.
  - rewrite view_cart_run. do 3 f_equal.
    unfold select_cart_view, cart_join, delete_products, with_products.
    cbn [cart products]. rewrite filter_flat_map. apply flat_map_ext. intros c.
    apply (join_deleted _ cv_product_id). intros p Hp. exact Hp.
  - change (purchases [] u (delete_products pid db))
      with (delete_products pid db,
            Json 200 (PurchaseRows (select_purchases u (delete_products pid db)))).
    do 3 f_equal. unfold select_purchases. rewrite <- order_by_filter. f_equal.
    unfold purchases_join, delete_products, with_products.
    cbn [orders order_items products].
    rewrite filter_flat_map. apply flat_map_ext. intros o.
    rewrite filter_flat_map. apply flat_map_ext. intros oi.
    apply (join_deleted _ pv_product_id). intros p Hp. reflexivity.
Qed.

(** ** One user's checkout and the others *)

Lemma filter_other_user (u v : Z) (cs : list cart_row) :
  v <> u ->
  filter (fun c => c_user_id c =? v) (filter (fun c => negb (c_user_id c =? u)) cs) =
  filter (fun c => c_user_id c =? v) cs.
Proof.
  intros Hne. induction cs as [|c cs IH]; [reflexivity|]. cbn [filter].
  destruct (c_user_id c =? u) eqn:Eu; cbn [negb filter].
  - replace (c_user_id c =? v) with false by (symmetry; apply Z.eqb_neq; lia).
    exact IH.
  - destruct (c_user_id c =? v); rewrite IH; reflexivity.
Qed.

Lemma purchases_join_other (now u v : Z) (db : DB) :
  v <> u -> Forall (fun o => o_id o < next_order_id db) (orders db) ->
  purchases_join v (checked_out now u db) = purchases_join v db.
Proof.
  intros Hne Hbelow. rewrite checked_out_eq. unfold purchases_join.
  cbn [orders order_items products]. rewrite filter_app. cbn [filter o_user_id].
  replace (u =? v) with false by (symmetry; apply Z.eqb_neq; lia).
  rewrite app_nil_r. apply flat_map_ext_in. intros o Ho.
  apply filter_In in Ho as [Ho _]. rewrite Forall_forall in Hbelow.
  specialize (Hbelow o Ho). rewrite filter_app.
  replace (filter (fun oi => oi_order_id oi =? o_id o)
             (map (item_of (next_order_id db)) (select_cart_items u db)))
    with (@nil order_item); [rewrite app_nil_r; reflexivity|].
  symmetry. induction (select_cart_items u db) as [|it items IH]; [reflexivity|].
  cbn [map filter item_of oi_order_id].
  replace (next_order_id db =? o_id o) with false by (symmetry; apply Z.eqb_neq; lia).
  exact IH.
Qed.

(** X15. A successful checkout of user [u], on a store reached by the
    handlers, is invisible to every other user: the users and the
    products are untouched, and for every other user the cart rows are all
    kept, the cart view is as before, and the purchase history is as
    before. *)
Theorem checkout_isolated (faults : schedule) (now u : Z) (db db' : DB) (b : body) :
  store_inv db ->
  checkout faults now u db = (db', Json 200 b) ->
  users db' = users db /\ products db' = products db /\
  forall v, v <> u ->
    (forall c, In c (cart db) -> c_user_id c = v -> In c (cart db')) /\
    view_cart [] v db' = (db', Json 200 (CartRows (select_cart_view v db))) /\
    purchases [] v db' = (db', Json 200 (PurchaseRows (select_purchases v db))).
Proof.
  intros (_ & _ & (_ & Hbelow & _)) H.
  apply checkout_ok_inv in H as (_ & -> & _).
  split; [rewrite checked_out_eq; reflexivity|].
  split; [rewrite checked_out_eq; reflexivity|].
  intros v Hne. split; [|split].
  - intros c Hc Hv. rewrite checked_out_eq. cbn [cart]. apply filter_In.
    split; [exact Hc|]. apply negb_true_iff. apply Z.eqb_neq. lia.
  - rewrite view_cart_run. do 3 f_equal.
    unfold select_cart_view, cart_join. rewrite checked_out_eq. cbn [cart products].
    rewrite filter_other_user by exact Hne. reflexivity.
  - change (purchases [] v (checked_out now u db))
      with (checked_out now u db,
            Json 200 (PurchaseRows (select_purchases v (checked_out now u db)))).
    do 3 f_equal. unfold select_purchases.
    rewrite purchases_join_other by assumption. reflexivity.
Qed.

(** ** The purchase history follows the products, not their prices *)

Lemma map_flat_map {A B C} (h : B -> C) (f : A -> list B) (l : list A) :
  map h (flat_map f l) = flat_map (fun a => map h (f a)) l.
Proof.
  induction l as [|a l IH]; [reflexivity|]. cbn [flat_map].
  rewrite map_app, IH. reflexivity.
Qed.

Lemma insert_desc_map (h : purchase_view -> purchase_view) (r : purchase_view)
    (rs : list purchase_view) :
  (forall x, pv_created_at (h x) = pv_created_at x) ->
  insert_desc (h r) (map h rs) = map h (insert_desc r rs).
Proof.
  intros Hh. induction rs as [|r' rs IH]; [reflexivity|].
  cbn [map insert_desc]. rewrite !Hh.
  destruct (pv_created_at r' <=? pv_created_at r); [reflexivity|].
  cbn [map]. rewrite IH. reflexivity.
Qed.

Lemma order_by_map (h : purchase_view -> purchase_view) (rs : list purchase_view) :
  (forall x, pv_created_at (h x) = pv_created_at x) ->
  order_by_created_at_desc (map h rs) = map h (order_by_created_at_desc rs).
Proof.
  intros Hh. induction rs as [|r rs IH]; [reflexivity|].
  cbn [map order_by_created_at_desc fold_right].
  fold (order_by_created_at_desc (map h rs)) (order_by_created_at_desc rs).
  rewrite IH. apply insert_desc_map. exact Hh.
Qed.

(** X16. After a successful update of product [pid], every user's
    purchase history has the same rows in the same order, and on the rows
    of that product shows the title and the image the update supplied,
    while the price and the quantity of every row stay the ones recorded
    at checkout, whatever price the update set. *)
Theorem purchases_follow_product_update (faults : schedule) (cu pid : Z)
    (data : product_request) (db db1 : DB) (b : body) :
  update_product faults cu pid data db = (db1, Json 200 b) ->
  forall u,
    purchases [] u db1 =
    (db1, Json 200 (PurchaseRows (map (retitled data pid) (select_purchases u db)))) /\
    map pv_price (select_purchases u db1) = map pv_price (select_purchases u db) /\
    map pv_quantity (select_purchases u db1) = map pv_quantity (select_purchases u db).
Proof.
  intros H u. apply update_product_ok_inv in H as (price & _ & _ & ->).
  rewrite updated_products.
  set (g := fun p => if p_id p =? pid then updated data price p else p).
  assert (Hrows : select_purchases u (with_products db (map g (products db))) =
                  map (retitled data pid) (select_purchases u db)).
  { unfold select_purchases.
    rewrite <- order_by_map
      by (intros x; unfold retitled; destruct (pv_product_id x =? pid); reflexivity).
    f_equal. unfold purchases_join, with_products. cbn [orders order_items products].
    rewrite map_flat_map. apply flat_map_ext. intros o.
    rewrite map_flat_map. apply flat_map_ext. intros oi.
    rewrite (filter_map_same (fun p => p_id p =? oi_product_id oi) g)
      by (intros x; unfold g; destruct (p_id x =? pid); reflexivity).
    rewrite !map_map. apply map_ext_in. intros p Hp.
    apply filter_In in Hp as [_ Hp]. apply Z.eqb_eq in Hp.
    unfold g, retitled. cbn [pv_product_id]. rewrite <- Hp.
    destruct (p_id p =? pid); [|reflexivity].
    unfold updated. cbn [p_title p_image pv_order_id pv_created_at pv_title
                         pv_image pv_quantity pv_price].
    destruct (get (pr_title data)), (get (pr_image data)); reflexivity. }
  split; [|split].
  - change (purchases [] u (with_products db (map g (products db))))
      with (with_products db (map g (products db)),
            Json 200 (PurchaseRows
              (select_purchases u (with_products db (map g (products db)))))).
    rewrite Hrows. reflexivity.
  - rewrite Hrows, map_map. apply map_ext. intros r. unfold retitled.
    destruct (pv_product_id r =? pid); reflexivity.
  - rewrite Hrows, map_map. apply map_ext. intros r. unfold retitled.
    destruct (pv_product_id r =? pid); reflexivity.
Qed.

End Properties.

(** * The claims and the further properties on the scenario *)

Section Instances.

#[local] Existing Instance latin1_text.

(** Well-formedness of a concrete store, by evaluation. *)
Ltac wf_by_computation :=
  vm_compute;
  repeat match goal with
         | |- _ /\ _ => split
         | |- NoDup _ => constructor
         | |- Forall _ _ => constructor
         | |- _ = _ => reflexivity
         | |- ~ _ => intro
         | |- _ -> _ => intro
         | H : _ \/ _ |- _ => destruct H
         | H : In _ _ |- _ => destruct H
         | H : False |- _ => destruct H
         | H : _ = _ |- _ => discriminate H
         end.

(** On the scenario's basket, the insertion of the second item fails. *)
Lemma checkout_atomic_witness :
  checkout [None; None; None; Some "Deadlock found"] 1000 buyer basket =
  (basket, Json 500 (ServerError (StoreError "Deadlock found"))).
Proof.
  apply (checkout_atomic _ 1000 buyer basket 3 "Deadlock found").
  - vm_compute. discriminate.
  - reflexivity.
  - vm_compute. lia.
Defined.

(** The buyer checks out two lamps and a vase. *)
Lemma checkout_snapshot_witness :
  orders bought = [mk_order 1 buyer 1000] /\
  map snapshot (items_of_order 1 bought) = [(1, 2, 10%float); (2, 1, 25.5%float)].
Proof.
  assert (Hwf : db_wf basket) by wf_by_computation.
  assert (Hrun : checkout [] 1000 buyer basket = (bought, Json 200 (CheckoutComplete 1)))
    by (vm_compute; reflexivity).
  destruct (checkout_snapshot [] 1000 buyer basket bought _ Hwf Hrun)
    as (_ & Ho & _ & _ & Hs & _).
  split; [exact Ho | exact Hs].
Defined.

(** C2 as stated fails: the buyer's cart holds rows for the lamp and for
    the deleted vase, checkout succeeds, and the order holds an item for
    the lamp only. *)
Lemma checkout_skips_orphaned_row :
  snd (checkout [] 1000 buyer basket_orphaned) = Json 200 (CheckoutComplete 1) /\
  map (fun c => (c_product_id c, c_quantity c))
    (filter (fun c => c_user_id c =? buyer) (cart basket_orphaned)) =
    [(1, 2); (2, 1)] /\
  map (fun oi => (oi_product_id oi, oi_quantity oi))
    (items_of_order 1 (fst (checkout [] 1000 buyer basket_orphaned))) =
    [(1, 2)].
Proof. vm_compute. repeat split. Qed.

(** A token issued at time 0 under the default configuration, a hundred
    seconds later; and Ann's login. *)
Lemma token_identifies_user_witness :
  (exists tok,
     create_token default_config 0 7 = inr tok /\
     jwt_decode tok (SECRET_KEY default_config) 100 = inr (mk_payload 7 86400)) /\
  exists tok,
    login default_config [] 0
      (mk_login_request (sr_email ann) (sr_password ann)) registered =
    (registered, Json 200 (Session tok (mk_user_view 1 "Ann" "ann@example.com"))) /\
    forall f db, jwt_required default_config 100 (Bearer tok) f db = f 1 db.
Proof.
  assert (Hnow : 100 < 0 + 3600 * JWT_EXPIRE_HOURS default_config)
    by (vm_compute; reflexivity).
  assert (Hrange : in_datetime_range (0 + 3600 * JWT_EXPIRE_HOURS default_config) = true)
    by (vm_compute; reflexivity).
  destruct (token_identifies_user default_config 0 100 Hnow Hrange) as [Hdec Hlogin].
  split.
  - destruct (Hdec 7) as (tok & Htok & Hd & _). exists tok. split; assumption.
  - apply (Hlogin [] 0 "salt" ann empty_db registered
             (Signed "replace_this_secret" (mk_payload 1 86400))
             (mk_user_view 1 "Ann" "ann@example.com")).
    vm_compute. reflexivity.
Defined.

(** C4 as stated fails: the owner's update with no field is answered 400,
    not a success. *)
Lemma owner_update_without_fields :
  select_product_owner 1 shop = Some seller /\
  update_product [] seller 1 no_fields shop =
    (shop, Json 400 (Error "nothing to update")).
Proof. vm_compute. split; reflexivity. Qed.

(** Three more lamps in the buyer's basket. *)
Lemma add_to_cart_accumulates_witness :
  cart_entries buyer 1
    (fst (add_to_cart [] buyer (mk_cart_request (Val 1) (Val (NInt 3))) basket)) =
  [mk_cart 1 buyer 1 5].
Proof.
  destruct (add_to_cart_accumulates buyer 1 3
              (mk_cart_request (Val 1) (Val (NInt 3))) basket)
    as (_ & H & _).
  - reflexivity.
  - lia.
  - reflexivity.
  - wf_by_computation.
  - exact (proj1 (H (mk_cart 1 buyer 1 2) eq_refl)).
Defined.

(** C5 as stated fails: an add of -1 takes the buyer's two lamps down to
    one. *)
Lemma negative_amount_decreases :
  cart_entries buyer 1 basket = [mk_cart 1 buyer 1 2] /\
  snd (add_to_cart [] buyer (mk_cart_request (Val 1) (Val (NInt (-1)))) basket) =
    Json 200 (Message "added to cart") /\
  cart_entries buyer 1
    (fst (add_to_cart [] buyer (mk_cart_request (Val 1) (Val (NInt (-1)))) basket)) =
    [mk_cart 1 buyer 1 1].
Proof. vm_compute. repeat split. Qed.



(** The seller lists the lamp. *)
Lemma create_product_stores_witness :
  products (fst (create_product [] seller lamp empty_db)) =
  [mk_product 1 seller "Lamp" "" 10 "" ""].
Proof.
  assert (Hf : py_float (NInt 10) = inr 10%float) by (vm_compute; reflexivity).
  exact (proj1 (proj2 (create_product_stores seller lamp empty_db
                         "Lamp" "" "" "" (NInt 10) 10%float
                         eq_refl eq_refl eq_refl eq_refl eq_refl eq_refl Hf))).
Defined.

(** C7 as stated fails: a price of -5 passes validation and is stored as
    the negative float -5.0. *)
Lemma negative_price_stored :
  create_product [] seller
    (mk_product_request (Val "Lamp") Absent (Val (NInt (-5))) Absent Absent Absent)
    empty_db =
    (mk_db [] [mk_product 1 seller "Lamp" "" (-5)%float "" ""] [] [] [] 1 2 1 1,
     Json 201 (ProductCreated 1)) /\
  PrimFloat.ltb (-5) 0 = true.
Proof. vm_compute. split; reflexivity. Qed.

(** The seller changes the price of the lamp, and nothing else. *)
Lemma update_product_partial_witness :
  update_product [] seller 1 reprice shop =
  (with_products shop
     (map (fun p => if p_id p =? 1 then updated reprice (Some 12.5%float) p else p)
        (products shop)),
   Json 200 (Message "updated")) /\
  products (fst (update_product [] seller 1 reprice shop)) =
  [mk_product 1 seller "Lamp" "" 12.5 "" ""; mk_product 2 seller "Vase" "" 25.5 "" ""].
Proof.
  destruct (update_product_partial [] seller 1 reprice shop eq_refl)
    as (_ & _ & H & _).
  split; [|vm_compute; reflexivity].
  apply H; [reflexivity | vm_compute; discriminate].
Defined.

(** C9 as stated fails: after the vase is deleted the buyer's order still
    holds its item, and the purchase history lists the lamp only. *)
Lemma deleted_product_not_listed :
  orders bought_vase_deleted = [mk_order 1 buyer 1000] /\
  order_items bought_vase_deleted = [mk_item 1 1 2 10; mk_item 1 2 1 25.5] /\
  purchases [] buyer bought_vase_deleted =
    (bought_vase_deleted,
     Json 200 (PurchaseRows [mk_purchase_view 1 1000 1 "Lamp" "" 2 10])).
Proof. vm_compute. repeat split. Qed.

(** The buyer's basket after the vase was deleted: the checkout succeeds,
    its order holds the two lamps only, and both cart rows of the buyer
    are gone, the orphaned one included. *)
Lemma checkout_ignores_orphans_witness :
  map (fun c => (c_product_id c, has_product basket_orphaned c)) (cart basket_orphaned) =
    [(1, true); (2, false)] /\
  exists db',
    checkout [] 1000 buyer basket_orphaned = (db', Json 200 (CheckoutComplete 1)) /\
    cart db' = [] /\
    order_items db' = [mk_item 1 1 2 10].
Proof.
  split; [vm_compute; reflexivity|].
  pose proof (checkout_ignores_orphans [] 1000 buyer basket_orphaned) as Hc.
  cbv zeta in Hc. destruct Hc as (_ & Hok & _).
  destruct Hok as (db' & Hrun & Hcart & _ & Hitems & _).
  - exists (mk_cart 1 buyer 1 2).
    split; [left; reflexivity|]. split; [reflexivity|vm_compute; reflexivity].
  - exists db'. split; [exact Hrun|]. split.
    + rewrite Hcart. vm_compute. reflexivity.
    + rewrite Hitems. vm_compute. reflexivity.
Defined.

(** A product update whose price does not convert to a float leaves the
    shop as it was. A signup under a configuration of 100000000 hours, whose
    expiry no [datetime] holds, answers 500 and leaves Ann registered. *)
Lemma failure_changes_nothing_witness :
  handle (Call (UpdateProduct [] seller 1
                  (mk_product_request (Val "Desk lamp") Absent
                     (Val (NInt (10 ^ 400))) Absent Absent Absent))) shop =
  (shop, 500) /\
  handle (Call (Signup (mk_config "replace_this_secret" 100000000) [] 0 "salt" ann))
    empty_db =
  (registered, 500).
Proof.
  split; [|vm_compute; reflexivity].
  assert (Hpair : forall x, fst x = shop -> snd x = 500 -> x = (shop, 500)).
  { intros [a b]. cbn. intros -> ->. reflexivity. }
  apply Hpair; [|vm_compute; reflexivity].
  destruct (failure_changes_nothing
              (Call (UpdateProduct [] seller 1
                       (mk_product_request (Val "Desk lamp") Absent
                          (Val (NInt (10 ^ 400))) Absent Absent Absent))) shop)
    as [Hsame | (cfg & faults & now & salt & data & username & email & password &
                 Hreq & _)].
  - vm_compute. reflexivity.
  - exact Hsame.
  - discriminate Hreq.
Defined.

(** Ann signs up; "ANN@EXAMPLE.COM" then names her account. *)
Lemma email_identifies_account_witness :
  login default_config [] 9
    (mk_login_request (Val "ANN@EXAMPLE.COM") (Val "s3cret")) registered =
  (registered,
   Json 200 (Session (Signed "replace_this_secret" (mk_payload 1 86409))
               (mk_user_view 1 "Ann" "ann@example.com"))) /\
  signup default_config [] 9 "pepper"
    (mk_signup_request (Val "Anna") (Val "ANN@EXAMPLE.COM") (Val "other")) registered =
  (registered, Json 400 (Error "email already registered")).
Proof.
  assert (Hrun : signup default_config [] 0 "salt" ann empty_db =
                 (registered,
                  Json 201 (Session (Signed "replace_this_secret" (mk_payload 1 86400))
                              (mk_user_view 1 "Ann" "ann@example.com"))))
    by (vm_compute; reflexivity).
  destruct (email_identifies_account _ _ _ _ _ _ _ _ _ Hrun) as (e & Ee & Hall).
  injection Ee as <-.
  destruct (Hall "ANN@EXAMPLE.COM" eq_refl) as [Hlogin Hsignup].
  split.
  - apply (Hlogin 9). vm_compute. reflexivity.
  - exact (Hsignup default_config 9 "pepper" "Anna" "other" eq_refl eq_refl).
Defined.

(** The buyer lists a lamp of their own in the shop: it is product 3, and
    after the buyer deletes it the shop has its two products again. *)
Lemma product_lifecycle_witness :
  db_wf shop /\
  products (delete_products 3 (fst (create_product [] buyer lamp shop))) =
  products shop.
Proof.
  assert (Hwf : db_wf shop) by wf_by_computation.
  split; [exact Hwf|].
  destruct (product_lifecycle [] buyer lamp shop
              (fst (create_product [] buyer lamp shop)) 3 Hwf)
    as (p & _ & _ & _ & _ & _ & _ & _ & Hback & _).
  - vm_compute. reflexivity.
  - exact Hback.
Defined.

(** Ann renames herself and moves to a new address: the new one logs in,
    with the password she signed up with. *)
Lemma update_profile_moves_account_witness :
  login default_config [] 5
    (mk_login_request (Val " Ann.B@Example.com ") (Val "s3cret"))
    (update_user "Ann B" "ann.b@example.com" 1 registered) =
  (update_user "Ann B" "ann.b@example.com" 1 registered,
   Json 200 (Session (Signed "replace_this_secret" (mk_payload 1 86405))
               (mk_user_view 1 "Ann B" "ann.b@example.com"))).
Proof.
  assert (Hwf : users_wf registered) by wf_by_computation.
  destruct (update_profile_moves_account 1 " Ann B" " Ann.B@Example.com " registered
              (mk_user 1 "Ann" "ann@example.com" (generate_password_hash "salt" "s3cret"))
              Hwf (or_introl eq_refl) eq_refl eq_refl eq_refl)
    as [_ Hfree].
  destruct Hfree as (_ & _ & _ & _ & Hlogin & _).
  - intros other [<-|[]]. vm_compute. discriminate.
  - exact (Hlogin default_config 5 "s3cret" _ eq_refl eq_refl eq_refl).
Defined.

(** A third product in the shop comes before the vase and the lamp. *)
Lemma new_product_listed_first_witness :
  db_wf shop /\
  exists p before,
    list_products (fun _ _ => false) [] None None shop =
    (shop, Listed 200 (ProductRows before)) /\
    list_products (fun _ _ => false) [] None None
      (fst (create_product [] buyer lamp shop)) =
    (fst (create_product [] buyer lamp shop), Listed 200 (ProductRows (p :: before))) /\
    p_id p = 3 /\ p_user_id p = buyer.
Proof.
  assert (Hwf : db_wf shop) by wf_by_computation.
  split; [exact Hwf|].
  apply (new_product_listed_first (fun _ _ => false) [] buyer lamp shop
           (fst (create_product [] buyer lamp shop)) 3 Hwf).
  vm_compute. reflexivity.
Defined.

(** The seller reprices the lamp while it is in the buyer's basket: the
    basket shows 12.5, and the checkout charges 12.5 for it. *)
Lemma cart_follows_product_update_witness :
  exists price,
    requested_price reprice = inr price /\
    forall u,
      view_cart [] u (fst (update_product [] seller 1 reprice basket)) =
      (fst (update_product [] seller 1 reprice basket),
       Json 200 (CartRows (map (refreshed reprice price 1) (select_cart_view u basket)))) /\
      forall now,
        order_items (fst (checkout [] now u (fst (update_product [] seller 1 reprice basket)))) =
        order_items basket ++
        map (item_of (next_order_id basket))
          (map (repriced price 1) (select_cart_items u basket)).
Proof.
  apply (cart_follows_product_update [] seller 1 reprice basket
           (fst (update_product [] seller 1 reprice basket)) (Message "updated")).
  vm_compute. reflexivity.
Defined.

(** The buyer asks for product 99, which the shop does not have: the
    answer is 200 and the buyer's cart still reads empty. *)
Lemma add_to_cart_unknown_product_witness :
  add_to_cart [] buyer (mk_cart_request (Val 99) Absent) shop =
  (fst (add_to_cart [] buyer (mk_cart_request (Val 99) Absent) shop),
   Json 200 (Message "added to cart")) /\
  view_cart [] buyer (fst (add_to_cart [] buyer (mk_cart_request (Val 99) Absent) shop)) =
  (fst (add_to_cart [] buyer (mk_cart_request (Val 99) Absent) shop),
   Json 200 (CartRows [])).
Proof.
  assert (Hwf : cart_wf shop) by wf_by_computation.
  destruct (add_to_cart_unknown_product buyer 99 1 (mk_cart_request (Val 99) Absent)
              shop Hwf eq_refl) as (Hok & _ & Hview & _).
  - lia.
  - reflexivity.
  - intros x [<-|[<-|[]]]; vm_compute; discriminate.
  - split; [exact Hok|exact (Hview buyer)].
Defined.

(** The buyer's basket, bought at time 1000: the history, empty before,
    has the two rows the cart view showed. *)
Lemma purchases_after_checkout_witness :
  exists rows,
    purchases [] buyer bought = (bought, Json 200 (PurchaseRows rows)) /\
    Permutation rows
      [mk_purchase_view 1 1000 1 "Lamp" "" 2 10; mk_purchase_view 1 1000 2 "Vase" "" 1 25.5] /\
    List.length rows = 2%nat.
Proof.
  assert (Hinv : store_inv basket) by wf_by_computation.
  destruct (purchases_after_checkout [] 1000 buyer basket bought (CheckoutComplete 1) Hinv)
    as (_ & rows & Hrun & Hperm & _ & Hlen).
  - vm_compute. reflexivity.
  - exists rows. split; [exact Hrun|]. split; [exact Hperm|exact Hlen].
Defined.

(** The seller deletes the vase after the buyer bought it: the order item
    is kept, the history no longer shows it. *)
Lemma delete_hides_rows_witness :
  order_items bought_vase_deleted = order_items bought /\
  purchases [] buyer bought_vase_deleted =
  (bought_vase_deleted,
   Json 200 (PurchaseRows
     (filter (fun r => negb (pv_product_id r =? 2)) (select_purchases buyer bought)))).
Proof.
  destruct (delete_hides_rows [] seller 2 bought bought_vase_deleted (Message "deleted"))
    as (_ & _ & _ & Hitems & _ & Hrows).
  - vm_compute. reflexivity.
  - split; [exact Hitems|]. exact (proj2 (Hrows buyer)).
Defined.

(** The buyer checks out: the seller's cart and history read as before. *)
Lemma checkout_isolated_witness :
  view_cart [] seller bought =
  (bought, Json 200 (CartRows (select_cart_view seller basket))) /\
  purchases [] seller bought =
  (bought, Json 200 (PurchaseRows (select_purchases seller basket))).
Proof.
  destruct (checkout_isolated [] 1000 buyer basket bought (CheckoutComplete 1))
    as (_ & _ & Hothers).
  - wf_by_computation.
  - vm_compute. reflexivity.
  - destruct (Hothers seller) as (_ & Hview & Hhist).
    + vm_compute. discriminate.
    + split; [exact Hview|exact Hhist].
Defined.

(** The seller reprices the lamp after the buyer bought it: the history
    keeps the prices paid. *)
Lemma purchases_follow_product_update_witness :
  map pv_price (select_purchases buyer (fst (update_product [] seller 1 reprice bought))) =
  map pv_price (select_purchases buyer bought).
Proof.
  destruct (purchases_follow_product_update [] seller 1 reprice bought
              (fst (update_product [] seller 1 reprice bought)) (Message "updated"))
    with (u := buyer) as (_ & Hprice & _).
  - vm_compute. reflexivity.
  - exact Hprice.
Defined.

End Instances.
